(** * clevv-api-sync: catalog ingestion handlers

    A shallow embedding of the four catalog-sync entry points and of the
    WhatsApp product-sync function, with the properties of the design
    document stated over them.

    - [JS]            the fragment of JavaScript values and builtins the
                      handlers rely on (truthiness, [||], member access,
                      [toString], [parseFloat], [trim], [slice]).
    - [Store]         the tables behind the Supabase client: API keys, store
                      mappings, listings and the request log.
    - [Shopify]       the three variants of the Shopify product transform.
    - [EdgeSync]      [serve], the edge function (second document of
                      src/unnamed/part_000).
    - [ApiKeySync]    [handler], API key only (first document of
                      src/unnamed/part_000).
    - [StoreMappingSync] [handler] of src/unnamed/part_001.
    - [CatalogSync]   [handler] of src/netlify/functions/catalog-sync.ts.
    - [WhatsApp]      src/netlify/functions/whatsapp_product_sync.ts.
    - [Spec]          the vocabulary of the properties.
    - [Sample]        concrete runtimes, tables and requests.

    The client library, the database, the clock, the extraction service and
    the WhatsApp API are outside the repository.  The tables are modelled as
    lists of rows with the lookups and the keyed upsert the handlers ask
    for; what the code cannot decide (the clock, the constraints of the
    listings table, the replies of the services of the conversational
    channel) is a parameter: [Store.Runtime], [WhatsApp.World]. *)

From Stdlib Require Import String Ascii List ZArith Bool Lia DecimalString.
Import ListNotations.
Open Scope string_scope.
Set Warnings "-register-all".

(* ===================================================================== *)
(** ** JavaScript values *)
(* ===================================================================== *)

Module JS.

(** A JavaScript number.  Finite numbers are kept as exact decimals
    [m * 10^e]; this agrees with what the engine computes for literals of at
    most 15 significant digits inside the range of a double, which is where
    prices, quantities and platform ids live.  Rounding to binary64 is not
    modelled. *)
Inductive number : Type :=
| NaN
| Inf (negative : bool)
| Dec (m e : Z).

(** A value as [JSON.parse] produces it, plus [undefined], which member
    access produces.  An object is the list of its own properties; a parsed
    object has each key once.  A string is the sequence of its code units,
    one [ascii] each, which is exact for ASCII text; the message texts that
    hold other characters are only ever copied. *)
Inductive value : Type :=
| VUndef
| VNull
| VBool (b : bool)
| VNum (n : number)
| VStr (s : string)
| VArr (items : list value)
| VObj (fields : list (string * value)).

(** What can be thrown: the engine's TypeError, the SyntaxError of
    [JSON.parse], and the [new Error(...)] the code throws when an upstream
    service does not answer with success. *)
Inductive exn : Type :=
| TypeError
| SyntaxError
| UpstreamError.

(** The result of a computation that may throw. *)
Inductive outcome (A : Type) : Type :=
| Ok (a : A)
| Throw (e : exn).
Arguments Ok {A} a.
Arguments Throw {A} e.

Definition bind {A B : Type} (x : outcome A) (f : A -> outcome B) : outcome B :=
  match x with
  | Ok a => f a
  | Throw e => Throw e
  end.

Notation "'let*' x ':=' c 'in' k" := (bind c (fun x => k))
  (at level 10, x name, c at level 100, k at level 200).

(** *** Truthiness and [||] *)

Definition num_truthy (n : number) : bool :=
  match n with
  | NaN => false
  | Inf _ => true
  | Dec m _ => negb (m =? 0)%Z
  end.

Definition truthy (v : value) : bool :=
  match v with
  | VUndef | VNull => false
  | VBool b => b
  | VNum n => num_truthy n
  | VStr s => negb (s =? "")
  | VArr _ | VObj _ => true
  end.

(** [a || b] *)
Definition or_ (a b : value) : value := if truthy a then a else b.

(** [a ?? b] *)
Definition nullish (v : value) : bool :=
  match v with VUndef | VNull => true | _ => false end.

Definition coalesce (a b : value) : value := if nullish a then b else a.

(** *** Member access

    The handlers read named properties none of which is defined on a builtin
    prototype, so a named property of anything but an object is
    [undefined]. *)

Fixpoint assoc (k : string) (fs : list (string * value)) : value :=
  match fs with
  | [] => VUndef
  | (k', v) :: rest => if k =? k' then v else assoc k rest
  end.

Definition has_key (k : string) (fs : list (string * value)) : bool :=
  existsb (fun kv => k =? fst kv) fs.

(** [v?.k]: also the value of [v.k] when [v] is neither [null] nor
    [undefined]. *)
Definition prop (v : value) (k : string) : value :=
  match v with
  | VObj fs => assoc k fs
  | _ => VUndef
  end.

(** [v.k]: a TypeError on [null] and [undefined]. *)
Definition get (v : value) (k : string) : outcome value :=
  if nullish v then Throw TypeError else Ok (prop v k).

(** [v?.[0]] *)
Definition first_elem (v : value) : value :=
  match v with
  | VArr (x :: _) => x
  | VStr (String c _) => VStr (String c "")
  | VObj fs => assoc "0" fs
  | _ => VUndef
  end.

(** [v.length] for a [v] that is not [null] or [undefined]. *)
Definition length_of (v : value) : value :=
  match v with
  | VArr l => VNum (Dec (Z.of_nat (List.length l)) 0)
  | VStr s => VNum (Dec (Z.of_nat (String.length s)) 0)
  | VObj fs => assoc "length" fs
  | _ => VUndef
  end.

(** [k in v], for the keys the handlers test (never an index, never
    ["length"]): a TypeError unless [v] is an object or an array. *)
Definition in_ (k : string) (v : value) : outcome bool :=
  match v with
  | VObj fs => Ok (has_key k fs)
  | VArr _ => Ok false
  | _ => Throw TypeError
  end.

Definition is_array (v : value) : bool :=
  match v with VArr _ => true | _ => false end.

(** The items a [for ... of] loop or a spread visits; a TypeError when the
    value is not iterable. *)
Fixpoint chars (s : string) : list value :=
  match s with
  | EmptyString => []
  | String c rest => VStr (String c "") :: chars rest
  end.

Definition iterate (v : value) : outcome (list value) :=
  match v with
  | VArr l => Ok l
  | VStr s => Ok (chars s)
  | _ => Throw TypeError
  end.

(** *** Strings *)

Definition is_space (c : ascii) : bool :=
  let n := nat_of_ascii c in
  (((9 <=? n) && (n <=? 13)) || (n =? 32) || (n =? 160))%nat.

Fixpoint trim_start (s : string) : string :=
  match s with
  | String c rest => if is_space c then trim_start rest else s
  | EmptyString => EmptyString
  end.

Fixpoint string_rev_onto (s acc : string) : string :=
  match s with
  | EmptyString => acc
  | String c rest => string_rev_onto rest (String c acc)
  end.

Definition string_rev (s : string) : string := string_rev_onto s "".

Definition trim_end (s : string) : string :=
  string_rev (trim_start (string_rev s)).

(** [s.trim()] *)
Definition trim (s : string) : string := trim_end (trim_start s).

(** [s.startsWith(p)] *)
Definition starts_with (p s : string) : bool := String.prefix p s.

Fixpoint drop (n : nat) (s : string) : string :=
  match n, s with
  | O, _ => s
  | S n', String _ rest => drop n' rest
  | S _, EmptyString => EmptyString
  end.

Fixpoint take (n : nat) (s : string) : string :=
  match n, s with
  | O, _ => EmptyString
  | S n', String c rest => String c (take n' rest)
  | S _, EmptyString => EmptyString
  end.

(** [s.replace(p, "")] with a string pattern: the first occurrence only. *)
Fixpoint remove_first (p s : string) : string :=
  if String.prefix p s then drop (String.length p) s
  else match s with
       | EmptyString => EmptyString
       | String c rest => String c (remove_first p rest)
       end.

(** *** Numbers and strings *)

Definition is_digit (c : ascii) : bool :=
  let n := nat_of_ascii c in ((48 <=? n) && (n <=? 57))%nat.

Fixpoint take_digits (s : string) : string * string :=
  match s with
  | String c rest =>
      if is_digit c
      then let '(d, r) := take_digits rest in (String c d, r)
      else (EmptyString, s)
  | EmptyString => (EmptyString, EmptyString)
  end.

Fixpoint digits_value (acc : Z) (s : string) : Z :=
  match s with
  | EmptyString => acc
  | String c rest =>
      digits_value (10 * acc + (Z.of_nat (nat_of_ascii c) - 48))%Z rest
  end.

Definition take_sign (s : string) : bool * string :=
  match s with
  | String "-"%char rest => (true, rest)
  | String "+"%char rest => (false, rest)
  | _ => (false, s)
  end.

Definition signed (negative : bool) (z : Z) : Z :=
  if negative then (- z)%Z else z.

(** The exponent part of a decimal literal: it counts only when a digit
    follows the [e] and its optional sign. *)
Definition exponent_part (s : string) : Z :=
  match s with
  | String c rest =>
      if ((c =? "e") || (c =? "E"))%char
      then let '(neg, r) := take_sign rest in
           let '(d, _) := take_digits r in
           if d =? "" then 0%Z else signed neg (digits_value 0 d)
      else 0%Z
  | EmptyString => 0%Z
  end.

(** [parseFloat] on a string: leading white space is skipped, the longest
    prefix that is a decimal literal is read, and anything else is [NaN]. *)
Definition parseFloat_string (s : string) : number :=
  let '(neg, s1) := take_sign (trim_start s) in
  if String.prefix "Infinity" s1 then Inf neg
  else
    let '(ip, s2) := take_digits s1 in
    let '(fp, s3) :=
      match s2 with
      | String "."%char rest => take_digits rest
      | _ => (EmptyString, s2)
      end in
    if ((ip =? "") && (fp =? ""))%bool then NaN
    else Dec (signed neg (digits_value 0 (ip ++ fp)))
             (exponent_part s3 - Z.of_nat (String.length fp)).

Fixpoint drop_zeros (s : string) : string :=
  match s with
  | String "0"%char rest => drop_zeros rest
  | _ => s
  end.

Fixpoint zeros (n : nat) : string :=
  match n with
  | O => EmptyString
  | S n' => String "0"%char (zeros n')
  end.

Definition nat_digits (n : nat) : string :=
  NilZero.string_of_uint (Nat.to_uint n).

Definition Z_digits (z : Z) : string :=
  NilZero.string_of_uint (N.to_uint (Z.abs_N z)).

(** [Number.prototype.toString] (radix 10): with [k] significant digits [s]
    and the decimal point after the [n]-th of them, plain notation when
    [-6 < n <= 21] and exponent notation otherwise. *)
Definition number_to_string (x : number) : string :=
  match x with
  | NaN => "NaN"
  | Inf neg => if neg then "-Infinity" else "Infinity"
  | Dec m e =>
      if (m =? 0)%Z then "0"
      else
        let all := Z_digits m in
        let s := string_rev (drop_zeros (string_rev all)) in
        let k := Z.of_nat (String.length s) in
        let n := (Z.of_nat (String.length all) + e)%Z in
        let body :=
          if ((k <=? n) && (n <=? 21))%Z then s ++ zeros (Z.to_nat (n - k))
          else if ((0 <? n) && (n <=? 21))%Z
               then take (Z.to_nat n) s ++ "." ++ drop (Z.to_nat n) s
          else if ((-6 <? n) && (n <=? 0))%Z
               then "0." ++ zeros (Z.to_nat (- n)) ++ s
          else
            let ex := (if (0 <=? n - 1)%Z then "+" else "-") ++ Z_digits (n - 1) in
            if (k =? 1)%Z then s ++ "e" ++ ex
            else take 1 s ++ "." ++ drop 1 s ++ "e" ++ ex in
        if (m <? 0)%Z then "-" ++ body else body
  end.

(** [String(v)], which is also [v.toString()] where that is defined and what
    a template literal inserts.  An object that has an own [toString]
    property (never a function in parsed JSON) cannot be converted: a
    TypeError. *)
Fixpoint to_string (v : value) : outcome string :=
  match v with
  | VUndef => Ok "undefined"
  | VNull => Ok "null"
  | VBool b => Ok (if b then "true" else "false")
  | VNum n => Ok (number_to_string n)
  | VStr s => Ok s
  | VArr l =>
      (fix join (l : list value) : outcome string :=
         match l with
         | [] => Ok ""
         | x :: rest =>
             let* sx := (if nullish x then Ok "" else to_string x) in
             match rest with
             | [] => Ok sx
             | _ => let* sr := join rest in Ok (sx ++ "," ++ sr)
             end
         end) l
  | VObj fs => if has_key "toString" fs then Throw TypeError
               else Ok "[object Object]"
  end.

(** [v.toString()]: a TypeError on [null] and [undefined]. *)
Definition toString (v : value) : outcome string :=
  if nullish v then Throw TypeError else to_string v.

(** [parseFloat(v)] converts its argument to a string first. *)
Definition parseFloat (v : value) : outcome number :=
  let* s := to_string v in Ok (parseFloat_string s).

(** [v.slice(0, n)]: strings and arrays have it, nothing else does. *)
Definition slice_to (n : nat) (v : value) : outcome value :=
  match v with
  | VStr s => Ok (VStr (take n s))
  | VArr l => Ok (VArr (firstn n l))
  | _ => Throw TypeError
  end.

(** Equality of two finite decimals, compared at the smaller exponent. *)
Definition number_eqb (x y : number) : bool :=
  match x, y with
  | NaN, NaN => true
  | Inf a, Inf b => Bool.eqb a b
  | Dec m e, Dec m' e' =>
      let lo := Z.min e e' in
      (m * 10 ^ (e - lo) =? m' * 10 ^ (e' - lo))%Z
  | _, _ => false
  end.

(** SameValueZero, the equality of [Set]: primitives by value, objects and
    arrays by identity (two parsed objects are never the same one). *)
Definition same_value_zero (a b : value) : bool :=
  match a, b with
  | VUndef, VUndef | VNull, VNull => true
  | VBool x, VBool y => Bool.eqb x y
  | VNum x, VNum y => number_eqb x y
  | VStr x, VStr y => x =? y
  | _, _ => false
  end.

(** [Array.from(new Set(l))]: the first occurrence of each value, in
    order. *)
Fixpoint dedup_onto (seen l : list value) : list value :=
  match l with
  | [] => []
  | x :: rest =>
      if existsb (same_value_zero x) seen then dedup_onto seen rest
      else x :: dedup_onto (x :: seen) rest
  end.

Definition dedup (l : list value) : list value := dedup_onto [] l.

(** Strict equality [a === b] on strings that may be [null]. *)
Definition opt_string_eqb (a b : option string) : bool :=
  match a, b with
  | Some x, Some y => x =? y
  | None, None => true
  | _, _ => false
  end.

End JS.

(* ===================================================================== *)
(** ** The tables behind the Supabase client *)
(* ===================================================================== *)

Module Store.
Import JS.

(** A row of [vendor_listings], as the JSON object the client sends: column
    name and value. *)
Definition row : Type := list (string * value).

(** [vendor_api_keys] *)
Record ApiKey : Type := {
  key_id : string;
  api_key : string;
  vendor_id : string;
  is_active : bool;
  last_used_at : option string
}.

(** [shopify_store_mappings] *)
Record StoreMapping : Type := {
  store_name : string;
  shop_url : string;
  mapped_vendor_id : string
}.

(** Modelled from the spec: the AuditEntry that [logRequest] writes.  src/
    calls [logRequest] but does not define it; the entry keeps the arguments
    of the call (the duration, which is real time, aside). *)
Record AuditEntry : Type := {
  log_vendor_id : option string;
  log_key_id : option string;
  http_status : Z;
  message : string;
  client_ip : string;
  user_agent : string;
  raw_request : option value
}.

Record DB : Type := {
  vendor_api_keys : list ApiKey;
  shopify_store_mappings : list StoreMapping;
  vendor_listings : list row;
  request_log : list AuditEntry;
  ticks : nat
}.

(** What the code cannot decide by itself: the wall clock ([clock n] is the
    ISO timestamp of the [n]-th reading), the constraints of
    [vendor_listings] (the error message when the table, as it stands,
    refuses a row) and the wording of the engine's error messages. *)
Record Runtime : Type := {
  clock : nat -> string;
  refuse : list row -> row -> option string;
  exn_message : exn -> string
}.

Definition set_listings (t : list row) (db : DB) : DB :=
  {| vendor_api_keys := vendor_api_keys db;
     shopify_store_mappings := shopify_store_mappings db;
     vendor_listings := t;
     request_log := request_log db;
     ticks := ticks db |}.

Definition set_keys (ks : list ApiKey) (db : DB) : DB :=
  {| vendor_api_keys := ks;
     shopify_store_mappings := shopify_store_mappings db;
     vendor_listings := vendor_listings db;
     request_log := request_log db;
     ticks := ticks db |}.

(** [new Date().toISOString()] *)
Definition now (rt : Runtime) (db : DB) : string * DB :=
  (clock rt (ticks db),
   {| vendor_api_keys := vendor_api_keys db;
      shopify_store_mappings := shopify_store_mappings db;
      vendor_listings := vendor_listings db;
      request_log := request_log db;
      ticks := S (ticks db) |}).

(** Modelled from the spec: [logRequest], which src/ calls but does not
    define: one AuditEntry is appended, and logging never alters the
    response. *)
Definition logRequest (e : AuditEntry) (db : DB) : DB :=
  {| vendor_api_keys := vendor_api_keys db;
     shopify_store_mappings := shopify_store_mappings db;
     vendor_listings := vendor_listings db;
     request_log := (request_log db ++ [e])%list;
     ticks := ticks db |}.

(** [.maybeSingle()]: no row is [data: null] without an error, several rows
    are an error. *)
Inductive single (A : Type) : Type :=
| NoRow
| OneRow (a : A)
| ManyRows.
Arguments NoRow {A}.
Arguments OneRow {A} a.
Arguments ManyRows {A}.

Definition maybeSingle {A : Type} (rows : list A) : single A :=
  match rows with
  | [] => NoRow
  | [a] => OneRow a
  | _ => ManyRows
  end.

(** The lookups a handler issues while it resolves the vendor. *)
Inductive Query : Type :=
| KeyQuery (token : string)
| MappingQuery (column text : string).

(** [from('vendor_api_keys').eq('api_key', token).eq('is_active', true)] *)
Definition find_api_key (token : string) (db : DB) : single ApiKey :=
  maybeSingle
    (filter (fun k => (api_key k =? token) && Bool.eqb (is_active k) true)
            (vendor_api_keys db)).

(** [from('vendor_api_keys').update({ last_used_at }).eq('id', id)] *)
Definition touch_api_key (id stamp : string) (db : DB) : DB :=
  set_keys
    (map (fun k =>
            if key_id k =? id
            then {| key_id := key_id k; api_key := api_key k;
                    vendor_id := vendor_id k; is_active := is_active k;
                    last_used_at := Some stamp |}
            else k)
         (vendor_api_keys db))
    db.

(** [from('shopify_store_mappings').eq(column, text)] *)
Definition find_mapping (column text : string) (db : DB) : single StoreMapping :=
  maybeSingle
    (filter (fun m =>
               if column =? "store_name" then store_name m =? text
               else if column =? "shop_url" then shop_url m =? text
               else false)
            (shopify_store_mappings db)).

(** *** Upsert into [vendor_listings] *)

(** What [JSON.stringify] makes of a value, read back: a number that is
    not finite becomes [null], [undefined] becomes [null] in an array, and a
    property whose value is [undefined] is left out. *)
Fixpoint json_of (v : value) : value :=
  match v with
  | VNum NaN | VNum (Inf _) => VNull
  | VArr items =>
      VArr (map (fun x => match x with VUndef => VNull | _ => json_of x end) items)
  | VObj fields =>
      VObj ((fix properties (fs : list (string * value)) : list (string * value) :=
               match fs with
               | [] => []
               | (k, VUndef) :: rest => properties rest
               | (k, x) :: rest => (k, json_of x) :: properties rest
               end) fields)
  | _ => v
  end.

(** The row as it travels: the properties of [JSON.stringify(payload)]. *)
Definition serialize (r : row) : row :=
  match json_of (VObj r) with
  | VObj fields => fields
  | _ => []
  end.

(** A key column as the store compares it: text.  [null] (and a column that
    is absent) never equals anything; strings and numbers are compared by
    their text.  Other values are not keys the model covers. *)
Definition key_text (v : value) : option string :=
  match v with
  | VStr s => Some s
  | VNum n => Some (number_to_string n)
  | _ => None
  end.

Definition same_key (cols : list string) (a b : row) : bool :=
  forallb (fun c =>
             match key_text (assoc c a), key_text (assoc c b) with
             | Some x, Some y => x =? y
             | _, _ => false
             end) cols.

(** On conflict the columns of the incoming row overwrite the stored ones;
    a column the incoming row does not name keeps its value. *)
Definition merge (incoming stored : row) : row :=
  (incoming ++ filter (fun kv => negb (has_key (fst kv) incoming)) stored)%list.

Fixpoint upsert_on (cols : list string) (incoming : row) (t : list row)
  : list row * row :=
  match t with
  | [] => ([incoming], incoming)
  | r :: rest =>
      if same_key cols incoming r
      then (merge incoming r :: rest, merge incoming r)
      else let '(rest', stored) := upsert_on cols incoming rest in
           (r :: rest', stored)
  end.

(** [from('vendor_listings').upsert(payload, { onConflict })]: the error
    message, or the row as stored. *)
Definition upsert (rt : Runtime) (onConflict : list string) (payload : row)
    (db : DB) : (string + row) * DB :=
  let incoming := serialize payload in
  match refuse rt (vendor_listings db) incoming with
  | Some msg => (inl msg, db)
  | None =>
      let '(t, stored) := upsert_on onConflict incoming (vendor_listings db) in
      (inr stored, set_listings t db)
  end.

(** The conflict target the handlers name. *)
Definition vendor_external : list string := ["vendor_id"; "external_id"].

(** The listings stored for a (vendor, external id) pair. *)
Definition listings_of (vendor external : string) (t : list row) : list row :=
  filter (fun r =>
            opt_string_eqb (key_text (assoc "vendor_id" r)) (Some vendor) &&
            opt_string_eqb (key_text (assoc "external_id" r)) (Some external))
         t.

End Store.

(* ===================================================================== *)
(** ** Requests and responses *)
(* ===================================================================== *)

Module Http.
Import JS.

(** The request body: absent (or the empty string), not JSON, or JSON. *)
Inductive Body : Type :=
| NoBody
| Unparsable
| Json (v : value).

(** [JSON.parse(event.body || '{}')] *)
Definition parse_event_body (b : Body) : outcome value :=
  match b with
  | NoBody => Ok (VObj [])
  | Unparsable => Throw SyntaxError
  | Json v => Ok v
  end.

(** [await req.json()] *)
Definition req_json (b : Body) : outcome value :=
  match b with
  | NoBody | Unparsable => Throw SyntaxError
  | Json v => Ok v
  end.

(** A request or a Netlify event; header names are in lower case, as both
    platforms deliver them. *)
Record Request : Type := {
  method : string;
  headers : list (string * string);
  body : Body
}.

Fixpoint header (name : string) (hs : list (string * string)) : option string :=
  match hs with
  | [] => None
  | (k, v) :: rest => if name =? k then Some v else header name rest
  end.

(** [h || d] for a header that may be absent or empty. *)
Definition header_or (h : option string) (d : string) : string :=
  match h with
  | Some s => if s =? "" then d else s
  | None => d
  end.

(** A response: the status and the body before [JSON.stringify]. *)
Record Response : Type := {
  status : Z;
  payload : value
}.

Definition error_response (code : Z) (msg : string) : Response :=
  {| status := code; payload := VObj [("error", VStr msg)] |}.

Definition num (n : nat) : value := VNum (Dec (Z.of_nat n) 0).

End Http.

(* ===================================================================== *)
(** ** The Shopify product transform: what the variants share *)
(* ===================================================================== *)

Module Shopify.
Import JS.

(** [b.variants?.[0]] *)
Definition first_variant (b : value) : value := first_elem (prop b "variants").

(** [parseFloat(b.variants?.[0]?.price || '0')] *)
Definition price (b : value) : outcome value :=
  let* n := parseFloat (or_ (prop (first_variant b) "price") (VStr "0")) in
  Ok (VNum n).

(** [b.product_type || 'Uncategorized'] *)
Definition category (b : value) : value :=
  or_ (prop b "product_type") (VStr "Uncategorized").

(** [b.variants?.[0]?.inventory_quantity || 0] *)
Definition inventory_count (b : value) : value :=
  or_ (prop (first_variant b) "inventory_quantity") (VNum (Dec 0 0)).

(** [(img) => img.src] over an array *)
Fixpoint sources (imgs : list value) : outcome (list value) :=
  match imgs with
  | [] => Ok []
  | img :: rest =>
      let* src := get img "src" in
      let* srcs := sources rest in
      Ok (src :: srcs)
  end.

(** [b.images?.map((img) => img.src) || []]: only an array has [map]. *)
Definition images (b : value) : outcome value :=
  match prop b "images" with
  | VUndef | VNull => Ok (VArr [])
  | VArr imgs => let* srcs := sources imgs in Ok (VArr srcs)
  | _ => Throw TypeError
  end.

End Shopify.

(* ===================================================================== *)
(** ** [serve]: the edge function (src/unnamed/part_000, second document) *)
(* ===================================================================== *)

Module EdgeSync.
Import JS Store Http.

Definition MISSING_AUTH : string := "Missing or invalid Authorization header".
Definition INVALID_KEY : string := "Invalid API key".
Definition PRODUCTS_REQUIRED : string :=
  "Invalid request body: products array required".
Definition EMPTY_PRODUCTS : string := "Empty products array".
Definition MISSING_FIELDS : string :=
  "Product missing required fields: external_id and title are required".

(** The request body a Shopify webhook is turned into. *)
Definition shopify_request (rawBody : value) : outcome value :=
  let* external_id := toString (prop rawBody "id") in
  let* price := Shopify.price rawBody in
  let* images := Shopify.images rawBody in
  Ok (VObj [("products", VArr [VObj [
        ("external_id", VStr external_id);
        ("title", prop rawBody "title");
        ("description", or_ (prop rawBody "body_html") (VStr ""));
        ("price", price);
        ("category", Shopify.category rawBody);
        ("inventory_count", Shopify.inventory_count rawBody);
        ("status", or_ (prop rawBody "status") (VStr "active"));
        ("images", images);
        ("metadata", VObj [
           ("vendor", or_ (prop rawBody "vendor") (VStr "Unknown"));
           ("shopify_handle", prop rawBody "handle")])]])]).

(** ['title' in rawBody && 'variants' in rawBody ? { products: [...] } : rawBody] *)
Definition requestBody_of (rawBody : value) : outcome value :=
  let* has_title := in_ "title" rawBody in
  if has_title
  then let* has_variants := in_ "variants" rawBody in
       if has_variants then shopify_request rawBody else Ok rawBody
  else Ok rawBody.

Definition productData (vendor : string) (product : value) (stamp : string) : row :=
  [("vendor_id", VStr vendor);
   ("external_id", prop product "external_id");
   ("title", prop product "title");
   ("description", or_ (prop product "description") VNull);
   ("price", or_ (prop product "price") VNull);
   ("category", or_ (prop product "category") VNull);
   ("inventory_count", or_ (prop product "inventory_count") (VNum (Dec 0 0)));
   ("status", or_ (prop product "status") (VStr "active"));
   ("images", or_ (prop product "images") (VArr []));
   ("metadata", or_ (prop product "metadata") (VObj []));
   ("synced_at", VStr stamp)].

(** The state of the product loop. *)
Record Progress : Type := {
  db : DB;
  processedProducts : list row;
  errors : list string
}.

Definition push_error (msg : string) (p : Progress) : Progress :=
  {| db := db p; processedProducts := processedProducts p;
     errors := (errors p ++ [msg])%list |}.

Definition items (v : value) : list value :=
  match v with VArr l => l | _ => [] end.

(** [!authHeader || !authHeader.startsWith('Bearer ')], and
    [authHeader.substring(7)] otherwise. *)
Definition bearer (authHeader : option string) : option string :=
  match authHeader with
  | None => None
  | Some a =>
      if ((a =? "") || negb (starts_with "Bearer " a))%bool then None
      else Some (drop 7 a)
  end.

Section Serve.
Variable rt : Runtime.

(** The body of the [try] around one product: the progress made, and the
    exception if one was thrown. *)
Definition try_product (vendor : string) (p : Progress) (product : value)
  : Progress * option exn :=
  match get product "external_id" with
  | Throw e => (p, Some e)
  | Ok external_id =>
      if (negb (truthy external_id) || negb (truthy (prop product "title")))%bool
      then (push_error MISSING_FIELDS p, None)
      else
        let '(stamp, db1) := now rt (db p) in
        match upsert rt vendor_external (productData vendor product stamp) db1 with
        | (inl upsertError, db2) =>
            let p2 := {| db := db2; processedProducts := processedProducts p;
                         errors := errors p |} in
            match to_string external_id with
            | Throw e => (p2, Some e)
            | Ok id =>
                (push_error ("Failed to sync product " ++ id ++ ": " ++ upsertError) p2,
                 None)
            end
        | (inr upsertedProduct, db2) =>
            ({| db := db2;
                processedProducts := (processedProducts p ++ [upsertedProduct])%list;
                errors := errors p |}, None)
        end
  end.

(** One turn of the loop: the [try] and its [catch], whose message reads
    [product.external_id] again. *)
Definition sync_product (vendor : string) (p : Progress) (product : value)
  : Progress * option exn :=
  match try_product vendor p product with
  | (p', None) => (p', None)
  | (p', Some error) =>
      match (let* external_id := get product "external_id" in to_string external_id) with
      | Throw e => (p', Some e)
      | Ok id =>
          (push_error ("Error processing product " ++ id ++ ": " ++ exn_message rt error) p',
           None)
      end
  end.

Fixpoint sync_products (vendor : string) (p : Progress) (products : list value)
  : Progress * option exn :=
  match products with
  | [] => (p, None)
  | product :: rest =>
      match sync_product vendor p product with
      | (p', None) => sync_products vendor p' rest
      | (p', Some e) => (p', Some e)
      end
  end.

Definition entry (vendor key : option string) (code : Z) (msg ip agent : string)
    (raw : option value) : AuditEntry :=
  {| log_vendor_id := vendor; log_key_id := key; http_status := code;
     message := msg; client_ip := ip; user_agent := agent; raw_request := raw |}.

Definition responseMessage (processed failed : nat) : string :=
  "Successfully synced " ++ nat_digits processed ++ " products" ++
  (if (0 <? failed)%nat then " with " ++ nat_digits failed ++ " errors" else "").

Definition success_response (processed : nat) (errs : list string) : Response :=
  {| status := 200;
     payload := VObj ([("success", VBool true);
                       ("message", VStr "Products received and indexed");
                       ("processed_count", num processed);
                       ("error_count", num (List.length errs))] ++
                      (if (0 <? List.length errs)%nat
                       then [("errors", VArr (map VStr errs))] else []))%list |}.

(** The [try] block of [serve]. *)
Definition serve_try (req : Request) (db0 : DB) : DB * outcome Response :=
  let authHeader := header "authorization" (headers req) in
  let userAgent := header_or (header "user-agent" (headers req)) "" in
  let clientIP :=
    header_or (header "x-forwarded-for" (headers req))
              (header_or (header "x-real-ip" (headers req)) "unknown") in
  match bearer authHeader with
  | None =>
      (logRequest (entry None None 401 MISSING_AUTH clientIP userAgent None) db0,
       Ok (error_response 401 MISSING_AUTH))
  | Some apiKey =>
    match find_api_key apiKey db0 with
    | NoRow | ManyRows =>
        (logRequest (entry None None 401 INVALID_KEY clientIP userAgent None) db0,
         Ok (error_response 401 INVALID_KEY))
    | OneRow keyData =>
        let '(stamp, db1) := now rt db0 in
        let db2 := touch_api_key (key_id keyData) stamp db1 in
        match (let* rawBody := req_json (body req) in requestBody_of rawBody) with
        | Throw e => (db2, Throw e)
        | Ok requestBody =>
            let log code msg :=
              logRequest (entry (Some (vendor_id keyData)) (Some (key_id keyData))
                                code msg clientIP userAgent (Some requestBody)) in
            let products := prop requestBody "products" in
            if (negb (truthy products) || negb (is_array products))%bool
            then (log 400%Z PRODUCTS_REQUIRED db2,
                  Ok (error_response 400 PRODUCTS_REQUIRED))
            else if (List.length (items products) =? 0)%nat
            then (log 400%Z EMPTY_PRODUCTS db2,
                  Ok (error_response 400 EMPTY_PRODUCTS))
            else
              match sync_products (vendor_id keyData)
                      {| db := db2; processedProducts := []; errors := [] |}
                      (items products) with
              | (p, Some e) => (db p, Throw e)
              | (p, None) =>
                  let processed := List.length (processedProducts p) in
                  (log 200%Z (responseMessage processed (List.length (errors p))) (db p),
                   Ok (success_response processed (errors p)))
              end
        end
    end
  end.

Definition internal_error : Response :=
  {| status := 500;
     payload := VObj [("success", VBool false);
                      ("error", VStr "Internal server error");
                      ("message", VStr "An unexpected error occurred while processing your request")] |}.

Definition serve (req : Request) (db0 : DB) : Response * DB :=
  if method req =? "OPTIONS" then ({| status := 200; payload := VNull |}, db0)
  else if negb (method req =? "POST")
  then (error_response 405 "Method not allowed", db0)
  else
    match serve_try req db0 with
    | (db1, Ok response) => (response, db1)
    | (db1, Throw error) =>
        (internal_error,
         logRequest (entry None None 500
                       ("Internal server error: " ++ exn_message rt error)
                       "unknown" "" None) db1)
    end.

End Serve.
End EdgeSync.

(* ===================================================================== *)
(** ** The Netlify handlers *)
(* ===================================================================== *)

Module Netlify.
Import JS Http.

Definition METHOD_NOT_ALLOWED : Response := error_response 405 "Method Not Allowed".

(** [(event.headers.authorization || '').replace('Bearer ', '').trim()] *)
Definition token_of (event : Request) : string :=
  trim (remove_first "Bearer " (header_or (header "authorization" (headers event)) "")).

End Netlify.

(** *** API key only (src/unnamed/part_000, first document) *)

Module ApiKeySync.
Import JS Store Http Netlify.

(** The body a Shopify product object is replaced with. *)
Definition shopify_body (body : value) : outcome value :=
  let* external_id := toString (prop body "id") in
  let* price := Shopify.price body in
  let* images := Shopify.images body in
  Ok (VObj [("products", VArr [VObj [
        ("external_id", VStr external_id);
        ("title", prop body "title");
        ("description", prop body "body_html");
        ("price", price);
        ("category", Shopify.category body);
        ("inventory_count", Shopify.inventory_count body);
        ("status", or_ (prop body "status") (VStr "active"));
        ("images", images);
        ("metadata", VObj [("vendor", prop body "vendor");
                           ("handle", prop body "handle")])]])]).

(** [if (body && body.title && body.variants) body = { products: [...] }] *)
Definition body_of (body : value) : outcome value :=
  if (truthy body && truthy (prop body "title") && truthy (prop body "variants"))%bool
  then shopify_body body
  else Ok body.

Definition listing (vendor : string) (product : value) (stamp : string) : row :=
  [("vendor_id", VStr vendor);
   ("external_id", prop product "external_id");
   ("title", prop product "title");
   ("description", prop product "description");
   ("price", prop product "price");
   ("status", prop product "status");
   ("metadata", prop product "metadata");
   ("synced_at", VStr stamp)].

(** Without [onConflict] the conflict target is the primary key of the
    table, which no payload carries. *)
Definition primary_key : list string := ["id"].

Section Handler.
Variable rt : Runtime.

Fixpoint sync (vendor : string) (products : list value) (inserted : list value)
    (db : DB) : DB * outcome (list value) :=
  match products with
  | [] => (db, Ok inserted)
  | product :: rest =>
      match get product "external_id" with
      | Throw e => (db, Throw e)
      | Ok _ =>
          let '(stamp, db1) := now rt db in
          match upsert rt primary_key (listing vendor product stamp) db1 with
          | (inl _, db2) => sync vendor rest inserted db2
          | (inr _, db2) =>
              sync vendor rest (inserted ++ [prop product "title"])%list db2
          end
      end
  end.

Definition handler (event : Request) (db : DB) : DB * outcome Response :=
  if negb (method event =? "POST") then (db, Ok METHOD_NOT_ALLOWED)
  else
    match find_api_key (token_of event) db with
    | NoRow | ManyRows => (db, Ok (error_response 401 "Invalid API key"))
    | OneRow apiKeyRow =>
        match (let* parsed := parse_event_body (body event) in
               let* body := body_of parsed in
               let* products := get body "products" in
               iterate (or_ products (VArr []))) with
        | Throw e => (db, Throw e)
        | Ok products =>
            match sync (vendor_id apiKeyRow) products [] db with
            | (db', Throw e) => (db', Throw e)
            | (db', Ok inserted) =>
                (db', Ok {| status := 200;
                            payload := VObj [("success", VBool true);
                                             ("synced", num (List.length inserted))] |})
            end
        end
    end.

End Handler.
End ApiKeySync.

(** *** API key, then store name or shop domain (src/unnamed/part_001) *)

Module StoreMappingSync.
Import JS Store Http Netlify.

(** Vendor resolution (steps 1 and 2 of the handler): the lookups issued,
    in order, and the vendor id or the response that rejects the request. *)
Definition resolve (event : Request) (db : DB)
  : list Query * outcome (Response + string) :=
  let token := token_of event in
  if negb (token =? "")
  then
    ([KeyQuery token],
     match find_api_key token db with
     | NoRow | ManyRows => Ok (inl (error_response 401 "Invalid API key"))
     | OneRow apiKeyRow => Ok (inr (vendor_id apiKeyRow))
     end)
  else
    match parse_event_body (body event) with
    | Throw e => ([], Throw e)
    | Ok rawBody =>
        let vendorName := prop rawBody "vendor" in
        let shopDomain :=
          header_or (header "x-shopify-shop-domain" (headers event)) "" in
        let storeLookupField := or_ vendorName (VStr shopDomain) in
        let storeColumn := if truthy vendorName then "store_name" else "shop_url" in
        if negb (truthy storeLookupField)
        then ([], Ok (inl (error_response 401 "No vendor/store identifier found")))
        else
          match to_string storeLookupField with
          | Throw e => ([], Throw e)
          | Ok text =>
              ([MappingQuery storeColumn text],
               match find_mapping storeColumn text db with
               | NoRow | ManyRows =>
                   Ok (inl (error_response 401 "Store not mapped to vendor"))
               | OneRow mappedStore => Ok (inr (mapped_vendor_id mappedStore))
               end)
          end
    end.

(** [payload.id?.toString()] *)
Definition optional_toString (v : value) : outcome value :=
  if nullish v then Ok VUndef else let* s := to_string v in Ok (VStr s).

Definition shopify_product (payload : value) : outcome value :=
  let* external_id := optional_toString (prop payload "id") in
  let* price := Shopify.price payload in
  let* images := Shopify.images payload in
  Ok (VObj [("external_id", external_id);
            ("title", prop payload "title");
            ("description", or_ (prop payload "body_html") (VStr ""));
            ("price", price);
            ("category", Shopify.category payload);
            ("inventory_count", Shopify.inventory_count payload);
            ("status", VStr "approved");
            ("images", images);
            ("metadata", VObj [("vendor", or_ (prop payload "vendor") (VStr ""));
                               ("handle", or_ (prop payload "handle") (VStr ""));
                               ("shopify_id", prop payload "id")])]).

(** [payload.products || (payload.title ? [{...}] : [])] *)
Definition products_of (payload : value) : outcome value :=
  let* products := get payload "products" in
  if truthy products then Ok products
  else if truthy (prop payload "title")
       then let* product := shopify_product payload in Ok (VArr [product])
       else Ok (VArr []).

Definition insertData (vendor : string) (product : value) (stamp : string) : row :=
  [("vendor_id", VStr vendor);
   ("external_id", prop product "external_id");
   ("title", prop product "title");
   ("description", or_ (prop product "description") (VStr ""));
   ("price", or_ (prop product "price") (VNum (Dec 0 0)));
   ("category", or_ (prop product "category") (VStr "Real Estate"));
   ("inventory_count", or_ (prop product "inventory_count") (VNum (Dec 1 0)));
   ("status", VStr "approved");
   ("images", or_ (prop product "images") (VArr []));
   ("metadata", or_ (prop product "metadata") (VObj []));
   ("source", VStr "shopify-sync");
   ("synced_at", VStr stamp);
   ("visible_on_dashboard", VBool true)].

Section Handler.
Variable rt : Runtime.

(** The product loop: the result of the upsert is not looked at. *)
Fixpoint sync (vendor : string) (products : list value) (syncedTitles : list value)
    (db : DB) : DB * outcome (list value) :=
  match products with
  | [] => (db, Ok syncedTitles)
  | product :: rest =>
      let '(stamp, db1) := now rt db in
      match get product "external_id" with
      | Throw e => (db1, Throw e)
      | Ok _ =>
          let '(_, db2) := upsert rt vendor_external (insertData vendor product stamp) db1 in
          sync vendor rest (syncedTitles ++ [prop product "title"])%list db2
      end
  end.

Definition success (syncedTitles : list value) : Response :=
  {| status := 200;
     payload := VObj [("success", VBool true);
                      ("synced", num (List.length syncedTitles));
                      ("titles", VArr syncedTitles)] |}.

Definition handler (event : Request) (db : DB) : DB * outcome Response :=
  if negb (method event =? "POST") then (db, Ok METHOD_NOT_ALLOWED)
  else
    match snd (resolve event db) with
    | Throw e => (db, Throw e)
    | Ok (inl rejection) => (db, Ok rejection)
    | Ok (inr resolvedVendorId) =>
        match (let* payload := parse_event_body (body event) in
               let* products := products_of payload in
               iterate products) with
        | Throw e => (db, Throw e)
        | Ok products =>
            match sync resolvedVendorId products [] db with
            | (db', Throw e) => (db', Throw e)
            | (db', Ok syncedTitles) => (db', Ok (success syncedTitles))
            end
        end
    end.

End Handler.
End StoreMappingSync.

(** *** API key, then store name (src/netlify/functions/catalog-sync.ts) *)

Module CatalogSync.
Import JS Store Http Netlify.

Definition resolve (event : Request) (db : DB)
  : list Query * outcome (Response + string) :=
  let token := token_of event in
  if negb (token =? "")
  then
    ([KeyQuery token],
     match find_api_key token db with
     | NoRow | ManyRows => Ok (inl (error_response 401 "Invalid API key"))
     | OneRow apiKeyRow => Ok (inr (vendor_id apiKeyRow))
     end)
  else
    match parse_event_body (body event) with
    | Throw e => ([], Throw e)
    | Ok rawBody =>
        let storeName := prop rawBody "vendor" in
        if negb (truthy storeName)
        then ([], Ok (inl (error_response 401 "No vendor name provided in webhook")))
        else
          match to_string storeName with
          | Throw e => ([], Throw e)
          | Ok text =>
              ([MappingQuery "store_name" text],
               match find_mapping "store_name" text db with
               | NoRow | ManyRows =>
                   Ok (inl (error_response 401 "No vendor matched for this store"))
               | OneRow mappedStore => Ok (inr (mapped_vendor_id mappedStore))
               end)
          end
    end.

Definition shopify_product (payload : value) : outcome value :=
  let* external_id := toString (prop payload "id") in
  let* price := Shopify.price payload in
  let* images := Shopify.images payload in
  Ok (VObj [("external_id", VStr external_id);
            ("title", prop payload "title");
            ("description", or_ (prop payload "body_html") (VStr ""));
            ("price", price);
            ("category", Shopify.category payload);
            ("inventory_count", Shopify.inventory_count payload);
            ("status", VStr "approved");
            ("images", images);
            ("metadata", VObj [("vendor", or_ (prop payload "vendor") (VStr ""));
                               ("handle", or_ (prop payload "handle") (VStr ""));
                               ("shopify_id", prop payload "id")])]).

(** [payload.products || (payload.title ? [{...}] : [])] *)
Definition products_of (payload : value) : outcome value :=
  let* products := get payload "products" in
  if truthy products then Ok products
  else if truthy (prop payload "title")
       then let* product := shopify_product payload in Ok (VArr [product])
       else Ok (VArr []).

Definition insertData (vendor : string) (product : value) (stamp : string) : row :=
  [("vendor_id", VStr vendor);
   ("external_id", prop product "external_id");
   ("title", prop product "title");
   ("description", or_ (prop product "description") (VStr ""));
   ("price", or_ (prop product "price") (VNum (Dec 0 0)));
   ("category", or_ (prop product "category") (VStr "Real Estate"));
   ("inventory_count", or_ (prop product "inventory_count") (VNum (Dec 1 0)));
   ("status", VStr "approved");
   ("images", or_ (prop product "images") (VArr []));
   ("metadata", or_ (prop product "metadata") (VObj []));
   ("source", VStr "shopify-sync");
   ("synced_at", VStr stamp);
   ("visible_on_dashboard", VBool true)].

Section Handler.
Variable rt : Runtime.

Fixpoint sync (vendor : string) (products : list value) (syncedTitles : list value)
    (db : DB) : DB * outcome (list value) :=
  match products with
  | [] => (db, Ok syncedTitles)
  | product :: rest =>
      let '(stamp, db1) := now rt db in
      match get product "external_id" with
      | Throw e => (db1, Throw e)
      | Ok _ =>
          let '(_, db2) := upsert rt vendor_external (insertData vendor product stamp) db1 in
          sync vendor rest (syncedTitles ++ [prop product "title"])%list db2
      end
  end.

Definition success (syncedTitles : list value) : Response :=
  {| status := 200;
     payload := VObj [("success", VBool true);
                      ("synced", num (List.length syncedTitles));
                      ("titles", VArr syncedTitles)] |}.

Definition handler (event : Request) (db : DB) : DB * outcome Response :=
  if negb (method event =? "POST") then (db, Ok METHOD_NOT_ALLOWED)
  else
    match snd (resolve event db) with
    | Throw e => (db, Throw e)
    | Ok (inl rejection) => (db, Ok rejection)
    | Ok (inr resolvedVendorId) =>
        match (let* payload := parse_event_body (body event) in
               let* products := products_of payload in
               iterate products) with
        | Throw e => (db, Throw e)
        | Ok products =>
            match sync resolvedVendorId products [] db with
            | (db', Throw e) => (db', Throw e)
            | (db', Ok syncedTitles) => (db', Ok (success syncedTitles))
            end
        end
    end.

End Handler.
End CatalogSync.

(* ===================================================================== *)
(** ** src/netlify/functions/whatsapp_product_sync.ts *)
(* ===================================================================== *)

Module WhatsApp.
Import JS Http.

Definition ALLOWED_STATUSES : list string := ["active"; "inactive"; "draft"].

(** [ALLOWED_STATUSES.includes(v)] *)
Definition allowed_status (v : value) : bool :=
  match v with
  | VStr s => existsb (String.eqb s) ALLOWED_STATUSES
  | _ => false
  end.

(** How the call to the extraction service ends: [fetch] rejects, the
    response is not OK, its body is not JSON, or it is the JSON [json]. *)
Inductive Reply : Type :=
| TransportError
| NotOk
| NotJson
| Replied (json : value).

(** The event: the method, the parameters [URLSearchParams] reads from
    [rawQuery], and the body. *)
Record Event : Type := {
  httpMethod : string;
  rawQuery : list (string * string);
  body : Body
}.

(** The environment and the services the function talks to.
    - [profiles msisdn]: the rows the [/profiles] query returns, or a
      failure when the response is not OK;
    - [uploaded]: the public URL of the image once fetched from WhatsApp and
      stored in the bucket, [None] when that pipeline fails;
    - [running_long]: [Date.now() - started > 3000];
    - [extraction text hasImages]: the reply of the extraction service;
    - [JSON_parse]: [JSON.parse] on the text of that reply;
    - [stored payload]: the rows [POST /vendor_listings] answers with, or a
      failure when the response is not OK. *)
Record World : Type := {
  META_VERIFY_TOKEN : string;
  profiles : string -> outcome value;
  uploaded : option string;
  running_long : bool;
  extraction : string -> bool -> Reply;
  JSON_parse : string -> option value;
  stored : Store.row -> outcome value
}.

(** What the function did besides answering. *)
Record Trace : Type := {
  sent : list (value * string);
  posted : list Store.row
}.

Definition keep_digits (s : string) : string :=
  string_of_list_ascii (filter is_digit (list_ascii_of_string s)).

Definition normalizeMsisdn (input : value) : outcome string :=
  if negb (truthy input) then Ok ""
  else let* s := to_string input in Ok (keep_digits s).

(** [rows[0]] *)
Definition first_row (rows : value) : outcome value :=
  if nullish rows then Throw TypeError else Ok (first_elem rows).

Definition findProfileByWaId (w : World) (waId : value) : outcome value :=
  let* msisdn := normalizeMsisdn waId in
  let* rows := profiles w msisdn in
  first_row rows.

Fixpoint remove_key (k : string) (fs : list (string * value)) : list (string * value) :=
  match fs with
  | [] => []
  | (k', v) :: rest =>
      if k =? k' then remove_key k rest else (k', v) :: remove_key k rest
  end.

(** [if (parsed.status && !ALLOWED_STATUSES.includes(parsed.status)) delete parsed.status] *)
Definition drop_foreign_status (parsed : value) : value :=
  match parsed with
  | VObj fs =>
      if (truthy (assoc "status" fs) && negb (allowed_status (assoc "status" fs)))%bool
      then VObj (remove_key "status" fs)
      else parsed
  | _ => parsed
  end.

(** [json.choices?.[0]?.message?.content || "{}"], as the text
    [JSON.parse] is given. *)
Definition reply_text (json : value) : outcome string :=
  let* choices := get json "choices" in
  to_string (or_ (prop (prop (first_elem choices) "message") "content") (VStr "{}")).

(** The [try] block of [aiExtractProduct]. *)
Definition extract (w : World) (text : string) (hasImages : bool) : outcome value :=
  match extraction w text hasImages with
  | TransportError => Throw UpstreamError
  | NotOk => Throw UpstreamError
  | NotJson => Throw SyntaxError
  | Replied json =>
      let* content := reply_text json in
      match JSON_parse w content with
      | None => Throw SyntaxError
      | Some parsed =>
          let* _ := get parsed "status" in
          Ok (drop_foreign_status parsed)
      end
  end.

(** The failures of the external call: a transport error, a response that
    is not OK, a body that is not JSON, a reply whose text is not JSON. *)
Definition failure (w : World) (r : Reply) : Prop :=
  match r with
  | TransportError | NotOk | NotJson => True
  | Replied json =>
      exists content, reply_text json = Ok content /\ JSON_parse w content = None
  end.

(** [{ title: (text || "Untitled product").slice(0, 120) }] *)
Definition fallback (text : string) : value :=
  VObj [("title", VStr (take 120 (if text =? "" then "Untitled product" else text)))].

Definition aiExtractProduct (w : World) (text : string) (hasImages : bool) : value :=
  match extract w text hasImages with
  | Ok parsed => parsed
  | Throw _ => fallback text
  end.

(** The row [upsertListing] posts. *)
Definition listing (data : value) : Store.row :=
  let status :=
    if (truthy (prop data "status") && allowed_status (prop data "status"))%bool
    then prop data "status" else VStr "active" in
  [("vendor_id", prop data "vendor_id");
   ("external_id", prop data "external_id");
   ("title", prop data "title");
   ("description", or_ (prop data "description") VNull);
   ("price", coalesce (prop data "price") VNull);
   ("currency", or_ (prop data "currency") VNull);
   ("category", or_ (prop data "category") VNull);
   ("tags", or_ (prop data "tags") (VArr []));
   ("images", or_ (prop data "images") (VArr []));
   ("location", or_ (prop data "location") VNull);
   ("source", VStr "whatsapp");
   ("status", status);
   ("original_link", VNull)].

(** [const [row] = await res.json()] *)
Definition upsertListing (w : World) (data : value) : outcome value :=
  let* rows := stored w (listing data) in
  let* items := iterate rows in
  Ok (hd VUndef items).

(** The verification handshake. *)
Fixpoint param (name : string) (ps : list (string * string)) : option string :=
  match ps with
  | [] => None
  | (k, v) :: rest => if name =? k then Some v else param name rest
  end.

Definition verify (w : World) (event : Event) : Response :=
  let mode := param "hub.mode" (rawQuery event) in
  let token := param "hub.verify_token" (rawQuery event) in
  let challenge := param "hub.challenge" (rawQuery event) in
  if (opt_string_eqb mode (Some "subscribe") &&
      opt_string_eqb token (Some (META_VERIFY_TOKEN w)))%bool
  then {| status := 200; payload := VStr (header_or challenge "") |}
  else {| status := 403; payload := VStr "Forbidden" |}.

Definition NOT_LINKED : string :=
  "👋 Your WhatsApp number isn’t linked to a Clevv vendor account yet." ++
  String (ascii_of_nat 10) "" ++
  "Please log in and add your WhatsApp number in Profile → https://clevvai.org/vendor" ++
  String (ascii_of_nat 10) "" ++
  "Then send your product again.".

Definition PROCESSING : string := "✅ Got your product. Processing now…".

(** [textParts.join("\n")] *)
Fixpoint join_lines (parts : list value) : outcome string :=
  match parts with
  | [] => Ok ""
  | [x] => to_string x
  | x :: rest =>
      let* sx := to_string x in
      let* sr := join_lines rest in
      Ok (sx ++ String (ascii_of_nat 10) "" ++ sr)
  end.

Definition text_parts (msg : value) : list value :=
  filter truthy
    [prop (prop msg "text") "body";
     prop (prop msg "image") "caption";
     prop (prop msg "document") "caption"].

(** The data handed to [upsertListing]. *)
Definition listing_data (vendorId messageId ai title status : value)
    (images : list value) : value :=
  VObj [("vendor_id", vendorId);
        ("external_id", or_ (prop ai "external_id") messageId);
        ("title", title);
        ("description", prop ai "description");
        ("price", prop ai "price");
        ("currency", or_ (prop ai "currency") (VStr "NGN"));
        ("category", prop ai "category");
        ("tags", prop ai "tags");
        ("images", VArr images);
        ("location", prop ai "location");
        ("status", status)].

Definition confirmation (title id : string) : string :=
  "✅ Your product “" ++ title ++
  "” has been added to your Clevv catalog and is now discoverable." ++
  String (ascii_of_nat 10) "" ++ "ID: " ++ id.

(** The POST branch from the AI extraction on. *)
Definition submit (w : World) (waId messageId vendorId : value) (text : string)
    (imageUrls : list value) (acks : list (value * string))
  : Trace * outcome Response :=
  let ai := aiExtractProduct w text (negb (Nat.eqb (List.length imageUrls) 0)) in
  let status :=
    if (truthy (prop ai "status") && allowed_status (prop ai "status"))%bool
    then prop ai "status" else VStr "active" in
  match (let* title := slice_to 200 (or_ (prop ai "title") (VStr "Untitled product")) in
         let* spread := iterate (or_ (prop ai "images") (VArr [])) in
         Ok (title, dedup (spread ++ imageUrls)%list)) with
  | Throw e => ({| sent := acks; posted := [] |}, Throw e)
  | Ok (title, images) =>
      let data := listing_data vendorId messageId ai title status images in
      let trace := {| sent := acks; posted := [listing data] |} in
      match (let* inserted := upsertListing w data in
             let* shown := to_string title in
             let* id := to_string (coalesce (prop inserted "id")
                                            (prop inserted "external_id")) in
             Ok (confirmation shown id)) with
      | Throw e => (trace, Throw e)
      | Ok message =>
          ({| sent := (acks ++ [(waId, message)])%list; posted := [listing data] |},
           Ok {| status := 200; payload := VStr "OK" |})
      end
  end.

(** [body.entry?.[0]?.changes?.[0]?.value] for a [body] that is not
    [null]. *)
Definition change_value (parsed : value) : value :=
  prop (first_elem (prop (first_elem (prop parsed "entry")) "changes")) "value".

(** [value?.messages || []] and [value?.contacts || []] *)
Definition messages_of (parsed : value) : value :=
  or_ (prop (change_value parsed) "messages") (VArr []).

Definition contacts_of (parsed : value) : value :=
  or_ (prop (change_value parsed) "contacts") (VArr []).

(** [contacts?.[0]?.wa_id || msg.from] *)
Definition sender (contacts msg : value) : outcome value :=
  if truthy (prop (first_elem contacts) "wa_id")
  then Ok (prop (first_elem contacts) "wa_id")
  else get msg "from".

(** The POST branch. *)
Definition receive (w : World) (event : Event) : Trace * outcome Response :=
  let quiet := {| sent := []; posted := [] |} in
  match (let* parsed := parse_event_body (body event) in
         let* _ := get parsed "entry" in
         Ok (messages_of parsed, contacts_of parsed)) with
  | Throw e => (quiet, Throw e)
  | Ok (messages, contacts) =>
      if negb (truthy (length_of messages))
      then (quiet, Ok {| status := 200; payload := VStr "No messages" |})
      else
        let msg := first_elem messages in
        match (let* waId := sender contacts msg in
               let* messageId := get msg "id" in
               Ok (waId, messageId)) with
        | Throw e => (quiet, Throw e)
        | Ok (waId, messageId) =>
            let profile :=
              match findProfileByWaId w waId with
              | Ok p => p
              | Throw _ => VUndef
              end in
            if negb (truthy profile)
            then ({| sent := [(waId, NOT_LINKED)]; posted := [] |},
                  Ok {| status := 200; payload := VStr "Profile not found" |})
            else
              let vendorId := prop profile "user_id" in
              let imageUrls :=
                if (same_value_zero (prop msg "type") (VStr "image") &&
                    truthy (prop (prop msg "image") "id"))%bool
                then match uploaded w with
                     | Some publicUrl => [VStr publicUrl]
                     | None => []
                     end
                else [] in
              let acks := if running_long w then [(waId, PROCESSING)] else [] in
              match join_lines (text_parts msg) with
              | Throw e => ({| sent := acks; posted := [] |}, Throw e)
              | Ok joined => submit w waId messageId vendorId (trim joined) imageUrls acks
              end
        end
  end.

Definition handler (w : World) (event : Event) : Trace * outcome Response :=
  if httpMethod event =? "GET"
  then ({| sent := []; posted := [] |}, Ok (verify w event))
  else if negb (httpMethod event =? "POST")
  then ({| sent := []; posted := [] |},
        Ok {| status := 405; payload := VStr "Method Not Allowed" |})
  else receive w event.

End WhatsApp.

(* ===================================================================== *)
(** ** The vocabulary of the properties *)
(* ===================================================================== *)

Module Spec.
Import JS Store Http.

(** [POST] with [Authorization: Bearer token] and the given JSON body. *)
Definition post (token : string) (json : value) : Request :=
  {| method := "POST";
     headers := [("authorization", "Bearer " ++ token)];
     body := Json json |}.

(** [{ "products": [...] }] *)
Definition batch (products : list value) : value :=
  VObj [("products", VArr products)].

(** The database once [serve] has authenticated a request with the key
    [k]: the clock was read once and the key's [last_used_at] is set. *)
Definition authenticated (rt : Runtime) (k : ApiKey) (db : DB) : DB :=
  touch_api_key (key_id k) (clock rt (ticks db)) (snd (now rt db)).

(** The row [serve] submits to the store for a product: its [productData]
    as [JSON.stringify] writes it. *)
Definition submission (vendor : string) (product : value) (stamp : string) : row :=
  serialize (EdgeSync.productData vendor product stamp).

(** The title a product carries. *)
Definition title_of (product : value) : value := prop product "title".

(** An active credential with the given value. *)
Definition credential (token : string) (k : ApiKey) : Prop :=
  api_key k = token /\ is_active k = true.

(** The three rejections of vendor resolution. *)
Definition invalid_credential : Response := error_response 401 "Invalid API key".
Definition vendor_unmapped : Response := error_response 401 "Store not mapped to vendor".
Definition missing_vendor_identifier : Response :=
  error_response 401 "No vendor/store identifier found".

(** The first variant of a Shopify product and what it lists. *)
Definition first_variant (variants : list value) : value := hd VUndef variants.

Definition listed_price (variants : list value) : value :=
  prop (first_variant variants) "price".

Definition listed_quantity (variants : list value) : value :=
  prop (first_variant variants) "inventory_quantity".

(** The price of a product whose first variant lists the price string [s]
    (the empty string standing for no price): [parseFloat] of it, with ["0"]
    read when there is none. *)
Definition parsed_price (s : string) : number :=
  parseFloat_string (if s =? "" then "0" else s).

(** What the three transforms agree on for the product they synthesize from
    a Shopify product with numeric [id], title [title], first-variant price
    string [s], variants [variants] and images [imgs]. *)
Definition canonical (id : number) (title : value) (s : string)
    (variants imgs : list value) (product : value) : Prop :=
  prop product "external_id" = VStr (number_to_string id) /\
  prop product "title" = title /\
  prop product "price" = VNum (parsed_price s) /\
  prop product "inventory_count"
    = (if truthy (listed_quantity variants) then listed_quantity variants
       else VNum (Dec 0 0)) /\
  prop product "images" = VArr (map (fun img => prop img "src") imgs).

(** Does a row belong to the (vendor, external id) pair? *)
Definition of_pair (vendor external : string) (r : row) : bool :=
  opt_string_eqb (key_text (assoc "vendor_id" r)) (Some vendor) &&
  opt_string_eqb (key_text (assoc "external_id" r)) (Some external).


(** A row carries the values of a submission: every column the submission
    names has the submitted value. *)
Definition carries (submission listing : row) : Prop :=
  forall column, has_key column submission = true ->
                 assoc column listing = assoc column submission.

(** A candidate product of a batch: a JSON value other than [null] whose
    external id can be written into a message (any string, number or
    absent id can). *)
Definition candidate (product : value) : Prop :=
  nullish product = false /\
  exists id, to_string (prop product "external_id") = Ok id.

(** A product with both required fields. *)
Definition complete (product : value) : bool :=
  truthy (prop product "external_id") && truthy (prop product "title").

(** What the store answers to the write of a product of a batch when the
    database is [db]: the reason of the refusal, if it refuses the row. *)
Definition refusal (rt : Runtime) (vendor : string) (product : value) (db : DB)
  : option string :=
  refuse rt (vendor_listings db) (submission vendor product (clock rt (ticks db))).

(** The database once the row of a product is written: the clock was read
    and the row upserted on its (vendor id, external id) pair. *)
Definition written (rt : Runtime) (vendor : string) (product : value) (db : DB) : DB :=
  set_listings
    (fst (upsert_on vendor_external
            (submission vendor product (clock rt (ticks db))) (vendor_listings db)))
    (snd (now rt db)).

(** The outcome of a batch for a vendor, item by item and in order, each
    item against the database as the items before it left it.  An item
    without a required field is reported as such and nothing is written.  An
    item with both whose write the store refuses is reported, under its
    external id, with the reason the store gave, and no listing changes.  An
    item with both whose write the store accepts is counted as processed and
    its row is in the table.  The relation holds the database the last item
    leaves. *)
Inductive reported (rt : Runtime) (vendor : string)
  : DB -> list value -> list string -> nat -> DB -> Prop :=
| reported_nil db : reported rt vendor db [] [] 0 db
| reported_missing db product rest errs n db' :
    complete product = false ->
    reported rt vendor db rest errs n db' ->
    reported rt vendor db (product :: rest) (EdgeSync.MISSING_FIELDS :: errs) n db'
| reported_refused db product id reason rest errs n db' :
    complete product = true ->
    to_string (prop product "external_id") = Ok id ->
    refusal rt vendor product db = Some reason ->
    reported rt vendor (snd (now rt db)) rest errs n db' ->
    reported rt vendor db (product :: rest)
             (("Failed to sync product " ++ id ++ ": " ++ reason) :: errs) n db'
| reported_processed db product rest errs n db' :
    complete product = true ->
    refusal rt vendor product db = None ->
    reported rt vendor (written rt vendor product db) rest errs n db' ->
    reported rt vendor db (product :: rest) errs (S n) db'.

(** *** The entry points that write listings *)

(** The entry points whose upsert names the conflict target
    [vendor_id,external_id]: [serve], the handler of part_001 and the
    handler of catalog-sync.ts. *)
Inductive keyed : Type := edge_function | store_mapping | catalog_sync.

(** The database a request to the entry point leaves. *)
Definition after (e : keyed) (rt : Runtime) (req : Request) (db : DB) : DB :=
  match e with
  | edge_function => snd (EdgeSync.serve rt req db)
  | store_mapping => fst (StoreMappingSync.handler rt req db)
  | catalog_sync => fst (CatalogSync.handler rt req db)
  end.




(** *** The store behind the conversational channel *)





End Spec.

(* ===================================================================== *)
(** ** Concrete inputs *)
(* ===================================================================== *)

Module Sample.
Import JS Store Http Spec.

(** A store that accepts every row, and a clock that counts. *)
Definition runtime : Runtime :=
  {| clock := fun n => "T" ++ nat_digits n;
     refuse := fun _ _ => None;
     exn_message := fun _ => "error" |}.

(** A store that refuses every row. *)
Definition closed_runtime : Runtime :=
  {| clock := fun n => "T" ++ nat_digits n;
     refuse := fun _ _ => Some "write refused";
     exn_message := fun _ => "error" |}.

Definition key : ApiKey :=
  {| key_id := "k1"; api_key := "sk_live_1"; vendor_id := "V";
     is_active := true; last_used_at := None |}.

Definition mapping : StoreMapping :=
  {| store_name := "Acme"; shop_url := "acme.myshopify.com";
     mapped_vendor_id := "V" |}.

Definition database : DB :=
  {| vendor_api_keys := [key];
     shopify_store_mappings := [mapping];
     vendor_listings := [];
     request_log := [];
     ticks := 0 |}.

Definition chair : value :=
  VObj [("external_id", VStr "p1"); ("title", VStr "Chair");
        ("price", VNum (Dec 4999 (-2)))].

Definition stool : value :=
  VObj [("external_id", VStr "p1"); ("title", VStr "Stool");
        ("price", VNum (Dec 15 0))].

Definition untitled : value :=
  VObj [("external_id", VStr "p2")].

(** A Shopify product as the platform's webhook sends it. *)
Definition shopify_product (price : value) : value :=
  VObj [("id", VNum (Dec 7890123456789 0));
        ("title", VStr "Desk");
        ("vendor", VStr "Acme");
        ("handle", VStr "desk");
        ("variants", VArr [VObj [("price", price);
                                 ("inventory_quantity", VNum (Dec 3 0))]]);
        ("images", VArr [VObj [("src", VStr "https://cdn.example/desk.png")]])].

(** A WhatsApp world in which the extraction service is down. *)
Definition offline : WhatsApp.World :=
  {| WhatsApp.META_VERIFY_TOKEN := "s3cret";
     WhatsApp.profiles := fun _ => Ok (VArr [VObj [("user_id", VStr "V")]]);
     WhatsApp.uploaded := None;
     WhatsApp.running_long := false;
     WhatsApp.extraction := fun _ _ => WhatsApp.TransportError;
     WhatsApp.JSON_parse := fun _ => None;
     WhatsApp.stored := fun r => Ok (VArr [VObj r]) |}.

(** A text message as the WhatsApp webhook delivers it. *)
Definition delivery (text : string) : value :=
  VObj [("entry", VArr [VObj [("changes", VArr [VObj [("value", VObj [
     ("messages", VArr [VObj [("id", VStr "wamid.1"); ("from", VStr "2348000000000");
                              ("type", VStr "text");
                              ("text", VObj [("body", VStr text)])]])])]])]])].

Definition inbound (text : string) : WhatsApp.Event :=
  {| WhatsApp.httpMethod := "POST"; WhatsApp.rawQuery := [];
     WhatsApp.body := Json (delivery text) |}.

Definition handshake (query : list (string * string)) : WhatsApp.Event :=
  {| WhatsApp.httpMethod := "GET"; WhatsApp.rawQuery := query;
     WhatsApp.body := NoBody |}.

End Sample.

(* ===================================================================== *)
(** ** The vocabulary of the further properties *)
(* ===================================================================== *)

Module Terms.
Import JS Store Http.

(** A text of decimal digits only. *)
Definition all_digits (s : string) : Prop :=
  Forall (fun c => is_digit c = true) (list_ascii_of_string s).

(** No two values of the list are the same for [Set]. *)
Fixpoint distinct (l : list value) : Prop :=
  match l with
  | [] => True
  | x :: rest => Forall (fun y => same_value_zero y x = false) rest /\ distinct rest
  end.

(** The image URLs the conversational handler collects for a message: the
    public URL of the upload when the message is an image with an id and the
    media pipeline succeeds. *)
Definition image_urls (w : WhatsApp.World) (msg : value) : list value :=
  if (same_value_zero (prop msg "type") (VStr "image") &&
      truthy (prop (prop msg "image") "id"))%bool
  then match WhatsApp.uploaded w with
       | Some publicUrl => [VStr publicUrl]
       | None => []
       end
  else [].

(** The key [k] after a request at clock reading [stamp] used it. *)
Definition used (stamp : string) (k : ApiKey) : ApiKey :=
  {| key_id := key_id k; api_key := api_key k; vendor_id := vendor_id k;
     is_active := is_active k; last_used_at := Some stamp |}.

(** The columns every row of the store-mapping handlers carries whatever
    the product says. *)
Definition forced_columns (l : row) : Prop :=
  assoc "status" l = VStr "approved" /\
  assoc "source" l = VStr "shopify-sync" /\
  assoc "visible_on_dashboard" l = VBool true.

(** The column names of a row are pairwise different. *)
Fixpoint distinct_keys (r : row) : bool :=
  match r with
  | [] => true
  | (k, _) :: rest => negb (has_key k rest) && distinct_keys rest
  end.

(** A world of the conversational channel in which the store answers no
    POST with success and the extraction service is down. *)
Definition store_down : WhatsApp.World :=
  {| WhatsApp.META_VERIFY_TOKEN := "s3cret";
     WhatsApp.profiles := fun _ => Ok (VArr [VObj [("user_id", VStr "V")]]);
     WhatsApp.uploaded := Some "https://cdn.example/wa/1.jpg";
     WhatsApp.running_long := true;
     WhatsApp.extraction := fun _ _ => WhatsApp.TransportError;
     WhatsApp.JSON_parse := fun _ => None;
     WhatsApp.stored := fun _ => Throw UpstreamError |}.

(** An image with a caption, as the WhatsApp webhook delivers it. *)
Definition photo : WhatsApp.Event :=
  {| WhatsApp.httpMethod := "POST"; WhatsApp.rawQuery := [];
     WhatsApp.body := Json (VObj [("entry", VArr [VObj [("changes", VArr [VObj [
       ("value", VObj [
          ("contacts", VArr [VObj [("wa_id", VStr "2348000000000")]]);
          ("messages", VArr [VObj [
             ("id", VStr "wamid.2"); ("type", VStr "image");
             ("image", VObj [("id", VStr "media-1");
                             ("caption", VStr "Blue sofa")])]])])]])]])]) |}.

(** Two databases that differ in their listings and clock at most. *)
Definition frame (a b : DB) : Prop :=
  vendor_api_keys a = vendor_api_keys b /\
  shopify_store_mappings a = shopify_store_mappings b /\
  request_log a = request_log b.

(** A database in which vendor [W] has a listing and vendor [V] a key. *)
Definition shared_database : DB :=
  {| vendor_api_keys :=
       [{| key_id := "k1"; api_key := "sk_live_1"; vendor_id := "V";
           is_active := true; last_used_at := None |};
        {| key_id := "k2"; api_key := "sk_live_2"; vendor_id := "W";
           is_active := true; last_used_at := None |}];
     shopify_store_mappings := [];
     vendor_listings :=
       [[("vendor_id", VStr "W"); ("external_id", VStr "p1"); ("title", VStr "Lamp")]];
     request_log := [];
     ticks := 0 |}.

(** The statuses [serve] answers with. *)
Definition serve_statuses : list Z := [200; 400; 401; 405; 500]%Z.

End Terms.

(* ===================================================================== *)
(** ** Properties *)
(* ===================================================================== *)

Import JS Store Http Spec.

(** *** The model on small inputs *)

Example parseFloat_price : parseFloat_string "19.99" = Dec 1999 (-2).
Proof. reflexivity. Qed.

Example parseFloat_prefix : parseFloat_string "  -1.5e3 NGN" = Dec (-15) 2.
Proof. reflexivity. Qed.

Example parseFloat_words : parseFloat_string "abc" = NaN.
Proof. reflexivity. Qed.

Example parseFloat_default : parseFloat (or_ VUndef (VStr "0")) = Ok (Dec 0 0).
Proof. reflexivity. Qed.

Example platform_id_text : toString (VNum (Dec 7890123456789 0)) = Ok "7890123456789".
Proof. reflexivity. Qed.

Example price_text : number_to_string (Dec 4999 (-2)) = "49.99".
Proof. reflexivity. Qed.

Example small_number_text : number_to_string (Dec 15 (-8)) = "1.5e-7".
Proof. reflexivity. Qed.

Example array_text : to_string (VArr [VNum (Dec 1 0); VNull; VStr "a"]) = Ok "1,,a".
Proof. reflexivity. Qed.

Example bearer_token :
  Netlify.token_of (post "sk_live_1 " VNull) = "sk_live_1".
Proof. reflexivity. Qed.

Example stringify_drops_undefined :
  serialize [("title", VStr "Desk"); ("external_id", VUndef);
             ("price", VNum NaN);
             ("metadata", VObj [("vendor", VUndef); ("handle", VStr "desk")])]
    = [("title", VStr "Desk"); ("price", VNull);
       ("metadata", VObj [("handle", VStr "desk")])].
Proof. reflexivity. Qed.

(** The listing of the design document's example: a chair pushed with a
    valid credential of vendor [V]. *)
Example chair_is_listed :
  let result := EdgeSync.serve Sample.runtime (post "sk_live_1" (batch [Sample.chair]))
                               Sample.database in
  fst result = EdgeSync.success_response 1 [] /\
  vendor_listings (snd result)
    = [[("vendor_id", VStr "V"); ("external_id", VStr "p1"); ("title", VStr "Chair");
        ("description", VNull); ("price", VNum (Dec 4999 (-2))); ("category", VNull);
        ("inventory_count", VNum (Dec 0 0)); ("status", VStr "active");
        ("images", VArr []); ("metadata", VObj []); ("synced_at", VStr "T1")]].
Proof. split; reflexivity. Qed.

(** At the edge of what the theorems below assume: a [null] item makes the
    item's own [catch] throw, which ends the whole batch with a 500; the
    store-mapping handlers iterate over a products string character by
    character; and [serve] transforms a body that has a title and variants
    whatever its products field holds. *)
Example null_item_ends_the_batch :
  fst (EdgeSync.serve Sample.runtime (post "sk_live_1" (batch [VNull; Sample.chair]))
         Sample.database)
    = EdgeSync.internal_error.
Proof. reflexivity. Qed.

Example products_string_is_iterated :
  snd (CatalogSync.handler Sample.runtime
         (post "sk_live_1" (VObj [("products", VStr "ab")])) Sample.database)
    = Ok (CatalogSync.success [VUndef; VUndef]).
Proof. reflexivity. Qed.

Example shopify_shape_wins_over_products :
  fst (EdgeSync.serve Sample.runtime
         (post "sk_live_1"
            (VObj [("id", VNum (Dec 1 0)); ("title", VStr "Desk");
                   ("variants", VArr []); ("products", VStr "none")]))
         Sample.database)
    = EdgeSync.success_response 1 [].
Proof. reflexivity. Qed.

(** *** The verification handshake of the conversational channel *)

(** C8, as the claim states it, fails: a request whose verification token is
    the configured secret but which does not say [hub.mode=subscribe] is
    answered 403. *)
Lemma handshake_without_mode_is_refused :
  let event := Sample.handshake [("hub.verify_token", "s3cret"); ("hub.challenge", "42")] in
  WhatsApp.param "hub.verify_token" (WhatsApp.rawQuery event)
    = Some (WhatsApp.META_VERIFY_TOKEN Sample.offline) /\
  snd (WhatsApp.handler Sample.offline event)
    = Ok {| status := 403; payload := VStr "Forbidden" |}.
Proof. split; reflexivity. Qed.

Lemma opt_string_eqb_eq (a b : option string) :
  opt_string_eqb a b = true <-> a = b.
Proof.
  destruct a as [x|], b as [y|]; simpl; split; intro H;
    try discriminate; try reflexivity.
  - apply String.eqb_eq in H. now subst.
  - injection H as ->. apply String.eqb_refl.
Qed.

(** C8 (amended): on GET the handler answers 200 with the challenge as body
    (the empty string when there is none) exactly when [hub.mode] is
    [subscribe] and [hub.verify_token] is the configured secret; every other
    GET is answered 403 [Forbidden].  Nothing is sent or stored. *)
Theorem verification_handshake (w : WhatsApp.World) (event : WhatsApp.Event) :
  WhatsApp.httpMethod event = "GET" ->
  let mode := WhatsApp.param "hub.mode" (WhatsApp.rawQuery event) in
  let token := WhatsApp.param "hub.verify_token" (WhatsApp.rawQuery event) in
  let challenge := WhatsApp.param "hub.challenge" (WhatsApp.rawQuery event) in
  fst (WhatsApp.handler w event) = {| WhatsApp.sent := []; WhatsApp.posted := [] |} /\
  (mode = Some "subscribe" /\ token = Some (WhatsApp.META_VERIFY_TOKEN w) ->
   snd (WhatsApp.handler w event)
     = Ok {| status := 200;
             payload := VStr (match challenge with
                              | Some c => c
                              | None => ""
                              end) |}) /\
  (~ (mode = Some "subscribe" /\ token = Some (WhatsApp.META_VERIFY_TOKEN w)) ->
   snd (WhatsApp.handler w event)
     = Ok {| status := 403; payload := VStr "Forbidden" |}).
Proof.
  intros Hget mode token challenge.
  unfold WhatsApp.handler. rewrite Hget. simpl.
  split; [reflexivity|].
  unfold WhatsApp.verify. fold mode token challenge.
  split.
  - intros [Hm Ht]. rewrite Hm, Ht. simpl.
    rewrite String.eqb_refl. simpl.
    destruct challenge as [c|]; simpl; [|reflexivity].
    destruct (String.eqb_spec c ""); subst; reflexivity.
  - intros Hno.
    destruct (opt_string_eqb mode (Some "subscribe")) eqn:Em;
      destruct (opt_string_eqb token (Some (WhatsApp.META_VERIFY_TOKEN w))) eqn:Et;
      simpl; try reflexivity.
    exfalso. apply Hno. split; now apply opt_string_eqb_eq.
Qed.

Lemma verification_handshake_witness :
  snd (WhatsApp.handler Sample.offline
         (Sample.handshake [("hub.mode", "subscribe");
                            ("hub.verify_token", "s3cret");
                            ("hub.challenge", "42")]))
    = Ok {| status := 200; payload := VStr "42" |}.
Proof.
  apply (verification_handshake Sample.offline
           (Sample.handshake [("hub.mode", "subscribe");
                              ("hub.verify_token", "s3cret");
                              ("hub.challenge", "42")]) eq_refl).
  split; reflexivity.
Defined.

(** *** The extraction adapter *)

Lemma take_length (n : nat) (s : string) : String.length (take n s) <= n.
Proof.
  revert s. induction n as [|n IH]; intros [|c s]; simpl; try lia.
  specialize (IH s). lia.
Qed.

Lemma take_prefix (n : nat) (s : string) : String.prefix (take n s) s = true.
Proof.
  revert s. induction n as [|n IH]; intros [|c s]; simpl; try reflexivity.
  destruct (Ascii.ascii_dec c c) as [_|Hne]; [apply IH|now elim Hne].
Qed.

Lemma take_all (n : nat) (s : string) : String.length s <= n -> take n s = s.
Proof.
  revert s. induction n as [|n IH]; intros [|c s]; simpl; intro H;
    try reflexivity; try lia.
  f_equal. apply IH. lia.
Qed.

Lemma take_nonempty (n : nat) (s : string) : s <> "" -> take (S n) s <> "".
Proof. destruct s; simpl; [congruence|discriminate]. Qed.

Lemma failure_throws (w : WhatsApp.World) (text : string) (hasImages : bool) :
  WhatsApp.failure w (WhatsApp.extraction w text hasImages) ->
  exists e, WhatsApp.extract w text hasImages = Throw e.
Proof.
  unfold WhatsApp.extract.
  destruct (WhatsApp.extraction w text hasImages) as [| | |json]; simpl;
    try (intros _; eexists; reflexivity).
  intros (content & Hc & Hp). rewrite Hc. simpl. rewrite Hp.
  eexists; reflexivity.
Qed.

(** C7, as the claim states it, fails on the empty text (an image sent
    without a caption): the title is the placeholder, which is no truncation
    of the input. *)
Lemma fallback_title_of_empty_text :
  WhatsApp.failure Sample.offline (WhatsApp.extraction Sample.offline "" true) /\
  WhatsApp.aiExtractProduct Sample.offline "" true
    = VObj [("title", VStr "Untitled product")] /\
  String.prefix "Untitled product" "" = false.
Proof. repeat split. Qed.

(** C7 (amended): whenever the external extraction call fails (transport
    error, response that is not OK, body or reply text that is not JSON) the
    adapter returns the fragment [{ title }] and nothing else, where [title]
    is the first 120 characters of the input text when that text is not
    empty and the placeholder [Untitled product] when it is; the title is
    never empty and never longer than 120 characters, and the handler goes
    on to post exactly one listing carrying it. *)
Theorem extraction_failure_falls_back
    (w : WhatsApp.World) (text : string) (hasImages : bool) :
  WhatsApp.failure w (WhatsApp.extraction w text hasImages) ->
  let title := if text =? "" then "Untitled product" else take 120 text in
  WhatsApp.aiExtractProduct w text hasImages = VObj [("title", VStr title)] /\
  title <> "" /\
  String.length title <= 120 /\
  (text <> "" -> String.prefix title text = true) /\
  forall (waId messageId vendorId : value) (imageUrls : list value)
         (acks : list (value * string)),
    hasImages = negb (Nat.eqb (List.length imageUrls) 0) ->
    exists listing,
      WhatsApp.posted (fst (WhatsApp.submit w waId messageId vendorId text imageUrls acks))
        = [listing] /\
      assoc "title" listing = VStr title.
Proof.
  intros Hfail title.
  assert (Hai : WhatsApp.aiExtractProduct w text hasImages = VObj [("title", VStr title)]).
  { unfold WhatsApp.aiExtractProduct.
    destruct (failure_throws w text hasImages Hfail) as [e ->].
    unfold WhatsApp.fallback, title.
    destruct (String.eqb_spec text ""); reflexivity. }
  assert (Hne : title <> "").
  { unfold title. destruct (String.eqb_spec text "") as [|Hn]; [discriminate|].
    now apply take_nonempty. }
  assert (Hlen : String.length title <= 120).
  { unfold title. destruct (text =? ""); [simpl; lia|apply take_length]. }
  repeat split; try assumption.
  - intros Hn. unfold title.
    destruct (String.eqb_spec text ""); [contradiction|apply take_prefix].
  - intros waId messageId vendorId imageUrls acks Himg.
    unfold WhatsApp.submit. rewrite <- Himg, Hai.
    assert (Ht : truthy (VStr title) = true).
    { simpl. destruct (String.eqb_spec title ""); [contradiction|reflexivity]. }
    cbn [prop assoc String.eqb Ascii.eqb Bool.eqb truthy andb].
    unfold or_ at 1. rewrite Ht.
    cbn [slice_to bind]. rewrite (take_all 200 title) by lia.
    cbn [or_ truthy iterate bind app].
    eexists. split.
    + match goal with
      | |- context [match ?x with Ok _ => _ | Throw _ => _ end] => destruct x
      end; reflexivity.
    + reflexivity.
Qed.

Lemma extraction_failure_falls_back_witness :
  WhatsApp.aiExtractProduct Sample.offline "Red bike 5000" false
    = VObj [("title", VStr "Red bike 5000")].
Proof.
  exact (proj1 (extraction_failure_falls_back Sample.offline "Red bike 5000" false I)).
Defined.

(** *** The shape of the products field *)

Lemma serve_post (rt : Runtime) (req : Request) (db : DB) :
  method req = "POST" ->
  EdgeSync.serve rt req db =
    match EdgeSync.serve_try rt req db with
    | (db1, Ok response) => (response, db1)
    | (db1, Throw error) =>
        (EdgeSync.internal_error,
         logRequest (EdgeSync.entry None None 500
                       ("Internal server error: " ++ exn_message rt error)
                       "unknown" "" None) db1)
    end.
Proof. intros H. unfold EdgeSync.serve. rewrite H. reflexivity. Qed.

(** C3, as the claim states it, fails at the edge function: an authenticated
    POST of [{"products": []}] is answered 400. *)
Lemma edge_rejects_empty_products :
  find_api_key "sk_live_1" Sample.database = OneRow Sample.key /\
  fst (EdgeSync.serve Sample.runtime
         (post "sk_live_1" (VObj [("products", VArr [])])) Sample.database)
    = {| status := 400; payload := VObj [("error", VStr "Empty products array")] |}.
Proof. split; reflexivity. Qed.

(** C3 (amended): for an authenticated POST whose body is
    [{"products": []}], the three Netlify handlers answer 200 with zero
    synced items and write nothing, while the edge function [serve] answers
    400 [Empty products array] and writes no listing. *)
Theorem empty_products_by_entry_point (rt : Runtime) (db : DB) (event : Request) :
  method event = "POST" ->
  body event = Json (VObj [("products", VArr [])]) ->
  (forall keyData,
     find_api_key (Netlify.token_of event) db = OneRow keyData ->
     ApiKeySync.handler rt event db
       = (db, Ok {| status := 200;
                    payload := VObj [("success", VBool true);
                                     ("synced", VNum (Dec 0 0))] |})) /\
  (forall vendor,
     snd (StoreMappingSync.resolve event db) = Ok (inr vendor) ->
     StoreMappingSync.handler rt event db
       = (db, Ok {| status := 200;
                    payload := VObj [("success", VBool true);
                                     ("synced", VNum (Dec 0 0));
                                     ("titles", VArr [])] |})) /\
  (forall vendor,
     snd (CatalogSync.resolve event db) = Ok (inr vendor) ->
     CatalogSync.handler rt event db
       = (db, Ok {| status := 200;
                    payload := VObj [("success", VBool true);
                                     ("synced", VNum (Dec 0 0));
                                     ("titles", VArr [])] |})) /\
  (forall apiKey keyData,
     EdgeSync.bearer (header "authorization" (headers event)) = Some apiKey ->
     find_api_key apiKey db = OneRow keyData ->
     fst (EdgeSync.serve rt event db) = error_response 400 EdgeSync.EMPTY_PRODUCTS /\
     vendor_listings (snd (EdgeSync.serve rt event db)) = vendor_listings db).
Proof.
  intros Hm Hb. split; [|split; [|split]].
  - intros keyData Hk. unfold ApiKeySync.handler.
    rewrite Hm, Hk, Hb. reflexivity.
  - intros vendor Hr. unfold StoreMappingSync.handler.
    rewrite Hm, Hr, Hb. reflexivity.
  - intros vendor Hr. unfold CatalogSync.handler.
    rewrite Hm, Hr, Hb. reflexivity.
  - intros apiKey keyData Hauth Hk.
    rewrite (serve_post rt event db Hm). unfold EdgeSync.serve_try.
    rewrite Hauth, Hk, Hb. split; reflexivity.
Qed.

Lemma empty_products_by_entry_point_witness :
  CatalogSync.handler Sample.runtime
      (post "sk_live_1" (VObj [("products", VArr [])])) Sample.database
    = (Sample.database,
       Ok {| status := 200;
             payload := VObj [("success", VBool true);
                              ("synced", VNum (Dec 0 0));
                              ("titles", VArr [])] |}) /\
  fst (EdgeSync.serve Sample.runtime
         (post "sk_live_1" (VObj [("products", VArr [])])) Sample.database)
    = error_response 400 EdgeSync.EMPTY_PRODUCTS.
Proof.
  pose proof (empty_products_by_entry_point Sample.runtime Sample.database
                (post "sk_live_1" (VObj [("products", VArr [])]))
                eq_refl eq_refl) as (_ & _ & Hc & He).
  split.
  - exact (Hc "V" eq_refl).
  - exact (proj1 (He "sk_live_1" Sample.key eq_refl eq_refl)).
Defined.

(** C4: in [serve], the entry point that expects a products field, an
    authenticated POST whose body is a JSON object that is not a Shopify
    product (it lacks [title] or [variants]) and whose [products] is missing
    or is not an array is answered 400
    [Invalid request body: products array required], and no listing is
    written. *)
Theorem products_must_be_an_array
    (rt : Runtime) (db : DB) (req : Request) (apiKey : string) (keyData : ApiKey)
    (fields : list (string * value)) :
  method req = "POST" ->
  EdgeSync.bearer (header "authorization" (headers req)) = Some apiKey ->
  find_api_key apiKey db = OneRow keyData ->
  body req = Json (VObj fields) ->
  (has_key "title" fields && has_key "variants" fields)%bool = false ->
  is_array (assoc "products" fields) = false ->
  fst (EdgeSync.serve rt req db) = error_response 400 EdgeSync.PRODUCTS_REQUIRED /\
  vendor_listings (snd (EdgeSync.serve rt req db)) = vendor_listings db.
Proof.
  intros Hm Hauth Hkey Hb Hshape Hprod.
  rewrite (serve_post rt req db Hm). unfold EdgeSync.serve_try.
  rewrite Hauth, Hkey, Hb.
  assert (Hreq : EdgeSync.requestBody_of (VObj fields) = Ok (VObj fields)).
  { unfold EdgeSync.requestBody_of. simpl.
    destruct (has_key "title" fields); [|reflexivity].
    simpl in Hshape. rewrite Hshape. reflexivity. }
  cbn [now req_json bind]. rewrite Hreq.
  cbn [prop]. rewrite Hprod, orb_true_r. split; reflexivity.
Qed.

Lemma products_must_be_an_array_witness :
  fst (EdgeSync.serve Sample.runtime
         (post "sk_live_1" (VObj [("products", VStr "chair")])) Sample.database)
    = error_response 400 EdgeSync.PRODUCTS_REQUIRED /\
  fst (EdgeSync.serve Sample.runtime
         (post "sk_live_1" (VObj [("items", VArr [])])) Sample.database)
    = error_response 400 EdgeSync.PRODUCTS_REQUIRED.
Proof.
  split.
  - exact (proj1 (products_must_be_an_array Sample.runtime Sample.database
                    (post "sk_live_1" (VObj [("products", VStr "chair")]))
                    "sk_live_1" Sample.key [("products", VStr "chair")]
                    eq_refl eq_refl eq_refl eq_refl eq_refl eq_refl)).
  - exact (proj1 (products_must_be_an_array Sample.runtime Sample.database
                    (post "sk_live_1" (VObj [("items", VArr [])]))
                    "sk_live_1" Sample.key [("items", VArr [])]
                    eq_refl eq_refl eq_refl eq_refl eq_refl eq_refl)).
Defined.

(** *** The store-mapping handlers count every item *)

Lemma catalog_sync_echoes (rt : Runtime) (vendor : string) (items : list value) :
  Forall (fun p => nullish p = false) items ->
  forall (acc : list value) (db : DB),
  exists db',
    CatalogSync.sync rt vendor items acc db = (db', Ok (acc ++ map title_of items)%list).
Proof.
  induction 1 as [|product rest Hp _ IH]; intros acc db; simpl.
  - exists db. now rewrite app_nil_r.
  - unfold get. rewrite Hp.
    destruct (upsert rt vendor_external _ _) as [r db2].
    destruct (IH (acc ++ [prop product "title"])%list db2) as [db' Hdb'].
    exists db'. rewrite Hdb'. now rewrite <- app_assoc.
Qed.

Lemma store_mapping_sync_echoes (rt : Runtime) (vendor : string) (items : list value) :
  Forall (fun p => nullish p = false) items ->
  forall (acc : list value) (db : DB),
  exists db',
    StoreMappingSync.sync rt vendor items acc db
      = (db', Ok (acc ++ map title_of items)%list).
Proof.
  induction 1 as [|product rest Hp _ IH]; intros acc db; simpl.
  - exists db. now rewrite app_nil_r.
  - unfold get. rewrite Hp.
    destruct (upsert rt vendor_external _ _) as [r db2].
    destruct (IH (acc ++ [prop product "title"])%list db2) as [db' Hdb'].
    exists db'. rewrite Hdb'. now rewrite <- app_assoc.
Qed.

(** C9: in both store-mapping handlers (catalog-sync.ts and part_001), for
    every authenticated POST whose body carries a products array of JSON
    values (none of them [null]), the answer is 200, [synced] is the length
    of the array and [titles] echoes the title of every element in order.
    This holds whatever the store does with the rows (the runtime is
    arbitrary, so also when every upsert is refused) and whatever fields the
    items lack. *)
Theorem store_mapping_handlers_count_every_item
    (rt : Runtime) (db : DB) (event : Request) (vendor : string)
    (payload : value) (items : list value) :
  method event = "POST" ->
  body event = Json payload ->
  prop payload "products" = VArr items ->
  Forall (fun p => nullish p = false) items ->
  let answer :=
    {| status := 200;
       payload := VObj [("success", VBool true);
                        ("synced", VNum (Dec (Z.of_nat (List.length items)) 0));
                        ("titles", VArr (map title_of items))] |} in
  (snd (CatalogSync.resolve event db) = Ok (inr vendor) ->
   exists db', CatalogSync.handler rt event db = (db', Ok answer)) /\
  (snd (StoreMappingSync.resolve event db) = Ok (inr vendor) ->
   exists db', StoreMappingSync.handler rt event db = (db', Ok answer)).
Proof.
  intros Hm Hb Hp Hitems answer.
  assert (Hobj : nullish payload = false)
    by (destruct payload; simpl in Hp; try discriminate; reflexivity).
  split; intros Hr.
  - unfold CatalogSync.handler. rewrite Hm, Hr, Hb. simpl.
    unfold CatalogSync.products_of, get. rewrite Hobj, Hp. simpl.
    destruct (catalog_sync_echoes rt vendor items Hitems [] db) as [db' Hs].
    exists db'. rewrite Hs. unfold CatalogSync.success, answer, num. simpl.
    now rewrite length_map.
  - unfold StoreMappingSync.handler. rewrite Hm, Hr, Hb. simpl.
    unfold StoreMappingSync.products_of, get. rewrite Hobj, Hp. simpl.
    destruct (store_mapping_sync_echoes rt vendor items Hitems [] db) as [db' Hs].
    exists db'. rewrite Hs. unfold StoreMappingSync.success, answer, num. simpl.
    now rewrite length_map.
Qed.

Lemma store_mapping_handlers_count_every_item_witness :
  exists db',
    CatalogSync.handler Sample.closed_runtime
        (post "sk_live_1" (batch [Sample.untitled; Sample.chair]))
        Sample.database
      = (db', Ok {| status := 200;
                    payload := VObj [("success", VBool true);
                                     ("synced", VNum (Dec 2 0));
                                     ("titles", VArr [VUndef; VStr "Chair"])] |}).
Proof.
  apply (store_mapping_handlers_count_every_item Sample.closed_runtime Sample.database
           (post "sk_live_1" (batch [Sample.untitled; Sample.chair]))
           "V" (batch [Sample.untitled; Sample.chair])
           [Sample.untitled; Sample.chair] eq_refl eq_refl eq_refl).
  - repeat constructor.
  - reflexivity.
Defined.

(** *** Vendor resolution *)

Lemma maybeSingle_one {A : Type} (f : A -> bool) (l : list A) (a : A) :
  maybeSingle (filter f l) = OneRow a -> In a l /\ f a = true.
Proof.
  intros H. apply filter_In.
  destruct (filter f l) as [|x [|y rest]]; simpl in H; try discriminate.
  injection H as ->. now left.
Qed.

Lemma maybeSingle_none {A : Type} (f : A -> bool) (l : list A) :
  (forall a, In a l -> f a = false) -> maybeSingle (filter f l) = NoRow.
Proof.
  intros H. replace (filter f l) with (@nil A); [reflexivity|].
  symmetry. induction l as [|x l IH]; simpl; [reflexivity|].
  rewrite (H x) by now left. apply IH. intros a Ha. apply H. now right.
Qed.

Lemma maybeSingle_only {A : Type} (f : A -> bool) (before after : list A) (a : A) :
  f a = true ->
  (forall x, In x (before ++ after)%list -> f x = false) ->
  maybeSingle (filter f (before ++ a :: after)%list) = OneRow a.
Proof.
  intros Ha Hothers.
  assert (Hnil : forall l, (forall x, In x l -> f x = false) -> filter f l = []).
  { induction l as [|x l IH]; simpl; intros H; [reflexivity|].
    rewrite (H x) by now left. apply IH. intros y Hy. apply H. now right. }
  rewrite filter_app. simpl. rewrite Ha.
  rewrite (Hnil before), (Hnil after); [reflexivity| |];
    intros x Hx; apply Hothers, in_or_app; auto.
Qed.

Lemma key_filter_spec (token : string) (k : ApiKey) :
  ((api_key k =? token) && Bool.eqb (is_active k) true)%bool = true <-> credential token k.
Proof.
  unfold credential. rewrite andb_true_iff, String.eqb_eq.
  destruct (is_active k); simpl; intuition congruence.
Qed.

Lemma no_credential_no_row (token : string) (db : DB) :
  (forall k, In k (vendor_api_keys db) -> ~ credential token k) ->
  find_api_key token db = NoRow.
Proof.
  intros H. apply maybeSingle_none. intros k Hk.
  apply not_true_is_false. intros Ht. now apply (H k Hk), key_filter_spec.
Qed.

Lemma mapping_filter_none (column text : string) (db : DB) (field : StoreMapping -> string) :
  (column = "store_name" /\ field = store_name) \/
  (column = "shop_url" /\ field = shop_url) ->
  (forall m, In m (shopify_store_mappings db) -> field m <> text) ->
  find_mapping column text db = NoRow.
Proof.
  intros Hc H. apply maybeSingle_none. intros m Hm.
  specialize (H m Hm).
  destruct Hc as [[-> ->]|[-> ->]]; simpl; now apply String.eqb_neq.
Qed.

Lemma mapping_filter_one (column text : string) (db : DB) (m : StoreMapping) :
  find_mapping column text db = OneRow m ->
  In m (shopify_store_mappings db) /\
  (column = "store_name" -> store_name m = text) /\
  (column = "shop_url" -> shop_url m = text).
Proof.
  intros H. apply maybeSingle_one in H as [Hin Hf]. split; [assumption|].
  split; intros ->; simpl in Hf; now apply String.eqb_eq.
Qed.

(** C2: vendor resolution in the handler of part_001 is a precedence chain.
    - It issues at most one lookup per request.
    - With a token that is not empty, the only lookup is the credential
      lookup by that exact value: without an active credential of that value
      the request is rejected 401 [Invalid API key] (whatever the body and
      the mappings say), a vendor that is resolved is the vendor of an
      active credential with exactly that value, and the one active
      credential of that value resolves to its vendor.
    - Only without a token is the body read: an explicit vendor name is
      looked up as [store_name] even when a shop domain header is there too;
      without a name the shop domain is looked up as [shop_url]; no mapping
      rejects 401 [Store not mapped to vendor]; neither a name nor a domain
      rejects 401 [No vendor/store identifier found] without any lookup.
    - The handler of part_000 rejects a token without an active credential
      the same way. *)
Theorem vendor_resolution_precedence (rt : Runtime) (db : DB) (event : Request) :
  let token := Netlify.token_of event in
  let queries := fst (StoreMappingSync.resolve event db) in
  let result := snd (StoreMappingSync.resolve event db) in
  List.length queries <= 1 /\
  (token <> "" ->
     queries = [KeyQuery token] /\
     ((forall k, In k (vendor_api_keys db) -> ~ credential token k) ->
        result = Ok (inl invalid_credential) /\
        (method event = "POST" ->
         ApiKeySync.handler rt event db = (db, Ok invalid_credential))) /\
     (forall vendor, result = Ok (inr vendor) ->
        exists k, In k (vendor_api_keys db) /\ credential token k /\ vendor_id k = vendor) /\
     (forall before k after,
        vendor_api_keys db = (before ++ k :: after)%list ->
        credential token k ->
        (forall k', In k' (before ++ after)%list -> ~ credential token k') ->
        result = Ok (inr (vendor_id k)))) /\
  (token = "" ->
   forall rawBody, parse_event_body (body event) = Ok rawBody ->
     let name := prop rawBody "vendor" in
     let domain := header_or (header "x-shopify-shop-domain" (headers event)) "" in
     (forall text, truthy name = true -> to_string name = Ok text ->
        queries = [MappingQuery "store_name" text] /\
        ((forall m, In m (shopify_store_mappings db) -> store_name m <> text) ->
           result = Ok (inl vendor_unmapped)) /\
        (forall vendor, result = Ok (inr vendor) ->
           exists m, In m (shopify_store_mappings db) /\ store_name m = text /\
                     mapped_vendor_id m = vendor)) /\
     (truthy name = false -> domain <> "" ->
        queries = [MappingQuery "shop_url" domain] /\
        ((forall m, In m (shopify_store_mappings db) -> shop_url m <> domain) ->
           result = Ok (inl vendor_unmapped)) /\
        (forall vendor, result = Ok (inr vendor) ->
           exists m, In m (shopify_store_mappings db) /\ shop_url m = domain /\
                     mapped_vendor_id m = vendor)) /\
     (truthy name = false -> domain = "" ->
        queries = [] /\ result = Ok (inl missing_vendor_identifier))).
Proof.
  intros token queries result.
  unfold queries, result, StoreMappingSync.resolve. fold token.
  split; [|split].
  - destruct (String.eqb_spec token ""); simpl; [|lia].
    destruct (parse_event_body (body event)); simpl; [|lia].
    destruct (truthy (or_ _ _)); simpl; [|lia].
    destruct (to_string _); simpl; lia.
  - intros Ht. apply String.eqb_neq in Ht. rewrite Ht. simpl.
    split; [reflexivity|]. split; [|split].
    + intros Hnone. rewrite (no_credential_no_row token db Hnone).
      split; [reflexivity|]. intros Hm.
      unfold ApiKeySync.handler. rewrite Hm. fold token.
      now rewrite (no_credential_no_row token db Hnone).
    + intros vendor Hv.
      destruct (find_api_key token db) as [|k|] eqn:Hk; try discriminate.
      injection Hv as <-. apply maybeSingle_one in Hk as [Hin Hf].
      apply key_filter_spec in Hf. exists k. auto.
    + intros before k after Hkeys Hk Hothers.
      unfold find_api_key. rewrite Hkeys.
      rewrite maybeSingle_only; [reflexivity|now apply key_filter_spec|].
      intros k' Hk'. apply not_true_is_false. intros Hf.
      now apply (Hothers k' Hk'), key_filter_spec.
  - intros Ht rawBody Hbody. rewrite Ht, Hbody. simpl.
    set (name := prop rawBody "vendor").
    set (domain := header_or (header "x-shopify-shop-domain" (headers event)) "").
    split; [|split].
    + intros text Hname Htext. unfold or_. rewrite Hname. simpl. rewrite Hname, Htext.
      split; [reflexivity|]. split.
      * intros Hnone.
        now rewrite (mapping_filter_none "store_name" text db store_name) by auto.
      * intros vendor Hv. simpl in Hv.
        destruct (find_mapping "store_name" text db) as [|m|] eqn:Hm; try discriminate.
        injection Hv as <-. apply mapping_filter_one in Hm as (Hin & Hs & _).
        exists m. auto.
    + intros Hname Hdom. unfold or_. rewrite Hname. simpl.
      apply String.eqb_neq in Hdom. rewrite Hdom. simpl.
      split; [reflexivity|]. split.
      * intros Hnone.
        now rewrite (mapping_filter_none "shop_url" domain db shop_url) by auto.
      * intros vendor Hv.
        destruct (find_mapping "shop_url" domain db) as [|m|] eqn:Hm; try discriminate.
        injection Hv as <-. apply mapping_filter_one in Hm as (Hin & _ & Hs).
        exists m. auto.
    + intros Hname ->. unfold or_. rewrite Hname. simpl. split; reflexivity.
Qed.

Lemma vendor_resolution_precedence_witness :
  snd (StoreMappingSync.resolve
         {| method := "POST";
            headers := [("x-shopify-shop-domain", "other.myshopify.com")];
            body := Json (VObj [("vendor", VStr "Acme")]) |} Sample.database)
    = Ok (inr "V") /\
  snd (StoreMappingSync.resolve
         (post "sk_old" (VObj [("vendor", VStr "Acme")])) Sample.database)
    = Ok (inl invalid_credential).
Proof.
  split.
  - reflexivity.
  - apply (vendor_resolution_precedence Sample.runtime Sample.database
             (post "sk_old" (VObj [("vendor", VStr "Acme")]))).
    + discriminate.
    + intros k [<-|[]] [Hk _]. discriminate.
Defined.

(** *** Normalization of a Shopify product *)

Lemma assoc_has_key (k : string) (fs : list (string * value)) :
  assoc k fs <> VUndef -> has_key k fs = true.
Proof.
  induction fs as [|[k' v] fs IH]; simpl; [congruence|].
  destruct (k =? k'); simpl; auto.
Qed.

Lemma no_key_assoc (k : string) (fs : list (string * value)) :
  has_key k fs = false -> assoc k fs = VUndef.
Proof.
  induction fs as [|[k' v] fs IH]; simpl; [reflexivity|].
  destruct (k =? k'); simpl; [discriminate|exact IH].
Qed.

Lemma sources_of_objects (imgs : list value) :
  Forall (fun img => nullish img = false) imgs ->
  Shopify.sources imgs = Ok (map (fun img => prop img "src") imgs).
Proof.
  induction 1 as [|img rest Himg _ IH]; simpl; [reflexivity|].
  unfold get. rewrite Himg. simpl. now rewrite IH.
Qed.

(** C6, as the claim states it, fails on a price string that is not a
    number: the synthesized product carries [NaN], not 0 (the edge function
    then stores [null], the store-mapping handlers store 0). *)
Lemma unparsable_price_is_not_zero :
  exists product,
    EdgeSync.requestBody_of (Sample.shopify_product (VStr "abc"))
      = Ok (VObj [("products", VArr [product])]) /\
    prop product "price" = VNum NaN /\
    num_truthy NaN = false /\
    VNum NaN <> VNum (Dec 0 0).
Proof. eexists. repeat split. discriminate. Qed.

Section ShopifyProduct.

Variable fields : list (string * value).
Variable id : number.
Variable s : string.
Variables variants imgs : list value.

Hypothesis has_title : truthy (assoc "title" fields) = true.
Hypothesis has_variants : assoc "variants" fields = VArr variants.
Hypothesis no_products : has_key "products" fields = false.
Hypothesis numeric_id : assoc "id" fields = VNum id.
Hypothesis price_string :
  listed_price variants = VStr s \/ (nullish (listed_price variants) = true /\ s = "").
Hypothesis image_list :
  assoc "images" fields = VArr imgs \/ (nullish (assoc "images" fields) = true /\ imgs = []).
Hypothesis image_objects : Forall (fun img => nullish img = false) imgs.

Lemma shopify_price : Shopify.price (VObj fields) = Ok (VNum (parsed_price s)).
Proof.
  unfold Shopify.price, Shopify.first_variant, parsed_price. cbn [prop].
  rewrite has_variants.
  change (first_elem (VArr variants)) with (first_variant variants).
  fold (listed_price variants).
  destruct price_string as [Hs|[Hn ->]].
  - rewrite Hs. unfold or_. simpl.
    destruct (String.eqb_spec s ""); subst; reflexivity.
  - unfold or_. destruct (listed_price variants); try discriminate; reflexivity.
Qed.

Lemma shopify_inventory :
  Shopify.inventory_count (VObj fields)
    = if truthy (listed_quantity variants) then listed_quantity variants
      else VNum (Dec 0 0).
Proof.
  unfold Shopify.inventory_count, Shopify.first_variant. cbn [prop].
  now rewrite has_variants.
Qed.

Lemma shopify_images :
  Shopify.images (VObj fields) = Ok (VArr (map (fun img => prop img "src") imgs)).
Proof.
  unfold Shopify.images. cbn [prop].
  destruct image_list as [Hi|[Hn ->]].
  - rewrite Hi, (sources_of_objects imgs image_objects). reflexivity.
  - destruct (assoc "images" fields); try discriminate; reflexivity.
Qed.

(** C6 (amended): for a body that is a single Shopify product object (a
    title, a variant list, a numeric id, no products field), each of the
    three transforms ([serve], catalog-sync.ts and the API-key handler)
    produces exactly one product; its external id is the id as a string, its
    price is [parseFloat] of the first variant's price string, which is 0
    when no price is listed and NaN (not 0) when the string does not start
    with a number, its inventory count is the first variant's quantity or 0
    without one, its images are the [src] of each entry of the image list,
    and its metadata carries the vendor label and the handle. *)
Theorem shopify_product_normalization :
  exists p_edge p_catalog p_key,
    EdgeSync.requestBody_of (VObj fields) = Ok (VObj [("products", VArr [p_edge])]) /\
    canonical id (assoc "title" fields) s variants imgs p_edge /\
    prop p_edge "metadata"
      = VObj [("vendor", or_ (assoc "vendor" fields) (VStr "Unknown"));
              ("shopify_handle", assoc "handle" fields)] /\
    CatalogSync.products_of (VObj fields) = Ok (VArr [p_catalog]) /\
    canonical id (assoc "title" fields) s variants imgs p_catalog /\
    prop p_catalog "metadata"
      = VObj [("vendor", or_ (assoc "vendor" fields) (VStr ""));
              ("handle", or_ (assoc "handle" fields) (VStr ""));
              ("shopify_id", VNum id)] /\
    ApiKeySync.body_of (VObj fields) = Ok (VObj [("products", VArr [p_key])]) /\
    canonical id (assoc "title" fields) s variants imgs p_key /\
    prop p_key "metadata"
      = VObj [("vendor", assoc "vendor" fields); ("handle", assoc "handle" fields)].
Proof.
  assert (Ht : has_key "title" fields = true).
  { apply assoc_has_key. intros E. rewrite E in has_title. discriminate. }
  assert (Hv : has_key "variants" fields = true).
  { apply assoc_has_key. rewrite has_variants. discriminate. }
  do 3 eexists.
  split; [|split; [|split; [|split; [|split; [|split; [|split; [|split]]]]]]].
  - unfold EdgeSync.requestBody_of, EdgeSync.shopify_request. cbn [in_ bind].
    rewrite Ht, Hv. cbn [prop]. rewrite numeric_id. cbn [toString nullish to_string bind].
    rewrite shopify_price, shopify_images, shopify_inventory. cbn [bind]. reflexivity.
  - repeat split.
  - reflexivity.
  - unfold CatalogSync.products_of, CatalogSync.shopify_product. cbn [get nullish prop bind].
    rewrite (no_key_assoc "products" fields no_products). cbn [truthy].
    rewrite has_title, numeric_id. cbn [toString nullish to_string bind].
    rewrite shopify_price, shopify_images, shopify_inventory. cbn [bind]. reflexivity.
  - repeat split.
  - reflexivity.
  - unfold ApiKeySync.body_of, ApiKeySync.shopify_body. cbn [truthy prop andb].
    rewrite has_title, has_variants. cbn [andb truthy prop].
    rewrite numeric_id. cbn [toString nullish to_string bind].
    rewrite shopify_price, shopify_images, shopify_inventory. cbn [bind]. reflexivity.
  - repeat split.
  - reflexivity.
Qed.

End ShopifyProduct.

Lemma shopify_product_normalization_witness :
  exists p_edge,
    EdgeSync.requestBody_of (Sample.shopify_product (VStr "19.99"))
      = Ok (VObj [("products", VArr [p_edge])]) /\
    prop p_edge "external_id" = VStr "7890123456789" /\
    prop p_edge "price" = VNum (Dec 1999 (-2)).
Proof.
  destruct (shopify_product_normalization
              [("id", VNum (Dec 7890123456789 0));
               ("title", VStr "Desk");
               ("vendor", VStr "Acme");
               ("handle", VStr "desk");
               ("variants", VArr [VObj [("price", VStr "19.99");
                                        ("inventory_quantity", VNum (Dec 3 0))]]);
               ("images", VArr [VObj [("src", VStr "https://cdn.example/desk.png")]])]
              (Dec 7890123456789 0) "19.99"
              [VObj [("price", VStr "19.99"); ("inventory_quantity", VNum (Dec 3 0))]]
              [VObj [("src", VStr "https://cdn.example/desk.png")]]
              eq_refl eq_refl eq_refl eq_refl (or_introl eq_refl) (or_introl eq_refl)
              ltac:(repeat constructor))
    as (p_edge & p_catalog & p_key & He & (Hid & _ & Hprice & _) & _).
  exists p_edge. repeat split; assumption.
Defined.

(** *** The external id of a conversational submission *)


(** *** Upsert keyed on (vendor id, external id) *)

Arguments same_key : simpl never.
Arguments of_pair : simpl never.
Arguments merge : simpl never.
Arguments listings_of : simpl never.

Lemma listings_of_filter (vendor external : string) (t : list row) :
  listings_of vendor external t = filter (of_pair vendor external) t.
Proof. reflexivity. Qed.

Lemma assoc_app (k : string) (a b : list (string * value)) :
  assoc k (a ++ b) = if has_key k a then assoc k a else assoc k b.
Proof.
  induction a as [|[k' v] a IH]; simpl; [reflexivity|].
  destruct (k =? k'); simpl; [reflexivity|exact IH].
Qed.

Lemma merge_carries (incoming stored : row) : carries incoming (merge incoming stored).
Proof. intros column H. unfold merge. now rewrite assoc_app, H. Qed.

Lemma key_text_has_key (c : string) (r : row) (x : string) :
  key_text (assoc c r) = Some x -> has_key c r = true.
Proof.
  intros H. apply assoc_has_key. intros E. rewrite E in H. discriminate.
Qed.

Lemma same_key_spec (a b : row) :
  same_key vendor_external a b = true <->
  exists vendor external,
    key_text (assoc "vendor_id" a) = Some vendor /\
    key_text (assoc "vendor_id" b) = Some vendor /\
    key_text (assoc "external_id" a) = Some external /\
    key_text (assoc "external_id" b) = Some external.
Proof.
  unfold same_key, vendor_external. cbn [forallb]. rewrite andb_true_r.
  split.
  - intros H. apply andb_true_iff in H as [Hv He].
    destruct (key_text (assoc "vendor_id" a)) as [va|]; [|discriminate].
    destruct (key_text (assoc "vendor_id" b)) as [vb|]; [|discriminate].
    destruct (key_text (assoc "external_id" a)) as [ea|]; [|discriminate].
    destruct (key_text (assoc "external_id" b)) as [eb|]; [|discriminate].
    apply String.eqb_eq in Hv, He. subst. exists vb, eb. auto.
  - intros (v & e & -> & -> & -> & ->). now rewrite !String.eqb_refl.
Qed.

Lemma of_pair_spec (vendor external : string) (r : row) :
  of_pair vendor external r = true <->
  key_text (assoc "vendor_id" r) = Some vendor /\
  key_text (assoc "external_id" r) = Some external.
Proof.
  unfold of_pair. rewrite andb_true_iff, !opt_string_eqb_eq. reflexivity.
Qed.

Lemma same_key_of_pair (a b : row) (vendor external : string) :
  same_key vendor_external a b = true ->
  of_pair vendor external b = of_pair vendor external a.
Proof.
  intros H. apply same_key_spec in H as (v & e & Ha & Hb & Hc & Hd).
  unfold of_pair. now rewrite Ha, Hb, Hc, Hd.
Qed.

Lemma merge_of_pair (incoming stored : row) (vendor external : string) :
  same_key vendor_external incoming stored = true ->
  of_pair vendor external (merge incoming stored) = of_pair vendor external incoming.
Proof.
  intros H. apply same_key_spec in H as (v & e & Ha & _ & Hc & _).
  unfold of_pair.
  rewrite (merge_carries incoming stored "vendor_id" (key_text_has_key _ _ _ Ha)).
  now rewrite (merge_carries incoming stored "external_id" (key_text_has_key _ _ _ Hc)).
Qed.




(** The row an upsert stores is in the table afterwards and carries the
    submitted values. *)
Lemma upsert_on_stored (incoming : row) (t : list row) :
  In (snd (upsert_on vendor_external incoming t))
     (fst (upsert_on vendor_external incoming t)) /\
  carries incoming (snd (upsert_on vendor_external incoming t)).
Proof.
  induction t as [|r t IH]; simpl.
  - split; [now left|intros column _; reflexivity].
  - destruct (same_key vendor_external incoming r); simpl.
    + split; [now left|apply merge_carries].
    + destruct (upsert_on vendor_external incoming t) as [t' stored]. simpl in *.
      destruct IH as [IHin IHc]. split; [now right|assumption].
Qed.


(** The other pairs keep their listings. *)
Lemma upsert_on_others (incoming : row) (t : list row) (vendor external : string) :
  of_pair vendor external incoming = false ->
  listings_of vendor external (fst (upsert_on vendor_external incoming t))
    = listings_of vendor external t.
Proof.
  intros Hi. induction t as [|r t IH]; simpl.
  - rewrite listings_of_filter. simpl. now rewrite Hi.
  - destruct (same_key vendor_external incoming r) eqn:Hk; simpl.
    + rewrite !listings_of_filter. simpl.
      now rewrite (merge_of_pair _ _ vendor external Hk),
                  (same_key_of_pair _ _ vendor external Hk), Hi.
    + destruct (upsert_on vendor_external incoming t) as [t' stored]. simpl in *.
      rewrite !listings_of_filter in *. simpl. now rewrite IH.
Qed.



(** *** The product loop of [serve] *)

Lemma or_defined (x d : value) :
  d <> VUndef -> or_ x d <> VUndef.
Proof.
  intros Hd. unfold or_. destruct (truthy x) eqn:Hx; [|exact Hd].
  intros ->. discriminate.
Qed.

Lemma serialize_cons (k : string) (v : value) (r : row) :
  v <> VUndef -> serialize ((k, v) :: r) = (k, json_of v) :: serialize r.
Proof. intros Hv. unfold serialize. simpl. destruct v; congruence. Qed.

Lemma truthy_defined (v : value) : truthy v = true -> v <> VUndef.
Proof. intros H ->. discriminate. Qed.

(** With both required fields, no column of [productData] is left out. *)
Lemma submission_columns (vendor : string) (product : value) (stamp : string) :
  prop product "external_id" <> VUndef ->
  prop product "title" <> VUndef ->
  submission vendor product stamp
    = map (fun kv => (fst kv, json_of (snd kv)))
          (EdgeSync.productData vendor product stamp).
Proof.
  intros He Ht. unfold submission, EdgeSync.productData.
  repeat (rewrite serialize_cons;
          [|first [assumption | discriminate | apply or_defined; discriminate]]).
  reflexivity.
Qed.


Section Loop.

Variable rt : Runtime.
Variable vendor : string.

(** One turn of the loop on a product that has both required fields. *)
Lemma sync_complete_product (p : EdgeSync.Progress) (product : value) :
  nullish product = false ->
  complete product = true ->
  let submitted := submission vendor product (clock rt (ticks (EdgeSync.db p))) in
  let listings := vendor_listings (EdgeSync.db p) in
  EdgeSync.try_product rt vendor p product =
    match refuse rt listings submitted with
    | Some reason =>
        let p2 := {| EdgeSync.db := snd (now rt (EdgeSync.db p));
                     EdgeSync.processedProducts := EdgeSync.processedProducts p;
                     EdgeSync.errors := EdgeSync.errors p |} in
        match to_string (prop product "external_id") with
        | Throw e => (p2, Some e)
        | Ok id =>
            (EdgeSync.push_error ("Failed to sync product " ++ id ++ ": " ++ reason) p2,
             None)
        end
    | None =>
        ({| EdgeSync.db :=
              set_listings (fst (upsert_on vendor_external submitted listings))
                           (snd (now rt (EdgeSync.db p)));
            EdgeSync.processedProducts :=
              (EdgeSync.processedProducts p
                 ++ [snd (upsert_on vendor_external submitted listings)])%list;
            EdgeSync.errors := EdgeSync.errors p |}, None)
    end.
Proof.
  intros Hn Hc submitted listings.
  unfold complete in Hc. apply andb_true_iff in Hc as [He Ht].
  unfold EdgeSync.try_product, get. rewrite Hn, He, Ht. cbn [negb orb].
  unfold now, upsert. cbn [vendor_listings].
  subst submitted listings. unfold submission.
  destruct (refuse rt _ _) as [reason|]; [reflexivity|].
  destruct (upsert_on vendor_external _ _) as [t stored].
  reflexivity.
Qed.

(** One turn of the loop on a candidate product never throws, and changes
    the report and the database in one of three ways, by what the product
    holds and what the store answers. *)
Lemma sync_candidate (p : EdgeSync.Progress) (product : value) :
  candidate product ->
  exists p',
    EdgeSync.sync_product rt vendor p product = (p', None) /\
    ((complete product = false /\
      EdgeSync.errors p' = (EdgeSync.errors p ++ [EdgeSync.MISSING_FIELDS])%list /\
      EdgeSync.processedProducts p' = EdgeSync.processedProducts p /\
      EdgeSync.db p' = EdgeSync.db p) \/
     (complete product = true /\
      (exists id reason,
         to_string (prop product "external_id") = Ok id /\
         refusal rt vendor product (EdgeSync.db p) = Some reason /\
         EdgeSync.errors p'
           = (EdgeSync.errors p
                ++ [("Failed to sync product " ++ id ++ ": " ++ reason)%string])%list) /\
      EdgeSync.processedProducts p' = EdgeSync.processedProducts p /\
      EdgeSync.db p' = snd (now rt (EdgeSync.db p))) \/
     (complete product = true /\
      refusal rt vendor product (EdgeSync.db p) = None /\
      EdgeSync.errors p' = EdgeSync.errors p /\
      (exists stored,
         EdgeSync.processedProducts p'
           = (EdgeSync.processedProducts p ++ [stored])%list) /\
      EdgeSync.db p' = written rt vendor product (EdgeSync.db p))).
Proof.
  intros [Hn [id Hid]]. unfold EdgeSync.sync_product.
  destruct (complete product) eqn:Hc.
  - rewrite (sync_complete_product p product Hn Hc). cbn zeta.
    unfold refusal, written.
    destruct (refuse rt _ _) as [reason|] eqn:Hr.
    + rewrite Hid. eexists. split; [reflexivity|].
      right; left. split; [reflexivity|]. split; [|split; reflexivity].
      exists id, reason. repeat split.
    + eexists. split; [reflexivity|].
      right; right. split; [reflexivity|]. split; [reflexivity|].
      split; [reflexivity|]. split; [|reflexivity].
      eexists. reflexivity.
  - unfold EdgeSync.try_product, get. rewrite Hn.
    unfold complete in Hc.
    replace (negb (truthy (prop product "external_id"))
             || negb (truthy (prop product "title")))%bool with true
      by (destruct (truthy (prop product "external_id")),
                   (truthy (prop product "title")); simpl in *; congruence).
    eexists. split; [reflexivity|].
    left. repeat split.
Qed.

(** The loop over candidate products runs to its end, and its report is the
    report of the batch. *)
Lemma sync_products_reported (products : list value) :
  Forall candidate products ->
  forall p, exists p' errs n,
    EdgeSync.sync_products rt vendor p products = (p', None) /\
    EdgeSync.errors p' = (EdgeSync.errors p ++ errs)%list /\
    List.length (EdgeSync.processedProducts p')
      = List.length (EdgeSync.processedProducts p) + n /\
    reported rt vendor (EdgeSync.db p) products errs n (EdgeSync.db p').
Proof.
  induction 1 as [|product rest Hp _ IH]; intros p; simpl.
  - exists p, [], 0. rewrite app_nil_r, Nat.add_0_r. repeat split. constructor.
  - destruct (sync_candidate p product Hp) as (p1 & Hs & Hcase). rewrite Hs.
    destruct (IH p1) as (p' & errs & n & Hl & He & Hcount & Hr). rewrite Hl.
    destruct Hcase as [(Hc & He1 & Hp1 & Hd)|
                       [(Hc & (id & reason & Hid & Hno & He1) & Hp1 & Hd)|
                        (Hc & Hyes & He1 & (stored & Hp1) & Hd)]];
      rewrite Hd in Hr.
    + exists p', (EdgeSync.MISSING_FIELDS :: errs), n.
      rewrite He, He1, <- app_assoc, Hcount, Hp1. repeat split.
      now constructor.
    + exists p', (("Failed to sync product " ++ id ++ ": " ++ reason) :: errs), n.
      rewrite He, He1, <- app_assoc, Hcount, Hp1. repeat split.
      now apply reported_refused.
    + exists p', errs, (S n).
      rewrite He, He1, Hcount, Hp1, length_app. simpl. repeat split; [lia|].
      now apply reported_processed.
Qed.

End Loop.


(** *** [serve] on a batch *)

Lemma bearer_post (token : string) (json : value) :
  EdgeSync.bearer (header "authorization" (headers (post token json))) = Some token.
Proof. destruct token; reflexivity. Qed.

Lemma serve_batch (rt : Runtime) (db : DB) (token : string) (k : ApiKey)
    (products : list value) :
  find_api_key token db = OneRow k ->
  products <> [] ->
  EdgeSync.serve rt (post token (batch products)) db =
    match EdgeSync.sync_products rt (vendor_id k)
            {| EdgeSync.db := authenticated rt k db;
               EdgeSync.processedProducts := [];
               EdgeSync.errors := [] |} products with
    | (p, Some e) =>
        (EdgeSync.internal_error,
         logRequest (EdgeSync.entry None None 500
                       ("Internal server error: " ++ exn_message rt e)
                       "unknown" "" None) (EdgeSync.db p))
    | (p, None) =>
        (EdgeSync.success_response (List.length (EdgeSync.processedProducts p))
                                   (EdgeSync.errors p),
         logRequest (EdgeSync.entry (Some (vendor_id k)) (Some (key_id k)) 200
                       (EdgeSync.responseMessage
                          (List.length (EdgeSync.processedProducts p))
                          (List.length (EdgeSync.errors p)))
                       "unknown" "" (Some (batch products))) (EdgeSync.db p))
    end.
Proof.
  intros Hk Hne.
  rewrite (serve_post rt (post token (batch products)) db eq_refl).
  unfold EdgeSync.serve_try.
  rewrite bearer_post, Hk.
  destruct products as [|product rest]; [congruence|].
  cbn -[EdgeSync.sync_products touch_api_key].
  fold (authenticated rt k db).
  destruct (EdgeSync.sync_products rt (vendor_id k) _ (product :: rest)) as [p [e|]];
    reflexivity.
Qed.


Lemma sync_accepted (rt : Runtime) (vendor : string) (p : EdgeSync.Progress)
    (product : value) :
  nullish product = false ->
  complete product = true ->
  let submitted := submission vendor product (clock rt (ticks (EdgeSync.db p))) in
  let listings := vendor_listings (EdgeSync.db p) in
  refuse rt listings submitted = None ->
  EdgeSync.sync_product rt vendor p product =
    ({| EdgeSync.db :=
          set_listings (fst (upsert_on vendor_external submitted listings))
                       (snd (now rt (EdgeSync.db p)));
        EdgeSync.processedProducts :=
          (EdgeSync.processedProducts p
             ++ [snd (upsert_on vendor_external submitted listings)])%list;
        EdgeSync.errors := EdgeSync.errors p |}, None).
Proof.
  intros Hn Hc submitted listings Hr. unfold EdgeSync.sync_product.
  rewrite (sync_complete_product rt vendor p product Hn Hc). cbn zeta.
  fold submitted listings. now rewrite Hr.
Qed.



(** *** Partial failure of a batch *)




(** *** Two submissions of the same pair *)






(* ===================================================================== *)
(** ** Further properties of the conversational channel *)
(* ===================================================================== *)

Import Terms.

(** *** Phone numbers *)

Lemma keep_digits_digits (s : string) : all_digits (WhatsApp.keep_digits s).
Proof.
  unfold all_digits, WhatsApp.keep_digits.
  rewrite list_ascii_of_string_of_list_ascii.
  apply Forall_forall. intros c Hc. now apply filter_In in Hc.
Qed.

Lemma filter_all {A : Type} (f : A -> bool) (l : list A) :
  Forall (fun x => f x = true) l -> filter f l = l.
Proof.
  induction 1 as [|x l Hx _ IH]; simpl; [reflexivity|].
  now rewrite Hx, IH.
Qed.

Lemma keep_digits_of_digits (s : string) :
  all_digits s -> WhatsApp.keep_digits s = s.
Proof.
  intros H. unfold WhatsApp.keep_digits.
  rewrite (filter_all _ _ H). apply string_of_list_ascii_of_string.
Qed.

Lemma normalizeMsisdn_text (s : string) :
  WhatsApp.normalizeMsisdn (VStr s) = Ok (WhatsApp.keep_digits s).
Proof.
  unfold WhatsApp.normalizeMsisdn. simpl.
  destruct (String.eqb_spec s ""); subst; reflexivity.
Qed.

(** X1: [normalizeMsisdn] never fails on a text; its result holds decimal
    digits only, is left as it is by a second normalization, and does not
    change when a character that is no digit is put in front of the text (a
    [+], a blank).  So [findProfileByWaId] asks the same question for two
    sender ids with the same digits. *)
Theorem msisdn_is_digits_only (w : WhatsApp.World) (s : string) :
  exists d,
    WhatsApp.normalizeMsisdn (VStr s) = Ok d /\
    all_digits d /\
    WhatsApp.normalizeMsisdn (VStr d) = Ok d /\
    (forall c, is_digit c = false ->
       WhatsApp.normalizeMsisdn (VStr (String c s)) = Ok d) /\
    (forall s', WhatsApp.keep_digits s' = d ->
       WhatsApp.findProfileByWaId w (VStr s') = WhatsApp.findProfileByWaId w (VStr s)).
Proof.
  exists (WhatsApp.keep_digits s).
  split; [apply normalizeMsisdn_text|].
  split; [apply keep_digits_digits|].
  split; [|split].
  - rewrite normalizeMsisdn_text.
    now rewrite (keep_digits_of_digits _ (keep_digits_digits s)).
  - intros c Hc. rewrite normalizeMsisdn_text.
    unfold WhatsApp.keep_digits. simpl. now rewrite Hc.
  - intros s' Hs'. unfold WhatsApp.findProfileByWaId.
    now rewrite !normalizeMsisdn_text, Hs'.
Qed.

(** *** The status of an extraction *)

Lemma remove_key_assoc (k : string) (fs : list (string * value)) :
  assoc k (WhatsApp.remove_key k fs) = VUndef.
Proof.
  induction fs as [|[k' v] fs IH]; simpl; [reflexivity|].
  destruct (k =? k') eqn:E; [exact IH|]. simpl. now rewrite E.
Qed.

Lemma remove_key_other (k k0 : string) (fs : list (string * value)) :
  k0 <> k -> assoc k0 (WhatsApp.remove_key k fs) = assoc k0 fs.
Proof.
  intros Hne. induction fs as [|[k' v] fs IH]; simpl; [reflexivity|].
  destruct (k =? k') eqn:E.
  - apply String.eqb_eq in E. subst k'.
    apply String.eqb_neq in Hne. now rewrite Hne.
  - simpl. now rewrite IH.
Qed.

(** X2: whatever the extraction service replies, the fragment
    [aiExtractProduct] returns never carries a status outside
    [ALLOWED_STATUSES]: a status it has is one of [active], [inactive],
    [draft].  Dropping a foreign status touches no other field of the
    reply. *)
Theorem extraction_status_is_allowed
    (w : WhatsApp.World) (text : string) (hasImages : bool) :
  let ai := WhatsApp.aiExtractProduct w text hasImages in
  (truthy (prop ai "status") = true ->
   WhatsApp.allowed_status (prop ai "status") = true) /\
  (forall parsed field,
     field <> "status" ->
     prop (WhatsApp.drop_foreign_status parsed) field = prop parsed field).
Proof.
  split.
  - unfold WhatsApp.aiExtractProduct, WhatsApp.extract.
    destruct (WhatsApp.extraction w text hasImages) as [| | |json];
      try (simpl; discriminate).
    destruct (WhatsApp.reply_text json) as [content|e]; [|simpl; discriminate].
    cbn [bind]. destruct (WhatsApp.JSON_parse w content) as [parsed|];
      [|simpl; discriminate].
    destruct (get parsed "status") as [st|e]; [|simpl; discriminate].
    cbn [bind]. unfold WhatsApp.drop_foreign_status.
    destruct parsed as [| | | | | |fs]; try (simpl; discriminate).
    destruct (truthy (assoc "status" fs)) eqn:Ht;
      destruct (WhatsApp.allowed_status (assoc "status" fs)) eqn:Ha;
      cbn [andb negb prop]; try rewrite remove_key_assoc; try rewrite Ht;
      try rewrite Ha; auto; simpl; discriminate.
  - intros parsed field Hne. unfold WhatsApp.drop_foreign_status.
    destruct parsed as [| | | | | |fs]; try reflexivity.
    destruct (truthy (assoc "status" fs) && negb (WhatsApp.allowed_status (assoc "status" fs)))%bool;
      [|reflexivity].
    cbn [prop]. now apply remove_key_other.
Qed.

(** *** The paths of the conversational handler *)

(** The status handed to [upsertListing]. *)
Lemma submit_paths (w : WhatsApp.World) (waId messageId vendorId : value)
    (text : string) (imageUrls : list value) (acks : list (value * string)) :
  let ai := WhatsApp.aiExtractProduct w text (negb (Nat.eqb (List.length imageUrls) 0)) in
  let status :=
    if (truthy (prop ai "status") && WhatsApp.allowed_status (prop ai "status"))%bool
    then prop ai "status" else VStr "active" in
  let run := WhatsApp.submit w waId messageId vendorId text imageUrls acks in
  (WhatsApp.posted (fst run) = [] /\ WhatsApp.sent (fst run) = acks /\
   exists e, snd run = Throw e) \/
  (exists title spread,
     slice_to 200 (or_ (prop ai "title") (VStr "Untitled product")) = Ok title /\
     iterate (or_ (prop ai "images") (VArr [])) = Ok spread /\
     let data := WhatsApp.listing_data vendorId messageId ai title status
                   (dedup (spread ++ imageUrls)) in
     WhatsApp.posted (fst run) = [WhatsApp.listing data] /\
     ((exists e, snd run = Throw e /\ WhatsApp.sent (fst run) = acks) \/
      (exists inserted message,
         WhatsApp.upsertListing w data = Ok inserted /\
         snd run = Ok {| status := 200; payload := VStr "OK" |} /\
         WhatsApp.sent (fst run) = (acks ++ [(waId, message)])%list))).
Proof.
  intros ai status run. subst run. unfold WhatsApp.submit. fold ai. fold status.
  destruct (slice_to 200 (or_ (prop ai "title") (VStr "Untitled product")))
    as [title|e]; cbn [bind].
  - destruct (iterate (or_ (prop ai "images") (VArr []))) as [spread|e]; cbn [bind].
    + right. exists title, spread. split; [reflexivity|]. split; [reflexivity|].
      cbn zeta.
      destruct (WhatsApp.upsertListing w _) as [inserted|e] eqn:Hup; cbn [bind].
      * destruct (to_string title) as [shown|e]; cbn [bind].
        -- destruct (to_string (coalesce _ _)) as [id|e]; cbn [bind].
           ++ split; [reflexivity|]. right. do 2 eexists.
              split; [reflexivity|]. split; reflexivity.
           ++ split; [reflexivity|]. left. eexists. split; reflexivity.
        -- split; [reflexivity|]. left. eexists. split; reflexivity.
      * split; [reflexivity|]. left. eexists. split; reflexivity.
    + left. split; [reflexivity|]. split; [reflexivity|]. eexists; reflexivity.
  - left. split; [reflexivity|]. split; [reflexivity|]. eexists; reflexivity.
Qed.

(** The handler either posts nothing and sends at most one message, or it
    is [submit] on the first message of the envelope. *)
Lemma handler_paths (w : WhatsApp.World) (event : WhatsApp.Event) :
  let run := WhatsApp.handler w event in
  (WhatsApp.posted (fst run) = [] /\
   (WhatsApp.sent (fst run) = [] \/
    exists waId text, WhatsApp.sent (fst run) = [(waId, text)]) /\
   (WhatsApp.httpMethod event = "POST" ->
    forall r, snd run = Ok r -> status r = 200%Z)) \/
  (exists parsed waId profile text,
     WhatsApp.httpMethod event = "POST" /\
     parse_event_body (WhatsApp.body event) = Ok parsed /\
     let msg := first_elem (WhatsApp.messages_of parsed) in
     WhatsApp.sender (WhatsApp.contacts_of parsed) msg = Ok waId /\
     WhatsApp.findProfileByWaId w waId = Ok profile /\
     truthy profile = true /\
     WhatsApp.join_lines (WhatsApp.text_parts msg) = Ok text /\
     run = WhatsApp.submit w waId (prop msg "id") (prop profile "user_id") (trim text)
             (image_urls w msg)
             (if WhatsApp.running_long w then [(waId, WhatsApp.PROCESSING)] else [])).
Proof.
  cbn zeta. unfold WhatsApp.handler.
  assert (Hquiet : forall (r : outcome Response),
            (WhatsApp.httpMethod event = "POST" ->
             forall r', r = Ok r' -> status r' = 200%Z) ->
            let run := ({| WhatsApp.sent := []; WhatsApp.posted := [] |}, r) in
            WhatsApp.posted (fst run) = [] /\
            (WhatsApp.sent (fst run) = [] \/
             exists waId text, WhatsApp.sent (fst run) = [(waId, text)]) /\
            (WhatsApp.httpMethod event = "POST" ->
             forall r', snd run = Ok r' -> status r' = 200%Z)).
  { intros r Hr. cbn. split; [reflexivity|]. split; [now left|exact Hr]. }
  assert (Hone : forall (to : value) (text : string) (r : outcome Response),
            (forall r', r = Ok r' -> status r' = 200%Z) ->
            let run := ({| WhatsApp.sent := [(to, text)]; WhatsApp.posted := [] |}, r) in
            WhatsApp.posted (fst run) = [] /\
            (WhatsApp.sent (fst run) = [] \/
             exists waId text, WhatsApp.sent (fst run) = [(waId, text)]) /\
            (WhatsApp.httpMethod event = "POST" ->
             forall r', snd run = Ok r' -> status r' = 200%Z)).
  { intros to text r Hr. cbn. split; [reflexivity|].
    split; [right; do 2 eexists; reflexivity|intros _; exact Hr]. }
  destruct (String.eqb_spec (WhatsApp.httpMethod event) "GET") as [Hget|Hget].
  { left. apply Hquiet. intros Hpost. rewrite Hpost in Hget. discriminate. }
  destruct (String.eqb_spec (WhatsApp.httpMethod event) "POST") as [Hpost|Hpost].
  2:{ left. apply Hquiet. intros Hp. contradiction. }
  cbn [negb]. unfold WhatsApp.receive.
  destruct (parse_event_body (WhatsApp.body event)) as [parsed|e].
  2:{ left. apply Hquiet. intros _ r' Hr'. discriminate. }
  cbn [bind].
  destruct (get parsed "entry") as [entries|e].
  2:{ left. apply Hquiet. intros _ r' Hr'. discriminate. }
  cbn [bind].
  destruct (truthy (length_of (WhatsApp.messages_of parsed))).
  2:{ left. apply Hquiet. intros _ r' Hr'. injection Hr' as <-. reflexivity. }
  cbn [negb].
  set (msg := first_elem (WhatsApp.messages_of parsed)).
  destruct (WhatsApp.sender (WhatsApp.contacts_of parsed) msg) as [waId|e] eqn:Hs.
  2:{ left. apply Hquiet. intros _ r' Hr'. discriminate. }
  cbn [bind]. unfold get.
  destruct (nullish msg) eqn:Hmsg.
  { left. apply Hquiet. intros _ r' Hr'. discriminate. }
  cbn [bind].
  assert (Hunlinked : forall r' : Response,
            Ok {| status := 200; payload := VStr "Profile not found" |} = Ok r' ->
            status r' = 200%Z).
  { intros r' Hr'. injection Hr' as <-. reflexivity. }
  destruct (WhatsApp.findProfileByWaId w waId) as [profile|e] eqn:Hp.
  - destruct (truthy profile) eqn:Htp; cbn [negb].
    + destruct (WhatsApp.join_lines (WhatsApp.text_parts msg)) as [joined|e] eqn:Hj.
      * right. exists parsed, waId, profile, joined.
        repeat (split; [first [assumption | reflexivity]|]). reflexivity.
      * left. destruct (WhatsApp.running_long w).
        -- apply Hone. intros r' Hr'. discriminate.
        -- apply Hquiet. intros _ r' Hr'. discriminate.
    + left. apply Hone. exact Hunlinked.
  - left. apply Hone. exact Hunlinked.
Qed.

(** *** What a posted listing always looks like *)

Lemma truthy_or (x d : value) : truthy d = true -> truthy (or_ x d) = true.
Proof. intros Hd. unfold or_. destruct (truthy x) eqn:Hx; assumption. Qed.

Lemma listing_status_allowed (data : value) :
  WhatsApp.allowed_status (assoc "status" (WhatsApp.listing data)) = true.
Proof.
  unfold WhatsApp.listing. cbn [assoc String.eqb Ascii.eqb Bool.eqb].
  destruct (truthy (prop data "status")); cbn [andb]; [|reflexivity].
  destruct (WhatsApp.allowed_status (prop data "status")) eqn:Ha;
    [exact Ha|reflexivity].
Qed.

Lemma slice_shape (v title : value) :
  truthy v = true ->
  slice_to 200 v = Ok title ->
  (exists s, title = VStr s /\ s <> "" /\ String.length s <= 200) \/
  (exists items, title = VArr items /\ List.length items <= 200).
Proof.
  intros Ht Hs. destruct v as [| | | |s|items|]; simpl in Hs; try discriminate;
    injection Hs as <-.
  - left. exists (take 200 s). split; [reflexivity|]. split.
    + apply take_nonempty. intros ->. discriminate.
    + apply take_length.
  - right. exists (firstn 200 items). split; [reflexivity|].
    apply firstn_le_length.
Qed.

Lemma dedup_onto_distinct (l : list value) :
  forall seen,
    distinct (dedup_onto seen l) /\
    Forall (fun y => existsb (same_value_zero y) seen = false) (dedup_onto seen l).
Proof.
  induction l as [|x rest IH]; intros seen; simpl; [split; constructor|].
  destruct (existsb (same_value_zero x) seen) eqn:Hx; [apply IH|].
  destruct (IH (x :: seen)) as [Hd Hf]. simpl. split.
  - split; [|exact Hd].
    eapply Forall_impl; [|exact Hf]. intros y Hy. simpl in Hy.
    now apply orb_false_iff in Hy.
  - constructor; [exact Hx|].
    eapply Forall_impl; [|exact Hf]. intros y Hy. simpl in Hy.
    now apply orb_false_iff in Hy.
Qed.

Lemma dedup_onto_keeps_text (s : string) (l : list value) :
  forall seen,
    In (VStr s) l -> In (VStr s) (dedup_onto seen l) \/ In (VStr s) seen.
Proof.
  induction l as [|x rest IH]; intros seen; simpl; [intros []|].
  intros [->|Hin].
  - destruct (existsb (same_value_zero (VStr s)) seen) eqn:Hx; [|left; now left].
    right. apply existsb_exists in Hx as (y & Hy & Hsame).
    destruct y; simpl in Hsame; try discriminate.
    apply String.eqb_eq in Hsame. now subst.
  - destruct (existsb (same_value_zero x) seen) eqn:Hx; [now apply IH|].
    destruct (IH (x :: seen) Hin) as [H|[->|H]].
    + left. now right.
    + left. now left.
    + now right.
Qed.

(** X3: every listing the conversational handler posts, whatever the event
    and whatever the services reply, has a status among [ALLOWED_STATUSES],
    the source [whatsapp], no original link, a currency (NGN when the
    extraction names none) and as title either a text that is not empty and
    at most 200 characters long or a list of at most 200 items. *)
Theorem posted_listing_is_well_formed
    (w : WhatsApp.World) (event : WhatsApp.Event) (l : row) :
  In l (WhatsApp.posted (fst (WhatsApp.handler w event))) ->
  WhatsApp.allowed_status (assoc "status" l) = true /\
  assoc "source" l = VStr "whatsapp" /\
  assoc "original_link" l = VNull /\
  truthy (assoc "currency" l) = true /\
  ((exists s, assoc "title" l = VStr s /\ s <> "" /\ String.length s <= 200) \/
   (exists items, assoc "title" l = VArr items /\ List.length items <= 200)).
Proof.
  intros Hin.
  destruct (handler_paths w event) as [(Hnone & _)|Hsub].
  { rewrite Hnone in Hin. destruct Hin. }
  destruct Hsub as (parsed & waId & profile & text & _ & _ & _ & _ & _ & _ & Hrun).
  rewrite Hrun in Hin.
  destruct (submit_paths w waId
              (prop (first_elem (WhatsApp.messages_of parsed)) "id")
              (prop profile "user_id") (trim text)
              (image_urls w (first_elem (WhatsApp.messages_of parsed)))
              (if WhatsApp.running_long w then [(waId, WhatsApp.PROCESSING)] else []))
    as [(Hnone & _)|(title & spread & Htitle & _ & Hposted & _)].
  { rewrite Hnone in Hin. destruct Hin. }
  rewrite Hposted in Hin. destruct Hin as [<-|[]].
  split; [apply listing_status_allowed|].
  split; [reflexivity|]. split; [reflexivity|]. split.
  - unfold WhatsApp.listing, WhatsApp.listing_data.
    cbn [assoc prop String.eqb Ascii.eqb Bool.eqb].
    match goal with
    | |- truthy (or_ ?inner VNull) = true =>
        assert (Hc : truthy inner = true) by (apply truthy_or; reflexivity);
        unfold or_ at 1; rewrite Hc; exact Hc
    end.
  - apply (slice_shape _ title (truthy_or _ (VStr "Untitled product") eq_refl) Htitle).
Qed.

Lemma posted_listing_is_well_formed_witness :
  exists l,
    WhatsApp.posted (fst (WhatsApp.handler Sample.offline (Sample.inbound "Red bike 5000")))
      = [l] /\
    assoc "source" l = VStr "whatsapp" /\
    truthy (assoc "currency" l) = true.
Proof.
  eexists. split; [reflexivity|].
  pose proof (posted_listing_is_well_formed Sample.offline
                (Sample.inbound "Red bike 5000") _ (or_introl eq_refl))
    as (_ & Hsource & _ & Hcurrency & _).
  split; assumption.
Defined.

(** *** One message in, one listing out *)

(** X4: whatever the event and the replies of the services, the
    conversational handler posts at most one listing and sends at most two
    messages, all to one recipient; and a POST the handler answers (rather
    than throwing) is answered 200, whatever went wrong on the way. *)
Theorem one_listing_per_event (w : WhatsApp.World) (event : WhatsApp.Event) :
  let run := WhatsApp.handler w event in
  List.length (WhatsApp.posted (fst run)) <= 1 /\
  List.length (WhatsApp.sent (fst run)) <= 2 /\
  (forall m m', In m (WhatsApp.sent (fst run)) -> In m' (WhatsApp.sent (fst run)) ->
                fst m = fst m') /\
  (WhatsApp.httpMethod event = "POST" ->
   forall r, snd run = Ok r -> status r = 200%Z).
Proof.
  cbn zeta.
  destruct (handler_paths w event) as [(Hnone & Hsent & Hstatus)|Hsub].
  - rewrite Hnone. split; [simpl; lia|].
    destruct Hsent as [->|(waId & text & ->)].
    + split; [simpl; lia|]. split; [intros m m' []|exact Hstatus].
    + split; [simpl; lia|]. split; [|exact Hstatus].
      intros m m' [<-|[]] [<-|[]]. reflexivity.
  - destruct Hsub as (parsed & waId & profile & text & _ & _ & _ & _ & _ & _ & Hrun).
    rewrite Hrun.
    set (acks := if WhatsApp.running_long w then [(waId, WhatsApp.PROCESSING)] else []).
    assert (Hacks : List.length acks <= 1 /\ forall m, In m acks -> fst m = waId).
    { unfold acks. destruct (WhatsApp.running_long w); simpl.
      - split; [lia|]. intros m [<-|[]]. reflexivity.
      - split; [lia|]. intros m []. }
    destruct Hacks as [Hlen Hto].
    destruct (submit_paths w waId
                (prop (first_elem (WhatsApp.messages_of parsed)) "id")
                (prop profile "user_id") (trim text)
                (image_urls w (first_elem (WhatsApp.messages_of parsed))) acks)
      as [(Hnone & Hsent & e & He)|
          (title & spread & _ & _ & Hposted & [(e & He & Hsent)|
                                                (inserted & message & _ & Hok & Hsent)])].
    + rewrite Hnone, Hsent, He. split; [simpl; lia|]. split; [lia|].
      split; [|intros _ r Hr; discriminate].
      intros m m' Hm Hm'. now rewrite (Hto m Hm), (Hto m' Hm').
    + rewrite Hposted, Hsent, He. split; [simpl; lia|]. split; [lia|].
      split; [|intros _ r Hr; discriminate].
      intros m m' Hm Hm'. now rewrite (Hto m Hm), (Hto m' Hm').
    + rewrite Hposted, Hsent, Hok. split; [simpl; lia|].
      split; [rewrite length_app; simpl; lia|].
      split; [|intros _ r Hr; injection Hr as <-; reflexivity].
      assert (Hall : forall m, In m (acks ++ [(waId, message)])%list -> fst m = waId).
      { intros m Hm. apply in_app_or in Hm as [Hm|[<-|[]]]; [now apply Hto|reflexivity]. }
      intros m m' Hm Hm'. now rewrite (Hall m Hm), (Hall m' Hm').
Qed.

(** *** Senders without a vendor account, envelopes without a message *)

(** X5: when the first message comes from a sender whose profile cannot be
    found (the lookup fails, or it returns no row), the handler swallows the
    failure: it answers 200 [Profile not found], sends the sender the one
    message that asks to link the number, and posts no listing; the
    extraction service is not consulted. *)
Theorem unlinked_sender_is_told
    (w : WhatsApp.World) (event : WhatsApp.Event) (parsed msg waId : value)
    (rest : list value) :
  WhatsApp.httpMethod event = "POST" ->
  WhatsApp.body event = Json parsed ->
  prop (WhatsApp.change_value parsed) "messages" = VArr (msg :: rest) ->
  nullish msg = false ->
  WhatsApp.sender (WhatsApp.contacts_of parsed) msg = Ok waId ->
  (forall profile, WhatsApp.findProfileByWaId w waId = Ok profile ->
                   truthy profile = false) ->
  WhatsApp.handler w event
    = ({| WhatsApp.sent := [(waId, WhatsApp.NOT_LINKED)]; WhatsApp.posted := [] |},
       Ok {| status := 200; payload := VStr "Profile not found" |}).
Proof.
  intros Hpost Hbody Hmsgs Hmsg Hsender Hprofile.
  assert (Hparsed : nullish parsed = false).
  { destruct parsed; try reflexivity; discriminate. }
  unfold WhatsApp.handler. rewrite Hpost. cbn [String.eqb Ascii.eqb Bool.eqb negb].
  unfold WhatsApp.receive. rewrite Hbody. cbn [parse_event_body bind].
  unfold get at 1. rewrite Hparsed. cbn [bind].
  unfold WhatsApp.messages_of. rewrite Hmsgs.
  change (or_ (VArr (msg :: rest)) (VArr [])) with (VArr (msg :: rest)).
  cbn [length_of truthy num_truthy first_elem List.length].
  replace (negb (negb (Z.of_nat (S (List.length rest)) =? 0)%Z)) with false
    by (symmetry; apply negb_false_iff, negb_true_iff, Z.eqb_neq; lia).
  rewrite Hsender. cbn [bind]. unfold get. rewrite Hmsg. cbn [bind].
  destruct (WhatsApp.findProfileByWaId w waId) as [profile|e] eqn:Hp.
  - rewrite (Hprofile profile eq_refl). reflexivity.
  - reflexivity.
Qed.

Lemma unlinked_sender_is_told_witness :
  WhatsApp.handler
    {| WhatsApp.META_VERIFY_TOKEN := "s3cret";
       WhatsApp.profiles := fun _ => Throw UpstreamError;
       WhatsApp.uploaded := None;
       WhatsApp.running_long := false;
       WhatsApp.extraction := fun _ _ => WhatsApp.TransportError;
       WhatsApp.JSON_parse := fun _ => None;
       WhatsApp.stored := fun _ => Throw UpstreamError |}
    (Sample.inbound "Red bike 5000")
  = ({| WhatsApp.sent := [(VStr "2348000000000", WhatsApp.NOT_LINKED)];
        WhatsApp.posted := [] |},
     Ok {| status := 200; payload := VStr "Profile not found" |}).
Proof.
  eapply (unlinked_sender_is_told _ (Sample.inbound "Red bike 5000")
            (Sample.delivery "Red bike 5000")); try reflexivity.
  intros profile Hp. discriminate.
Defined.

(** X6: a POST whose envelope carries no message (no body at all, no entry,
    a change without messages, or an empty list of them) is answered 200
    [No messages]; nothing is looked up, sent or posted. *)
Theorem envelope_without_message_is_acknowledged
    (w : WhatsApp.World) (event : WhatsApp.Event) (parsed : value) :
  WhatsApp.httpMethod event = "POST" ->
  parse_event_body (WhatsApp.body event) = Ok parsed ->
  nullish parsed = false ->
  (truthy (prop (WhatsApp.change_value parsed) "messages") = false \/
   prop (WhatsApp.change_value parsed) "messages" = VArr []) ->
  WhatsApp.handler w event
    = ({| WhatsApp.sent := []; WhatsApp.posted := [] |},
       Ok {| status := 200; payload := VStr "No messages" |}).
Proof.
  intros Hpost Hbody Hparsed Hnone.
  unfold WhatsApp.handler. rewrite Hpost. cbn [String.eqb Ascii.eqb Bool.eqb negb].
  unfold WhatsApp.receive. rewrite Hbody. cbn [bind].
  unfold get. rewrite Hparsed. cbn [bind].
  assert (Hm : WhatsApp.messages_of parsed = VArr []).
  { unfold WhatsApp.messages_of, or_. destruct Hnone as [-> | ->]; reflexivity. }
  rewrite Hm. reflexivity.
Qed.

Lemma envelope_without_message_is_acknowledged_witness :
  WhatsApp.handler Sample.offline
    {| WhatsApp.httpMethod := "POST"; WhatsApp.rawQuery := []; WhatsApp.body := NoBody |}
  = ({| WhatsApp.sent := []; WhatsApp.posted := [] |},
     Ok {| status := 200; payload := VStr "No messages" |}).
Proof.
  apply (envelope_without_message_is_acknowledged Sample.offline _ (VObj []));
    try reflexivity.
  left. reflexivity.
Defined.

(** *** Images *)

(** X7: the images of a posted listing are a list without repetition (the
    [Set] of the extracted images and the upload), and when the message is
    an image whose upload succeeded, the public URL of the upload is among
    them. *)
Theorem uploaded_image_is_listed
    (w : WhatsApp.World) (event : WhatsApp.Event) (parsed : value) (l : row) :
  parse_event_body (WhatsApp.body event) = Ok parsed ->
  In l (WhatsApp.posted (fst (WhatsApp.handler w event))) ->
  let msg := first_elem (WhatsApp.messages_of parsed) in
  exists images,
    assoc "images" l = VArr images /\
    distinct images /\
    (forall publicUrl,
       prop msg "type" = VStr "image" ->
       truthy (prop (prop msg "image") "id") = true ->
       WhatsApp.uploaded w = Some publicUrl ->
       In (VStr publicUrl) images).
Proof.
  intros Hbody Hin msg.
  destruct (handler_paths w event) as [(Hnone & _)|Hsub].
  { rewrite Hnone in Hin. destruct Hin. }
  destruct Hsub as (parsed' & waId & profile & text & _ & Hbody' & _ & _ & _ & _ & Hrun).
  rewrite Hbody in Hbody'. injection Hbody' as <-. fold msg in Hrun.
  rewrite Hrun in Hin.
  destruct (submit_paths w waId (prop msg "id") (prop profile "user_id") (trim text)
              (image_urls w msg)
              (if WhatsApp.running_long w then [(waId, WhatsApp.PROCESSING)] else []))
    as [(Hnone & _)|(title & spread & _ & _ & Hposted & _)].
  { rewrite Hnone in Hin. destruct Hin. }
  rewrite Hposted in Hin. destruct Hin as [<-|[]].
  exists (dedup (spread ++ image_urls w msg)).
  split; [reflexivity|]. split.
  - apply dedup_onto_distinct.
  - intros publicUrl Htype Hid Hup.
    destruct (dedup_onto_keeps_text publicUrl (spread ++ image_urls w msg) [])
      as [H|[]]; [|exact H].
    apply in_or_app. right. unfold image_urls. rewrite Htype, Hid, Hup.
    cbn. now left.
Qed.

Lemma uploaded_image_is_listed_witness :
  exists l images,
    WhatsApp.posted (fst (WhatsApp.handler store_down photo)) = [l] /\
    assoc "images" l = VArr images /\
    In (VStr "https://cdn.example/wa/1.jpg") images.
Proof.
  eexists.
  destruct (uploaded_image_is_listed store_down photo _ _ eq_refl (or_introl eq_refl))
    as (images & Himages & _ & Hin).
  exists images. split; [reflexivity|]. split; [exact Himages|].
  apply Hin; reflexivity.
Defined.

(** *** A store that is down *)

(** X8: [upsertListing] does not catch a failure of the store.  When the
    store answers no POST with success, an event that gets as far as posting
    a listing makes the handler throw instead of answering, and the vendor
    is sent no confirmation (at most the interim acknowledgement). *)
Theorem store_failure_is_not_contained
    (w : WhatsApp.World) (event : WhatsApp.Event) :
  (forall r, exists e, WhatsApp.stored w r = Throw e) ->
  WhatsApp.posted (fst (WhatsApp.handler w event)) <> [] ->
  (exists e, snd (WhatsApp.handler w event) = Throw e) /\
  forall m, In m (WhatsApp.sent (fst (WhatsApp.handler w event))) ->
            snd m = WhatsApp.PROCESSING.
Proof.
  intros Hdown Hposted.
  destruct (handler_paths w event) as [(Hnone & _)|Hsub]; [contradiction|].
  destruct Hsub as (parsed & waId & profile & text & _ & _ & _ & _ & _ & _ & Hrun).
  rewrite Hrun in *.
  set (acks := if WhatsApp.running_long w then [(waId, WhatsApp.PROCESSING)] else [])
    in *.
  assert (Hacks : forall m, In m acks -> snd m = WhatsApp.PROCESSING).
  { unfold acks. destruct (WhatsApp.running_long w); intros m [].
    - now subst m.
    - contradiction. }
  destruct (submit_paths w waId
              (prop (first_elem (WhatsApp.messages_of parsed)) "id")
              (prop profile "user_id") (trim text)
              (image_urls w (first_elem (WhatsApp.messages_of parsed))) acks)
    as [(Hnone & _)|
        (title & spread & _ & _ & _ & [(e & He & Hsent)|
                                         (inserted & message & Hup & _)])].
  - contradiction.
  - rewrite He, Hsent. split; [now exists e|exact Hacks].
  - unfold WhatsApp.upsertListing in Hup.
    match type of Hup with
    | bind (WhatsApp.stored w ?r) _ = _ => destruct (Hdown r) as [e He]
    end.
    rewrite He in Hup. discriminate.
Qed.

Lemma store_failure_is_not_contained_witness :
  snd (WhatsApp.handler store_down photo) = Throw UpstreamError /\
  WhatsApp.sent (fst (WhatsApp.handler store_down photo))
    = [(VStr "2348000000000", WhatsApp.PROCESSING)].
Proof.
  destruct (store_failure_is_not_contained store_down photo) as [[e He] Hsent].
  - intros r. exists UpstreamError. reflexivity.
  - discriminate.
  - split; reflexivity.
Defined.

(* ===================================================================== *)
(** ** Further properties of [serve] *)
(* ===================================================================== *)

Lemma frame_refl (a : DB) : frame a a.
Proof. repeat split. Qed.

Lemma frame_trans (a b c : DB) : frame a b -> frame b c -> frame a c.
Proof. intros (H1 & H2 & H3) (H4 & H5 & H6). repeat split; congruence. Qed.

Lemma submitted_vendor (vendor : string) (product : value) (stamp : string) :
  assoc "vendor_id" (serialize (EdgeSync.productData vendor product stamp)) = VStr vendor.
Proof. reflexivity. Qed.

Section EdgeLoop.

Variable rt : Runtime.
Variable vendor : string.

(** One turn of the loop leaves the keys, the mappings and the log alone,
    and the listings of every other vendor. *)
Lemma try_product_frame (p : EdgeSync.Progress) (product : value) :
  let p' := fst (EdgeSync.try_product rt vendor p product) in
  frame (EdgeSync.db p') (EdgeSync.db p) /\
  forall v e, v <> vendor ->
    listings_of v e (vendor_listings (EdgeSync.db p'))
      = listings_of v e (vendor_listings (EdgeSync.db p)).
Proof.
  cbn zeta. unfold EdgeSync.try_product.
  destruct (get product "external_id") as [external_id|e];
    [|split; [apply frame_refl|reflexivity]].
  destruct (negb (truthy external_id) || negb (truthy (prop product "title")))%bool;
    [split; [apply frame_refl|reflexivity]|].
  unfold now, upsert. cbn [vendor_listings].
  destruct (refuse rt _ _) as [reason|].
  - destruct (to_string external_id); split; first [repeat split | reflexivity].
  - pose proof (fun v e => upsert_on_others
                  (serialize (EdgeSync.productData vendor product
                                (clock rt (ticks (EdgeSync.db p)))))
                  (vendor_listings (EdgeSync.db p)) v e) as Hothers.
    destruct (upsert_on vendor_external _ _) as [t stored].
    split; [repeat split|].
    intros v e Hv. apply Hothers. unfold of_pair.
    rewrite submitted_vendor. cbn [key_text opt_string_eqb].
    apply andb_false_iff. left. apply String.eqb_neq. congruence.
Qed.

Lemma sync_products_frame (products : list value) :
  forall p,
    let p' := fst (EdgeSync.sync_products rt vendor p products) in
    frame (EdgeSync.db p') (EdgeSync.db p) /\
    forall v e, v <> vendor ->
      listings_of v e (vendor_listings (EdgeSync.db p'))
        = listings_of v e (vendor_listings (EdgeSync.db p)).
Proof.
  induction products as [|product rest IH]; intros p; cbn zeta; simpl;
    [split; [apply frame_refl|reflexivity]|].
  destruct (try_product_frame p product) as [Hf Hl].
  unfold EdgeSync.sync_product.
  destruct (EdgeSync.try_product rt vendor p product) as [p1 [e|]]; simpl in Hf, Hl.
  - destruct (bind (get product "external_id") _); simpl; [|split; assumption].
    match goal with
    | |- context [EdgeSync.sync_products rt vendor ?q rest] =>
        destruct (IH q) as [Hf' Hl']
    end.
    split; [exact (frame_trans _ _ _ Hf' Hf)|].
    intros v e' Hv. rewrite (Hl' v e' Hv). now apply Hl.
  - destruct (IH p1) as [Hf' Hl']. split; [exact (frame_trans _ _ _ Hf' Hf)|].
    intros v e' Hv. rewrite (Hl' v e' Hv). now apply Hl.
Qed.

End EdgeLoop.

(** What a POST to [serve] leaves behind: one audit entry on top of a
    database that is the one it found (no credential), or the one it found
    with the key used and the listings of the key's vendor upserted. *)
Lemma serve_post_shape (rt : Runtime) (req : Request) (db : DB) :
  method req = "POST" ->
  exists e base,
    snd (EdgeSync.serve rt req db) = logRequest e base /\
    http_status e = status (fst (EdgeSync.serve rt req db)) /\
    In (status (fst (EdgeSync.serve rt req db))) serve_statuses /\
    ((base = db /\
      forall token k,
        EdgeSync.bearer (header "authorization" (headers req)) = Some token ->
        find_api_key token db <> OneRow k) \/
     (exists token k products,
        EdgeSync.bearer (header "authorization" (headers req)) = Some token /\
        find_api_key token db = OneRow k /\
        base = EdgeSync.db
                 (fst (EdgeSync.sync_products rt (vendor_id k)
                         {| EdgeSync.db := authenticated rt k db;
                            EdgeSync.processedProducts := [];
                            EdgeSync.errors := [] |} products)))).
Proof.
  intros Hm. rewrite (serve_post rt req db Hm). unfold EdgeSync.serve_try.
  unfold serve_statuses.
  destruct (EdgeSync.bearer (header "authorization" (headers req))) as [token|] eqn:Hb.
  2:{ do 2 eexists. split; [reflexivity|]. split; [reflexivity|].
      split; [simpl; tauto|]. left. split; [reflexivity|]. discriminate. }
  assert (Hnokey : find_api_key token db = NoRow \/ find_api_key token db = ManyRows ->
            forall token' k, Some token = Some token' -> find_api_key token' db <> OneRow k).
  { intros H token' k E. injection E as <-. destruct H as [H|H]; rewrite H; discriminate. }
  destruct (find_api_key token db) as [|k|] eqn:Hk.
  1,3: do 2 eexists; (split; [reflexivity|]); (split; [reflexivity|]);
       (split; [simpl; tauto|]); left; (split; [reflexivity|]); apply Hnokey; auto.
  unfold now. fold (authenticated rt k db).
  assert (Hbase : forall base,
            base = authenticated rt k db \/
            (exists products,
               base = EdgeSync.db
                        (fst (EdgeSync.sync_products rt (vendor_id k)
                                {| EdgeSync.db := authenticated rt k db;
                                   EdgeSync.processedProducts := [];
                                   EdgeSync.errors := [] |} products))) ->
            exists token' k' products,
              Some token = Some token' /\ find_api_key token' db = OneRow k' /\
              base = EdgeSync.db
                       (fst (EdgeSync.sync_products rt (vendor_id k')
                               {| EdgeSync.db := authenticated rt k' db;
                                  EdgeSync.processedProducts := [];
                                  EdgeSync.errors := [] |} products))).
  { intros base [->|[products ->]].
    - exists token, k, []. auto.
    - exists token, k, products. auto. }
  destruct (bind (req_json (body req)) EdgeSync.requestBody_of) as [requestBody|e].
  2:{ do 2 eexists. split; [reflexivity|]. split; [reflexivity|].
      split; [simpl; tauto|]. right. apply Hbase. now left. }
  destruct (negb (truthy (prop requestBody "products"))
            || negb (is_array (prop requestBody "products")))%bool.
  { do 2 eexists. split; [reflexivity|]. split; [reflexivity|].
    split; [simpl; tauto|]. right. apply Hbase. now left. }
  destruct (List.length (EdgeSync.items (prop requestBody "products")) =? 0)%nat.
  { do 2 eexists. split; [reflexivity|]. split; [reflexivity|].
    split; [simpl; tauto|]. right. apply Hbase. now left. }
  destruct (EdgeSync.sync_products rt (vendor_id k) _
              (EdgeSync.items (prop requestBody "products"))) as [p [e|]] eqn:Hs.
  - do 2 eexists. split; [reflexivity|]. split; [reflexivity|].
    split; [simpl; tauto|]. right. apply Hbase. right.
    exists (EdgeSync.items (prop requestBody "products")).
    unfold authenticated, now. cbn [snd]. now rewrite Hs.
  - do 2 eexists. split; [reflexivity|]. split; [reflexivity|].
    split; [simpl; tauto|]. right. apply Hbase. right.
    exists (EdgeSync.items (prop requestBody "products")).
    unfold authenticated, now. cbn [snd]. now rewrite Hs.
Qed.

Lemma serve_other_method (rt : Runtime) (req : Request) (db : DB) :
  method req <> "POST" ->
  snd (EdgeSync.serve rt req db) = db /\
  In (status (fst (EdgeSync.serve rt req db))) serve_statuses.
Proof.
  intros Hm. unfold EdgeSync.serve. apply String.eqb_neq in Hm. rewrite Hm.
  destruct (method req =? "OPTIONS"); cbn; tauto.
Qed.

(** *** The audit log *)

(** X9: [serve] answers with one of the statuses 200, 400, 401, 405 and
    500.  Every POST, whatever its outcome, appends exactly one audit entry,
    whose status is the status of the answer; a request of any other method
    (OPTIONS, or one answered 405) leaves the database as it was and is not
    logged. *)
Theorem every_post_is_logged_once (rt : Runtime) (req : Request) (db : DB) :
  let answer := fst (EdgeSync.serve rt req db) in
  let after := snd (EdgeSync.serve rt req db) in
  In (status answer) serve_statuses /\
  (method req = "POST" ->
   exists e, request_log after = (request_log db ++ [e])%list /\
             http_status e = status answer) /\
  (method req <> "POST" -> after = db).
Proof.
  cbn zeta. destruct (String.eqb_spec (method req) "POST") as [Hm|Hm].
  - destruct (serve_post_shape rt req db Hm) as (e & base & Hafter & Hst & Hin & Hbase).
    split; [exact Hin|]. split; [|contradiction].
    intros _. exists e. split; [|exact Hst]. rewrite Hafter. cbn [logRequest request_log].
    f_equal.
    destruct Hbase as [[-> _]|(token & k & products & _ & _ & ->)]; [reflexivity|].
    destruct (sync_products_frame rt (vendor_id k) products
                {| EdgeSync.db := authenticated rt k db;
                   EdgeSync.processedProducts := [];
                   EdgeSync.errors := [] |}) as [(_ & _ & Hlog) _].
    exact Hlog.
  - destruct (serve_other_method rt req db Hm) as [Hsame Hin].
    split; [exact Hin|]. split; [contradiction|intros _; exact Hsame].
Qed.

(** *** One vendor's key writes one vendor's listings *)

(** X10: a request to [serve] changes the listings of a vendor only when it
    carries a key of that vendor: for every vendor [v] that is not the
    vendor of the presented key (and for every vendor when no active key
    matches), the listings of [v] under every external id are after the
    request what they were before, whatever the body holds. *)
Theorem listings_of_other_vendors_are_untouched
    (rt : Runtime) (req : Request) (db : DB) (v e : string) :
  (forall token k,
     EdgeSync.bearer (header "authorization" (headers req)) = Some token ->
     find_api_key token db = OneRow k ->
     vendor_id k <> v) ->
  listings_of v e (vendor_listings (snd (EdgeSync.serve rt req db)))
    = listings_of v e (vendor_listings db).
Proof.
  intros Hother.
  destruct (String.eqb_spec (method req) "POST") as [Hm|Hm].
  - destruct (serve_post_shape rt req db Hm) as (entry & base & -> & _ & _ & Hbase).
    cbn [logRequest vendor_listings].
    destruct Hbase as [[-> _]|(token & k & products & Hb & Hk & ->)]; [reflexivity|].
    destruct (sync_products_frame rt (vendor_id k) products
                {| EdgeSync.db := authenticated rt k db;
                   EdgeSync.processedProducts := [];
                   EdgeSync.errors := [] |}) as [_ Hl].
    cbn zeta in Hl. rewrite Hl; [reflexivity|].
    intros E. exact (Hother token k Hb Hk (eq_sym E)).
  - now rewrite (proj1 (serve_other_method rt req db Hm)).
Qed.

Lemma listings_of_other_vendors_are_untouched_witness :
  listings_of "W" "p1"
    (vendor_listings
       (snd (EdgeSync.serve Sample.runtime (post "sk_live_1" (batch [Sample.chair]))
               shared_database)))
  = [[("vendor_id", VStr "W"); ("external_id", VStr "p1"); ("title", VStr "Lamp")]].
Proof.
  rewrite (listings_of_other_vendors_are_untouched Sample.runtime
             (post "sk_live_1" (batch [Sample.chair])) shared_database "W" "p1").
  - reflexivity.
  - intros token k Hb Hk. injection Hb as <-.
    injection Hk as <-. discriminate.
Defined.

(** *** Recording the use of a key *)

(** X11: a POST that presents the one active key of its value has the
    key's [last_used_at] set to the time of the request, whatever happens
    next (a 400 for the body, a 500, a batch with errors); the other keys
    are as they were.  A request with no matching active key changes no
    key. *)
Theorem key_use_is_recorded (rt : Runtime) (req : Request) (db : DB) :
  let after := snd (EdgeSync.serve rt req db) in
  (forall token k,
     method req = "POST" ->
     EdgeSync.bearer (header "authorization" (headers req)) = Some token ->
     find_api_key token db = OneRow k ->
     vendor_api_keys after
       = map (fun x => if key_id x =? key_id k then used (clock rt (ticks db)) x else x)
             (vendor_api_keys db)) /\
  ((forall token k,
      EdgeSync.bearer (header "authorization" (headers req)) = Some token ->
      find_api_key token db <> OneRow k) ->
   vendor_api_keys after = vendor_api_keys db).
Proof.
  cbn zeta. split.
  - intros token k Hm Hb Hk.
    destruct (serve_post_shape rt req db Hm) as (entry & base & -> & _ & _ & Hbase).
    cbn [logRequest vendor_api_keys].
    destruct Hbase as [[_ Hno]|(token' & k' & products & Hb' & Hk' & ->)].
    + elim (Hno token k Hb Hk).
    + rewrite Hb in Hb'. injection Hb' as <-. rewrite Hk in Hk'. injection Hk' as <-.
      destruct (sync_products_frame rt (vendor_id k) products
                  {| EdgeSync.db := authenticated rt k db;
                     EdgeSync.processedProducts := [];
                     EdgeSync.errors := [] |}) as [(Hkeys & _) _].
      cbn zeta in Hkeys. rewrite Hkeys. reflexivity.
  - intros Hno. destruct (String.eqb_spec (method req) "POST") as [Hm|Hm].
    + destruct (serve_post_shape rt req db Hm) as (entry & base & -> & _ & _ & Hbase).
      cbn [logRequest vendor_api_keys].
      destruct Hbase as [[-> _]|(token & k & products & Hb & Hk & _)]; [reflexivity|].
      elim (Hno token k Hb Hk).
    + now rewrite (proj1 (serve_other_method rt req db Hm)).
Qed.

(** *** Failures before the loop *)

(** X12: an authenticated POST whose body cannot be read as JSON, or whose
    body is a Shopify product (a title and variants) without an id, is
    answered 500 [Internal server error] with the generic message; no
    listing is written, and the audit entry of the failure names neither the
    vendor nor the key although the request was authenticated. *)
Theorem unreadable_body_is_an_internal_error
    (rt : Runtime) (req : Request) (db : DB) (token : string) (k : ApiKey) :
  method req = "POST" ->
  EdgeSync.bearer (header "authorization" (headers req)) = Some token ->
  find_api_key token db = OneRow k ->
  (body req = NoBody \/ body req = Unparsable \/
   exists fields,
     body req = Json (VObj fields) /\
     has_key "title" fields = true /\ has_key "variants" fields = true /\
     nullish (assoc "id" fields) = true) ->
  let after := snd (EdgeSync.serve rt req db) in
  fst (EdgeSync.serve rt req db) = EdgeSync.internal_error /\
  vendor_listings after = vendor_listings db /\
  exists e,
    request_log after = (request_log db ++ [e])%list /\
    http_status e = 500%Z /\ log_vendor_id e = None /\ log_key_id e = None.
Proof.
  intros Hm Hb Hk Hbody. cbn zeta.
  rewrite (serve_post rt req db Hm). unfold EdgeSync.serve_try.
  rewrite Hb, Hk. unfold now.
  assert (Hthrow : exists e,
            bind (req_json (body req))
                 (fun rawBody => EdgeSync.requestBody_of rawBody) = Throw e).
  { destruct Hbody as [-> |[-> |(fields & -> & Ht & Hv & Hid)]];
      try (eexists; reflexivity).
    cbn [req_json bind]. unfold EdgeSync.requestBody_of. cbn [in_ bind].
    rewrite Ht, Hv. unfold EdgeSync.shopify_request, toString. cbn [prop].
    rewrite Hid. eexists. reflexivity. }
  destruct Hthrow as [e ->].
  split; [reflexivity|]. split; [reflexivity|].
  eexists. split; [reflexivity|]. repeat split.
Qed.

Lemma unreadable_body_is_an_internal_error_witness :
  fst (EdgeSync.serve Sample.runtime
         (post "sk_live_1"
            (VObj [("title", VStr "Desk"); ("variants", VArr [])]))
         Sample.database)
    = EdgeSync.internal_error.
Proof.
  refine (proj1 (unreadable_body_is_an_internal_error Sample.runtime
                   (post "sk_live_1" (VObj [("title", VStr "Desk"); ("variants", VArr [])]))
                   Sample.database "sk_live_1" Sample.key eq_refl eq_refl eq_refl _)).
  right. right. eexists. repeat split.
Defined.

(* ===================================================================== *)
(** ** Further properties of the Netlify handlers *)
(* ===================================================================== *)

Lemma upsert_frame (rt : Runtime) (cols : list string) (payload : row) (db : DB) :
  frame (snd (upsert rt cols payload db)) db.
Proof.
  unfold upsert. destruct (refuse rt _ _); [apply frame_refl|].
  destruct (upsert_on cols _ _). repeat split.
Qed.

Lemma now_frame (rt : Runtime) (db : DB) : frame (snd (now rt db)) db.
Proof. repeat split. Qed.

Lemma now_listings (rt : Runtime) (db : DB) :
  vendor_listings (snd (now rt db)) = vendor_listings db.
Proof. reflexivity. Qed.

(** A row of the table after an upsert was there before or carries the
    submitted values. *)
Lemma upsert_on_rows (cols : list string) (incoming : row) (t : list row) (l : row) :
  In l (fst (upsert_on cols incoming t)) -> In l t \/ carries incoming l.
Proof.
  induction t as [|r t IH]; cbn [upsert_on].
  - intros [<-|[]]. right. intros column _. reflexivity.
  - destruct (same_key cols incoming r).
    + intros [<-|H]; [right; apply merge_carries|left; now right].
    + destruct (upsert_on cols incoming t) as [t' stored]. cbn [fst] in *.
      intros [<-|H]; [left; now left|].
      destruct (IH H); [left; now right|now right].
Qed.

Lemma upsert_rows (rt : Runtime) (cols : list string) (payload : row) (db : DB) (l : row) :
  In l (vendor_listings (snd (upsert rt cols payload db))) ->
  In l (vendor_listings db) \/ carries (serialize payload) l.
Proof.
  unfold upsert. destruct (refuse rt _ _); [now left|].
  pose proof (upsert_on_rows cols (serialize payload) (vendor_listings db) l) as H.
  destruct (upsert_on cols _ _) as [t stored]. exact H.
Qed.

Lemma serialize_undefined (k : string) (r : row) :
  serialize ((k, VUndef) :: r) = serialize r.
Proof. reflexivity. Qed.

(** With column names that differ, serializing a row serializes each of
    its columns. *)
Lemma assoc_serialize (r : row) (k : string) :
  distinct_keys r = true -> assoc k (serialize r) = json_of (assoc k r).
Proof.
  induction r as [|[k' v] r IH]; [reflexivity|].
  cbn [distinct_keys]. intros H. apply andb_true_iff in H as [Hk Hr].
  apply negb_true_iff in Hk. specialize (IH Hr).
  assert (Hv : v = VUndef \/ v <> VUndef) by (destruct v; auto; right; discriminate).
  destruct Hv as [->|Hv].
  - rewrite serialize_undefined, IH. cbn [assoc].
    destruct (String.eqb_spec k k') as [->|_]; [|reflexivity].
    now rewrite (no_key_assoc k' r Hk).
  - rewrite (serialize_cons k' v r Hv). cbn [assoc].
    destruct (k =? k'); [reflexivity|exact IH].
Qed.

Lemma carries_column (submission l : row) (k : string) (v : value) :
  carries submission l -> assoc k submission = v -> v <> VUndef -> assoc k l = v.
Proof.
  intros Hc <- Hv. apply Hc. now apply assoc_has_key.
Qed.

Lemma store_mapping_row_forced (vendor : string) (product : value) (stamp : string)
    (l : row) :
  carries (serialize (StoreMappingSync.insertData vendor product stamp)) l ->
  forced_columns l.
Proof.
  intros Hc. unfold forced_columns.
  repeat split; (eapply carries_column; [exact Hc| |discriminate]);
    (rewrite assoc_serialize; reflexivity).
Qed.

Section NetlifyLoops.

Variable rt : Runtime.
Variable vendor : string.

Lemma store_mapping_sync_effect (products : list value) :
  forall acc db,
    let db' := fst (StoreMappingSync.sync rt vendor products acc db) in
    frame db' db /\
    forall l, In l (vendor_listings db') -> In l (vendor_listings db) \/ forced_columns l.
Proof.
  induction products as [|product rest IH]; intros acc db; cbn zeta; simpl;
    [split; [apply frame_refl|auto]|].
  destruct (get product "external_id") as [external_id|e];
    [|split; [repeat split|auto]].
  pose proof (upsert_frame rt vendor_external
                (StoreMappingSync.insertData vendor product (clock rt (ticks db)))
                (snd (now rt db))) as Hf.
  pose proof (fun l => upsert_rows rt vendor_external
                (StoreMappingSync.insertData vendor product (clock rt (ticks db)))
                (snd (now rt db)) l) as Hrows.
  unfold now in Hf, Hrows. cbn [snd] in Hf, Hrows.
  destruct (upsert rt vendor_external _ _) as [result db2]. cbn [snd] in Hf, Hrows.
  destruct (IH (acc ++ [prop product "title"])%list db2) as [Hf' Hrows'].
  split.
  - eapply frame_trans; [exact Hf'|]. eapply frame_trans; [exact Hf|]. repeat split.
  - intros l Hl. destruct (Hrows' l Hl) as [Hin|Hforced]; [|now right].
    destruct (Hrows l Hin) as [Hold|Hc]; [now left|].
    right. eapply store_mapping_row_forced. exact Hc.
Qed.

Lemma sync_variants_agree (products : list value) :
  forall acc db,
    CatalogSync.sync rt vendor products acc db
      = StoreMappingSync.sync rt vendor products acc db.
Proof.
  induction products as [|product rest IH]; intros acc db; simpl; [reflexivity|].
  destruct (get product "external_id"); [|reflexivity].
  change (CatalogSync.insertData vendor product (clock rt (ticks db)))
    with (StoreMappingSync.insertData vendor product (clock rt (ticks db))).
  destruct (upsert rt vendor_external _ _) as [result db2]. apply IH.
Qed.

End NetlifyLoops.

Lemma store_mapping_handler_effect (rt : Runtime) (event : Request) (db : DB) :
  let db' := fst (StoreMappingSync.handler rt event db) in
  frame db' db /\
  forall l, In l (vendor_listings db') -> In l (vendor_listings db) \/ forced_columns l.
Proof.
  cbn zeta. unfold StoreMappingSync.handler.
  destruct (negb (method event =? "POST")); [split; [apply frame_refl|auto]|].
  destruct (snd (StoreMappingSync.resolve event db)) as [[rejection|vendor]|e];
    try (split; [apply frame_refl|auto]).
  destruct (bind (parse_event_body (body event)) _) as [products|e];
    [|split; [apply frame_refl|auto]].
  pose proof (store_mapping_sync_effect rt vendor products [] db) as H.
  cbn zeta in H.
  destruct (StoreMappingSync.sync rt vendor products [] db) as [db' [titles|e]];
    exact H.
Qed.

Lemma catalog_handler_effect (rt : Runtime) (event : Request) (db : DB) :
  let db' := fst (CatalogSync.handler rt event db) in
  frame db' db /\
  forall l, In l (vendor_listings db') -> In l (vendor_listings db) \/ forced_columns l.
Proof.
  cbn zeta. unfold CatalogSync.handler.
  destruct (negb (method event =? "POST")); [split; [apply frame_refl|auto]|].
  destruct (snd (CatalogSync.resolve event db)) as [[rejection|vendor]|e];
    try (split; [apply frame_refl|auto]).
  destruct (bind (parse_event_body (body event)) _) as [products|e];
    [|split; [apply frame_refl|auto]].
  pose proof (store_mapping_sync_effect rt vendor products [] db) as H.
  cbn zeta in H. rewrite <- sync_variants_agree in H.
  destruct (CatalogSync.sync rt vendor products [] db) as [db' [titles|e]];
    exact H.
Qed.

(** X13: whatever the request and whatever status a product claims, every
    listing the two store-mapping handlers (catalog-sync.ts and part_001)
    write or update has the status [approved], the source [shopify-sync]
    and is visible on the dashboard: a listing of the table after the
    request was in the table before, untouched, or has these three
    columns. *)
Theorem store_mapping_listings_are_approved
    (rt : Runtime) (event : Request) (db : DB) (l : row) :
  (In l (vendor_listings (fst (StoreMappingSync.handler rt event db))) ->
   In l (vendor_listings db) \/ forced_columns l) /\
  (In l (vendor_listings (fst (CatalogSync.handler rt event db))) ->
   In l (vendor_listings db) \/ forced_columns l).
Proof.
  split.
  - apply (proj2 (store_mapping_handler_effect rt event db)).
  - apply (proj2 (catalog_handler_effect rt event db)).
Qed.

Section ApiKeyLoop.

Variable rt : Runtime.
Variable vendor : string.

Lemma api_key_sync_frame (products : list value) :
  forall inserted db,
    frame (fst (ApiKeySync.sync rt vendor products inserted db)) db.
Proof.
  induction products as [|product rest IH]; intros inserted db; simpl;
    [apply frame_refl|].
  destruct (get product "external_id"); [|apply frame_refl].
  pose proof (upsert_frame rt ApiKeySync.primary_key
                (ApiKeySync.listing vendor product (clock rt (ticks db)))
                (snd (now rt db))) as Hf.
  unfold now in Hf. cbn [snd] in Hf.
  destruct (upsert rt ApiKeySync.primary_key _ _) as [[reason|stored] db2];
    cbn [snd] in Hf;
    (eapply frame_trans; [apply IH|]); (eapply frame_trans; [exact Hf|]);
    repeat split.
Qed.

(** The loop of the API-key handler over items none of which is [null]:
    it ends, and pushes the title of the items the store accepted. *)
Lemma api_key_sync_counts (products : list value) :
  Forall (fun p => nullish p = false) products ->
  forall inserted db,
  exists db' pushed,
    ApiKeySync.sync rt vendor products inserted db = (db', Ok (inserted ++ pushed)%list) /\
    List.length pushed <= List.length products /\
    ((forall t r, refuse rt t r = None) -> pushed = map title_of products) /\
    ((forall t r, exists reason, refuse rt t r = Some reason) ->
     pushed = [] /\ vendor_listings db' = vendor_listings db).
Proof.
  induction 1 as [|product rest Hp _ IH]; intros inserted db; simpl.
  - exists db, []. rewrite app_nil_r. repeat split; auto.
  - unfold get. rewrite Hp. unfold upsert, now. cbn [vendor_listings].
    destruct (refuse rt (vendor_listings db) _) as [reason|] eqn:Hr.
    + destruct (IH inserted
                  {| vendor_api_keys := vendor_api_keys db;
                     shopify_store_mappings := shopify_store_mappings db;
                     vendor_listings := vendor_listings db;
                     request_log := request_log db;
                     ticks := S (ticks db) |})
        as (db' & pushed & Hs & Hlen & Hall & Hnone).
      exists db', pushed. split; [exact Hs|]. split; [lia|]. split.
      * intros Haccept. rewrite Haccept in Hr. discriminate.
      * intros Hrefuse. exact (Hnone Hrefuse).
    + destruct (upsert_on ApiKeySync.primary_key _ (vendor_listings db)) as [t stored].
      destruct (IH (inserted ++ [prop product "title"])%list
                  (set_listings t
                     {| vendor_api_keys := vendor_api_keys db;
                        shopify_store_mappings := shopify_store_mappings db;
                        vendor_listings := vendor_listings db;
                        request_log := request_log db;
                        ticks := S (ticks db) |}))
        as (db' & pushed & Hs & Hlen & Hall & Hnone).
      exists db', (prop product "title" :: pushed).
      split; [rewrite Hs; now rewrite <- app_assoc|].
      split; [simpl; lia|]. split.
      * intros Haccept. simpl. f_equal. exact (Hall Haccept).
      * intros Hrefuse. destruct (Hrefuse (vendor_listings db)
                                    (serialize (ApiKeySync.listing vendor product
                                                  (clock rt (ticks db))))) as [reason E].
        rewrite E in Hr. discriminate.
Qed.

End ApiKeyLoop.

(** X14: the three Netlify handlers (catalog-sync.ts, part_001 and the
    API-key handler of part_000) write to the listings table only: for every
    request they leave the API keys (no [last_used_at] is recorded), the
    store mappings and the request log (no audit entry is written) exactly
    as they found them. *)
Theorem netlify_handlers_write_listings_only
    (rt : Runtime) (event : Request) (db : DB) :
  frame (fst (ApiKeySync.handler rt event db)) db /\
  frame (fst (StoreMappingSync.handler rt event db)) db /\
  frame (fst (CatalogSync.handler rt event db)) db.
Proof.
  split; [|split].
  - unfold ApiKeySync.handler.
    destruct (negb (method event =? "POST")); [apply frame_refl|].
    destruct (find_api_key (Netlify.token_of event) db) as [|k|];
      try apply frame_refl.
    destruct (bind (parse_event_body (body event)) _) as [products|e];
      [|apply frame_refl].
    pose proof (api_key_sync_frame rt (vendor_id k) products [] db) as H.
    destruct (ApiKeySync.sync rt (vendor_id k) products [] db) as [db' [n|e]];
      exact H.
  - apply (proj1 (store_mapping_handler_effect rt event db)).
  - apply (proj1 (catalog_handler_effect rt event db)).
Qed.

(** X15: the API-key handler counts what the store accepted, not what it
    was sent.  For an authenticated POST of a products array (no item
    [null], the body no Shopify product) the answer is 200 with
    [synced] at most the number of items: all of them when the store accepts
    every row, none (and no listing written) when the store refuses every
    row. *)
Theorem api_key_handler_counts_accepted_rows
    (rt : Runtime) (db : DB) (event : Request) (k : ApiKey)
    (payload : value) (items : list value) :
  method event = "POST" ->
  find_api_key (Netlify.token_of event) db = OneRow k ->
  body event = Json payload ->
  (truthy (prop payload "title") && truthy (prop payload "variants"))%bool = false ->
  prop payload "products" = VArr items ->
  Forall (fun p => nullish p = false) items ->
  exists db' n,
    ApiKeySync.handler rt event db
      = (db', Ok {| status := 200;
                    payload := VObj [("success", VBool true);
                                     ("synced", VNum (Dec (Z.of_nat n) 0))] |}) /\
    n <= List.length items /\
    ((forall t r, refuse rt t r = None) -> n = List.length items) /\
    ((forall t r, exists reason, refuse rt t r = Some reason) ->
     n = 0 /\ vendor_listings db' = vendor_listings db).
Proof.
  intros Hm Hk Hb Hshape Hp Hitems.
  assert (Hobj : nullish payload = false)
    by (destruct payload; simpl in Hp; try discriminate; reflexivity).
  unfold ApiKeySync.handler. rewrite Hm, Hk, Hb. cbn [String.eqb Ascii.eqb Bool.eqb negb].
  cbn [parse_event_body bind]. unfold ApiKeySync.body_of.
  replace (truthy payload && truthy (prop payload "title")
           && truthy (prop payload "variants"))%bool with false
    by (rewrite <- andb_assoc, Hshape; now rewrite andb_false_r).
  cbn [bind]. unfold get. rewrite Hobj. cbn [bind]. rewrite Hp.
  change (or_ (VArr items) (VArr [])) with (VArr items). cbn [iterate].
  destruct (api_key_sync_counts rt (vendor_id k) items Hitems [] db)
    as (db' & pushed & Hs & Hlen & Hall & Hnone).
  rewrite Hs. exists db', (List.length pushed). cbn [app].
  split; [reflexivity|]. split; [exact Hlen|]. split.
  - intros Haccept. rewrite (Hall Haccept). apply length_map.
  - intros Hrefuse. destruct (Hnone Hrefuse) as [-> Hl]. split; [reflexivity|exact Hl].
Qed.

Lemma api_key_handler_counts_accepted_rows_witness :
  exists db',
    ApiKeySync.handler Sample.closed_runtime
        (post "sk_live_1" (batch [Sample.untitled; Sample.chair])) Sample.database
      = (db', Ok {| status := 200;
                    payload := VObj [("success", VBool true);
                                     ("synced", VNum (Dec 0 0))] |}).
Proof.
  destruct (api_key_handler_counts_accepted_rows Sample.closed_runtime Sample.database
              (post "sk_live_1" (batch [Sample.untitled; Sample.chair])) Sample.key
              (batch [Sample.untitled; Sample.chair]) [Sample.untitled; Sample.chair]
              eq_refl eq_refl eq_refl eq_refl eq_refl ltac:(repeat constructor))
    as (db' & n & Hh & _ & _ & Hnone).
  destruct Hnone as [Hn _]; [intros t r; eexists; reflexivity|].
  exists db'. rewrite Hh, Hn. reflexivity.
Defined.

(** *** The two store-mapping handlers side by side *)

Lemma products_of_agree (payload : value) :
  nullish (prop payload "id") = false \/
  truthy (prop payload "products") = true \/
  truthy (prop payload "title") = false ->
  CatalogSync.products_of payload = StoreMappingSync.products_of payload.
Proof.
  intros H. unfold CatalogSync.products_of, StoreMappingSync.products_of, get.
  destruct (nullish payload); [reflexivity|]. cbn [bind].
  destruct (truthy (prop payload "products")) eqn:Hp; [reflexivity|].
  destruct (truthy (prop payload "title")) eqn:Ht; [|reflexivity].
  destruct H as [Hid|[H|H]]; try discriminate.
  unfold CatalogSync.shopify_product, StoreMappingSync.shopify_product,
    toString, StoreMappingSync.optional_toString.
  rewrite Hid. destruct (to_string (prop payload "id")); reflexivity.
Qed.

(** X16: catalog-sync.ts and the handler of part_001 are the same function
    on every request that carries a token, provided the body, when it is a
    Shopify product (a title and no products), has an id: same answer, same
    database afterwards, same failure. *)
Theorem store_mapping_variants_agree (rt : Runtime) (event : Request) (db : DB) :
  Netlify.token_of event <> "" ->
  (forall payload,
     parse_event_body (body event) = Ok payload ->
     nullish (prop payload "id") = false \/
     truthy (prop payload "products") = true \/
     truthy (prop payload "title") = false) ->
  CatalogSync.handler rt event db = StoreMappingSync.handler rt event db.
Proof.
  intros Htoken Hbody.
  unfold CatalogSync.handler, StoreMappingSync.handler.
  destruct (negb (method event =? "POST")); [reflexivity|].
  unfold CatalogSync.resolve, StoreMappingSync.resolve.
  apply String.eqb_neq in Htoken. rewrite Htoken. cbn [negb snd].
  destruct (find_api_key (Netlify.token_of event) db) as [|k|]; try reflexivity.
  destruct (parse_event_body (body event)) as [payload|e] eqn:Hp; [|reflexivity].
  cbn [bind]. rewrite (products_of_agree payload (Hbody payload eq_refl)).
  destruct (StoreMappingSync.products_of payload) as [products|e]; [|reflexivity].
  cbn [bind]. destruct (iterate products) as [items|e]; [|reflexivity].
  now rewrite sync_variants_agree.
Qed.

Lemma store_mapping_variants_agree_witness :
  CatalogSync.handler Sample.runtime
      (post "sk_live_1" (Sample.shopify_product (VStr "19.99"))) Sample.database
    = StoreMappingSync.handler Sample.runtime
        (post "sk_live_1" (Sample.shopify_product (VStr "19.99"))) Sample.database.
Proof.
  apply store_mapping_variants_agree.
  - discriminate.
  - intros payload Hp. injection Hp as <-. left. reflexivity.
Defined.

Lemma upsert_on_keyless (incoming : row) (t : list row) :
  key_text (assoc "external_id" incoming) = None ->
  upsert_on vendor_external incoming t = ((t ++ [incoming])%list, incoming).
Proof.
  intros Hk. induction t as [|r t IH]; cbn [upsert_on]; [reflexivity|].
  replace (same_key vendor_external incoming r) with false.
  - now rewrite IH.
  - symmetry. apply not_true_is_false. intros H.
    apply same_key_spec in H as (v & e & _ & _ & He & _). congruence.
Qed.

Lemma json_of_defined (v : value) : v <> VUndef -> json_of v <> VUndef.
Proof.
  destruct v as [| | |n| | |]; try (simpl; discriminate); [congruence|].
  destruct n; simpl; discriminate.
Qed.

(** No column of a serialized row holds [undefined]. *)
Lemma serialized_column_is_defined (r : row) (k : string) :
  has_key k (serialize r) = true -> assoc k (serialize r) <> VUndef.
Proof.
  induction r as [|[k' v] r IH]; [discriminate|].
  assert (Hv : v = VUndef \/ v <> VUndef) by (destruct v; auto; right; discriminate).
  destruct Hv as [->|Hv].
  - rewrite serialize_undefined. exact IH.
  - rewrite (serialize_cons k' v r Hv). cbn [has_key existsb assoc fst].
    destruct (k =? k'); [intros _; now apply json_of_defined|exact IH].
Qed.

(** X17: where the two variants part.  For an authenticated POST of a
    Shopify product without an id (a title, no products, price and images
    that convert), catalog-sync.ts throws a TypeError before it writes
    anything, while the handler of part_001 answers 200 with one synced
    title and, when the store accepts the row, appends a listing that has no
    external id column: nothing keys it, so every replay of the webhook
    appends one more. *)
Theorem shopify_product_without_id
    (rt : Runtime) (event : Request) (db : DB) (vendor : string)
    (fields : list (string * value)) (price images : value) :
  method event = "POST" ->
  body event = Json (VObj fields) ->
  truthy (assoc "products" fields) = false ->
  truthy (assoc "title" fields) = true ->
  nullish (assoc "id" fields) = true ->
  Shopify.price (VObj fields) = Ok price ->
  Shopify.images (VObj fields) = Ok images ->
  (snd (CatalogSync.resolve event db) = Ok (inr vendor) ->
   CatalogSync.handler rt event db = (db, Throw TypeError)) /\
  (snd (StoreMappingSync.resolve event db) = Ok (inr vendor) ->
   exists db',
     StoreMappingSync.handler rt event db
       = (db', Ok (StoreMappingSync.success [assoc "title" fields])) /\
     ((forall t r, refuse rt t r = None) ->
      exists l, vendor_listings db' = (vendor_listings db ++ [l])%list /\
                has_key "external_id" l = false)).
Proof.
  intros Hm Hb Hproducts Htitle Hid Hprice Himages. split; intros Hr.
  - unfold CatalogSync.handler. rewrite Hm, Hr, Hb.
    cbn [String.eqb Ascii.eqb Bool.eqb negb parse_event_body bind].
    unfold CatalogSync.products_of. cbn [get nullish prop bind].
    rewrite Hproducts, Htitle.
    unfold CatalogSync.shopify_product, toString. cbn [prop]. rewrite Hid.
    reflexivity.
  - unfold StoreMappingSync.handler. rewrite Hm, Hr, Hb.
    cbn [String.eqb Ascii.eqb Bool.eqb negb parse_event_body bind].
    unfold StoreMappingSync.products_of. cbn [get nullish prop bind].
    rewrite Hproducts, Htitle.
    unfold StoreMappingSync.shopify_product, StoreMappingSync.optional_toString.
    cbn [prop]. rewrite Hid, Hprice, Himages.
    cbn [bind iterate StoreMappingSync.sync get nullish].
    unfold now, upsert. cbn [vendor_listings].
    set (incoming := serialize (StoreMappingSync.insertData vendor _ _)).
    assert (Hkey : assoc "external_id" incoming = VUndef).
    { unfold incoming. rewrite assoc_serialize by reflexivity. reflexivity. }
    destruct (refuse rt (vendor_listings db) incoming) as [reason|] eqn:Hrefuse.
    + eexists. split; [reflexivity|].
      intros Haccept. rewrite Haccept in Hrefuse. discriminate.
    + rewrite upsert_on_keyless by (rewrite Hkey; reflexivity).
      eexists. split; [reflexivity|]. intros _.
      exists incoming. split; [reflexivity|].
      apply not_true_is_false. intros Hhas.
      exact (serialized_column_is_defined _ _ Hhas Hkey).
Qed.

Lemma shopify_product_without_id_witness :
  CatalogSync.handler Sample.runtime
      (post "sk_live_1" (VObj [("title", VStr "Desk")])) Sample.database
    = (Sample.database, Throw TypeError).
Proof.
  refine (proj1 (shopify_product_without_id Sample.runtime
                   (post "sk_live_1" (VObj [("title", VStr "Desk")]))
                   Sample.database "V" [("title", VStr "Desk")]
                   (VNum (Dec 0 0)) (VArr [])
                   eq_refl eq_refl eq_refl eq_refl eq_refl eq_refl eq_refl) eq_refl).
Defined.

(* ===================================================================== *)
(** ** Further properties across the entry points *)
(* ===================================================================== *)

Lemma stored_listing (rt : Runtime) (payload : row) (db : DB) (vendor ext : string) :
  (forall t r, refuse rt t r = None) ->
  distinct_keys payload = true ->
  assoc "vendor_id" payload = VStr vendor ->
  assoc "external_id" payload = VStr ext ->
  exists l,
    In l (listings_of vendor ext
            (vendor_listings (snd (upsert rt vendor_external payload db)))) /\
    forall column, assoc column payload <> VUndef ->
                   assoc column l = json_of (assoc column payload).
Proof.
  intros Haccept Hkeys Hv He. unfold upsert. rewrite Haccept.
  destruct (upsert_on_stored (serialize payload) (vendor_listings db)) as [Hin Hc].
  destruct (upsert_on vendor_external (serialize payload) (vendor_listings db))
    as [t stored]. cbn [fst snd] in *.
  assert (Hcol : forall column, assoc column payload <> VUndef ->
                   assoc column stored = json_of (assoc column payload)).
  { intros column Hdef. rewrite <- (assoc_serialize payload column Hkeys).
    apply Hc. apply assoc_has_key. rewrite (assoc_serialize payload column Hkeys).
    now apply json_of_defined. }
  exists stored. split; [|exact Hcol].
  rewrite listings_of_filter. apply filter_In. split; [exact Hin|].
  apply of_pair_spec.
  rewrite (Hcol "vendor_id"), (Hcol "external_id"), Hv, He;
    try (rewrite ?Hv, ?He; discriminate).
  split; reflexivity.
Qed.

(** X18: how the defaults of the transform and of the insert compose, per
    entry point.  A Shopify product whose first variant lists neither a
    price nor a quantity, and which the store accepts, is stored by the
    handler of part_001 with price 0, inventory count 1 (the insert's [|| 1]
    overrides the transform's 0) and status [approved]; the same product
    pushed through [serve] is stored with price [null] and inventory
    count 0. *)
Theorem shopify_defaults_differ_by_entry_point
    (rt : Runtime) (db : DB) (fields : list (string * value))
    (variants : list value) (images : value) (ext vendor : string) :
  (forall t r, refuse rt t r = None) ->
  truthy (assoc "title" fields) = true ->
  assoc "variants" fields = VArr variants ->
  truthy (assoc "products" fields) = false ->
  to_string (assoc "id" fields) = Ok ext ->
  nullish (assoc "id" fields) = false ->
  ext <> "" ->
  truthy (listed_price variants) = false ->
  truthy (listed_quantity variants) = false ->
  Shopify.images (VObj fields) = Ok images ->
  (forall event,
     method event = "POST" ->
     body event = Json (VObj fields) ->
     snd (StoreMappingSync.resolve event db) = Ok (inr vendor) ->
     exists l,
       In l (listings_of vendor ext
               (vendor_listings (fst (StoreMappingSync.handler rt event db)))) /\
       assoc "price" l = VNum (Dec 0 0) /\
       assoc "inventory_count" l = VNum (Dec 1 0) /\
       assoc "status" l = VStr "approved") /\
  (forall token k,
     find_api_key token db = OneRow k ->
     vendor_id k = vendor ->
     exists l,
       In l (listings_of vendor ext
               (vendor_listings (snd (EdgeSync.serve rt (post token (VObj fields)) db)))) /\
       assoc "price" l = VNull /\
       assoc "inventory_count" l = VNum (Dec 0 0)).
Proof.
  intros Haccept Htitle Hvariants Hproducts Hid Hidn Hext Hprice Hquantity Himages.
  assert (Hp : Shopify.price (VObj fields) = Ok (VNum (Dec 0 0))).
  { unfold Shopify.price, Shopify.first_variant. cbn [prop]. rewrite Hvariants.
    change (prop (first_elem (VArr variants)) "price") with (listed_price variants).
    unfold or_. rewrite Hprice. reflexivity. }
  assert (Hq : Shopify.inventory_count (VObj fields) = VNum (Dec 0 0)).
  { unfold Shopify.inventory_count, Shopify.first_variant. cbn [prop]. rewrite Hvariants.
    change (prop (first_elem (VArr variants)) "inventory_quantity")
      with (listed_quantity variants).
    unfold or_. now rewrite Hquantity. }
  assert (Hexttruthy : truthy (VStr ext) = true).
  { simpl. destruct (String.eqb_spec ext ""); [contradiction|reflexivity]. }
  split.
  - intros event Hm Hb Hr.
    unfold StoreMappingSync.handler. rewrite Hm, Hr, Hb.
    cbn [String.eqb Ascii.eqb Bool.eqb negb parse_event_body bind].
    unfold StoreMappingSync.products_of. cbn [get nullish prop bind].
    rewrite Hproducts, Htitle.
    unfold StoreMappingSync.shopify_product, StoreMappingSync.optional_toString.
    cbn [prop]. rewrite Hidn, Hid, Hp, Himages, Hq.
    cbn [bind iterate StoreMappingSync.sync get nullish].
    destruct (now rt db) as [stamp db1].
    match goal with
    | |- context [upsert rt vendor_external ?payload ?d] =>
        destruct (stored_listing rt payload d vendor ext Haccept eq_refl eq_refl eq_refl)
          as (l & Hin & Hcol);
        destruct (upsert rt vendor_external payload d) as [result db2]
    end.
    cbn [snd fst] in *. exists l. split; [exact Hin|].
    rewrite !Hcol by (cbn; discriminate). repeat split.
  - intros token k Hk Hv.
    rewrite (serve_post rt (post token (VObj fields)) db eq_refl).
    unfold EdgeSync.serve_try. rewrite bearer_post, Hk. unfold now.
    cbn [body post req_json bind]. unfold EdgeSync.requestBody_of. cbn [in_ bind].
    rewrite (assoc_has_key "title" fields)
      by (intros E; rewrite E in Htitle; discriminate).
    rewrite (assoc_has_key "variants" fields) by (rewrite Hvariants; discriminate).
    unfold EdgeSync.shopify_request, toString. cbn [prop].
    rewrite Hidn, Hid, Hp, Himages, Hq.
    cbn [bind prop assoc String.eqb Ascii.eqb Bool.eqb truthy is_array negb orb
         EdgeSync.items List.length Nat.eqb EdgeSync.sync_products].
    match goal with
    | |- context [EdgeSync.sync_product rt ?v ?p ?product] =>
        rewrite (sync_accepted rt v p product eq_refl)
    end.
    + cbn [fst snd EdgeSync.db logRequest vendor_listings set_listings].
      rewrite Hv.
      match goal with
      | |- context [upsert_on vendor_external (submission vendor ?product ?stamp) ?t] =>
          destruct (upsert_on_stored (submission vendor product stamp) t) as [Hin Hc];
          pose proof (submission_columns vendor product stamp) as Hcols;
          destruct (upsert_on vendor_external (submission vendor product stamp) t)
            as [t' stored]
      end.
      cbn [fst snd] in *.
      rewrite Hcols in Hc by (cbn; first [discriminate | now apply truthy_defined]).
      exists stored. split.
      * rewrite listings_of_filter. apply filter_In. split; [exact Hin|].
        apply of_pair_spec.
        rewrite (Hc "vendor_id" eq_refl), (Hc "external_id" eq_refl).
        split; reflexivity.
      * rewrite (Hc "price" eq_refl), (Hc "inventory_count" eq_refl). split; reflexivity.
    + unfold complete. cbn [prop assoc String.eqb Ascii.eqb Bool.eqb].
      now rewrite Hexttruthy, Htitle.
    + apply Haccept.
Qed.

Lemma shopify_defaults_differ_by_entry_point_witness :
  (exists l,
     In l (listings_of "V" "7"
             (vendor_listings
                (fst (StoreMappingSync.handler Sample.runtime
                        (post "sk_live_1"
                           (VObj [("id", VNum (Dec 7 0)); ("title", VStr "Desk");
                                  ("variants", VArr [])]))
                        Sample.database)))) /\
     assoc "inventory_count" l = VNum (Dec 1 0)) /\
  (exists l,
     In l (listings_of "V" "7"
             (vendor_listings
                (snd (EdgeSync.serve Sample.runtime
                        (post "sk_live_1"
                           (VObj [("id", VNum (Dec 7 0)); ("title", VStr "Desk");
                                  ("variants", VArr [])]))
                        Sample.database)))) /\
     assoc "inventory_count" l = VNum (Dec 0 0)).
Proof.
  destruct (shopify_defaults_differ_by_entry_point Sample.runtime Sample.database
              [("id", VNum (Dec 7 0)); ("title", VStr "Desk"); ("variants", VArr [])]
              [] (VArr []) "7" "V"
              (fun _ _ => eq_refl) eq_refl eq_refl eq_refl eq_refl eq_refl
              ltac:(discriminate) eq_refl eq_refl eq_refl) as [Hstore Hedge].
  split.
  - destruct (Hstore (post "sk_live_1"
                        (VObj [("id", VNum (Dec 7 0)); ("title", VStr "Desk");
                               ("variants", VArr [])]))
                eq_refl eq_refl eq_refl) as (l & Hin & _ & Hcount & _).
    exists l. split; assumption.
  - destruct (Hedge "sk_live_1" Sample.key eq_refl eq_refl) as (l & Hin & _ & Hcount).
    exists l. split; assumption.
Defined.

(** *** A batch that is aborted *)

Lemma sync_products_app (rt : Runtime) (vendor : string) (a b : list value) :
  forall p,
    EdgeSync.sync_products rt vendor p (a ++ b) =
      match EdgeSync.sync_products rt vendor p a with
      | (p', None) => EdgeSync.sync_products rt vendor p' b
      | (p', Some e) => (p', Some e)
      end.
Proof.
  induction a as [|product rest IH]; intros p; [reflexivity|].
  cbn [app EdgeSync.sync_products].
  destruct (EdgeSync.sync_product rt vendor p product) as [p' [e|]];
    [reflexivity|apply IH].
Qed.

(** X19: a batch is not atomic.  When a [null] item follows items that can
    be processed, [serve] answers 500 and never looks at the items after
    the [null]; the listings it leaves are exactly those that the items
    before the [null], sent alone, would have left. *)
Theorem aborted_batch_keeps_earlier_writes
    (rt : Runtime) (db : DB) (token : string) (k : ApiKey) (done rest : list value) :
  find_api_key token db = OneRow k ->
  Forall candidate done ->
  let aborted := EdgeSync.serve rt (post token (batch (done ++ VNull :: rest)))%list db in
  let alone := EdgeSync.serve rt (post token (batch done)) db in
  fst aborted = EdgeSync.internal_error /\
  vendor_listings (snd aborted) = vendor_listings (snd alone).
Proof.
  intros Hk Hdone. cbv zeta.
  rewrite (serve_batch rt db token k (done ++ VNull :: rest)%list Hk)
    by (destruct done; discriminate).
  rewrite sync_products_app.
  match goal with
  | |- context [EdgeSync.sync_products rt ?v ?p done] =>
      destruct (sync_products_reported rt v done Hdone p) as (p' & errs & n & Hs & _)
  end.
  rewrite Hs.
  change (EdgeSync.sync_products rt (vendor_id k) p' (VNull :: rest))
    with (p', Some TypeError).
  cbn [fst snd]. split; [reflexivity|].
  destruct done as [|d ds].
  - cbn in Hs. injection Hs as <-.
    rewrite (serve_post rt (post token (batch [])) db eq_refl).
    unfold EdgeSync.serve_try. rewrite bearer_post, Hk. reflexivity.
  - rewrite (serve_batch rt db token k (d :: ds) Hk) by discriminate.
    rewrite Hs. reflexivity.
Qed.

Lemma aborted_batch_keeps_earlier_writes_witness :
  fst (EdgeSync.serve Sample.runtime
         (post "sk_live_1" (batch [Sample.chair; VNull; Sample.stool])) Sample.database)
    = EdgeSync.internal_error /\
  vendor_listings
    (snd (EdgeSync.serve Sample.runtime
            (post "sk_live_1" (batch [Sample.chair; VNull; Sample.stool])) Sample.database))
    = vendor_listings
        (snd (EdgeSync.serve Sample.runtime
                (post "sk_live_1" (batch [Sample.chair])) Sample.database)).
Proof.
  apply (aborted_batch_keeps_earlier_writes Sample.runtime Sample.database "sk_live_1"
           Sample.key [Sample.chair] [Sample.stool] eq_refl).
  repeat constructor. now exists "p1".
Defined.

(** *** Requests without an active credential *)

Lemma prefix_drop (p s : string) :
  String.prefix p s = true -> s = (p ++ drop (String.length p) s)%string.
Proof.
  revert s. induction p as [|c p IH]; intros s H; [now destruct s|].
  destruct s as [|c' s]; [discriminate|]. cbn in H.
  destruct (Ascii.ascii_dec c c') as [->|]; [|discriminate].
  cbn. f_equal. now apply IH.
Qed.

Lemma bearer_header (authHeader : option string) (token : string) :
  EdgeSync.bearer authHeader = Some token ->
  authHeader = Some ("Bearer " ++ token)%string.
Proof.
  unfold EdgeSync.bearer, starts_with. destruct authHeader as [a|]; [|discriminate].
  destruct (a =? ""); [discriminate|]. cbn [orb].
  destruct (String.prefix "Bearer " a) eqn:Hp; [|discriminate].
  cbn [negb]. intros E. injection E as <-.
  f_equal. exact (prefix_drop "Bearer " a Hp).
Qed.

(** X20: unless the Authorization header of a POST is exactly [Bearer ]
    followed by the value of an active API key, [serve] answers 401,
    whatever the body is (it is not read), and changes neither a listing
    nor a key. *)
Theorem edge_rejects_without_active_key (rt : Runtime) (req : Request) (db : DB) :
  method req = "POST" ->
  (forall k, In k (vendor_api_keys db) -> is_active k = true ->
             header "authorization" (headers req) <> Some ("Bearer " ++ api_key k)%string) ->
  (fst (EdgeSync.serve rt req db) = error_response 401 EdgeSync.MISSING_AUTH \/
   fst (EdgeSync.serve rt req db) = error_response 401 EdgeSync.INVALID_KEY) /\
  vendor_listings (snd (EdgeSync.serve rt req db)) = vendor_listings db /\
  vendor_api_keys (snd (EdgeSync.serve rt req db)) = vendor_api_keys db.
Proof.
  intros Hm Hkeys. rewrite (serve_post rt req db Hm). unfold EdgeSync.serve_try.
  destruct (EdgeSync.bearer (header "authorization" (headers req))) as [token|] eqn:Hb.
  - rewrite (no_credential_no_row token db).
    + cbn. auto.
    + intros k Hin [Hvalue Hactive]. apply (Hkeys k Hin Hactive).
      rewrite Hvalue. now apply bearer_header.
  - cbn. auto.
Qed.

Lemma edge_rejects_without_active_key_witness :
  fst (EdgeSync.serve Sample.runtime
         {| method := "POST"; headers := [("authorization", "Bearer sk_live_2")];
            body := Unparsable |} Sample.database)
    = error_response 401 EdgeSync.INVALID_KEY.
Proof.
  destruct (edge_rejects_without_active_key Sample.runtime
              {| method := "POST"; headers := [("authorization", "Bearer sk_live_2")];
                 body := Unparsable |} Sample.database eq_refl) as [[H|H] _].
  - intros k [<-|[]] _. discriminate.
  - discriminate H.
  - exact H.
Defined.

(** *** The two store-mapping variants, without a token *)

(** X21: without a token, the handler of catalog-sync.ts knows the vendor
    by the name in the body only.  A body without a vendor name is rejected
    401 with no lookup and no write, whatever shop domain the headers carry;
    with a name, it issues the lookup that the handler of part_001 issues
    and resolves to a vendor exactly when that one does, to the same one. *)
Theorem catalog_sync_ignores_the_shop_domain
    (rt : Runtime) (event : Request) (db : DB) (rawBody : value) :
  method event = "POST" ->
  Netlify.token_of event = "" ->
  parse_event_body (body event) = Ok rawBody ->
  (truthy (prop rawBody "vendor") = false ->
     fst (CatalogSync.resolve event db) = [] /\
     CatalogSync.handler rt event db
       = (db, Ok (error_response 401 "No vendor name provided in webhook"))) /\
  (truthy (prop rawBody "vendor") = true ->
     fst (CatalogSync.resolve event db) = fst (StoreMappingSync.resolve event db) /\
     forall vendor,
       snd (CatalogSync.resolve event db) = Ok (inr vendor) <->
       snd (StoreMappingSync.resolve event db) = Ok (inr vendor)).
Proof.
  intros Hm Ht Hb. split; intros Hname.
  - unfold CatalogSync.handler, CatalogSync.resolve.
    rewrite Hm, Ht, Hb, Hname. split; reflexivity.
  - unfold CatalogSync.resolve, StoreMappingSync.resolve.
    rewrite Ht, Hb. cbn [String.eqb negb].
    unfold or_. rewrite !Hname. cbn [negb]. rewrite ?Hname. cbn [negb].
    destruct (to_string (prop rawBody "vendor")) as [text|e]; cbn [fst snd].
    + split; [reflexivity|]. intros vendor.
      destruct (find_mapping "store_name" text db); split; intros H;
        solve [discriminate H | exact H].
    + split; [reflexivity|]. intros vendor. split; intros H; exact H.
Qed.

Lemma catalog_sync_ignores_the_shop_domain_witness :
  let event := {| method := "POST";
                  headers := [("x-shopify-shop-domain", "acme.myshopify.com")];
                  body := Json (VObj [("title", VStr "Desk")]) |} in
  CatalogSync.handler Sample.runtime event Sample.database
    = (Sample.database, Ok (error_response 401 "No vendor name provided in webhook")) /\
  snd (StoreMappingSync.resolve event Sample.database) = Ok (inr "V").
Proof.
  intros event. split; [|reflexivity].
  apply (catalog_sync_ignores_the_shop_domain Sample.runtime event Sample.database
           (VObj [("title", VStr "Desk")]) eq_refl eq_refl eq_refl).
  reflexivity.
Defined.

(* ===================================================================== *)
(** ** Two submissions of the same pair, per entry point *)
(* ===================================================================== *)

(** *** The table *)








(** *** The rows of the keyed entry points *)





(** *** One product through a keyed entry point *)






(** *** No keyed entry point creates a duplicate *)





(** *** The entry points that name no conflict target *)









(* ===================================================================== *)
(** ** The external id of a conversational submission, and redelivery *)
(* ===================================================================== *)






